(** * CodeWise backend: the static analysis and metrics engine

    A shallow embedding of the analysis core of the repository
    (the per-file analyzer, the performance and security detectors, the
    complexity calculator and the project-level aggregation of
    [AnalysisEngine]) together with the properties the specification
    states about them.

    Conventions of the embedding:
    - a JavaScript exception is an explicit [Throw] result; [try]/[catch]
      is a [match] on the result;
    - a Babel syntax tree is a tree of [node]s carrying the [type] string
      and the few properties that the analysed code reads;
    - mutation of captured variables by visitor callbacks is explicit state
      passing through the traversal;
    - a JavaScript number is a rational, and every arithmetic operation
      whose exact result need not be representable rounds it to binary64,
      with the rounding written out ([fl]). *)

From Stdlib Require Import String Ascii List Bool Arith ZArith Lia.
From Stdlib Require Import QArith Qround Qpower Lqa.
From Stdlib Require Import DecimalString.
From Stdlib Require PrimFloat FloatOps SpecFloat Uint63.
Import ListNotations.

Set Implicit Arguments.
Local Close Scope Q_scope.
Local Open Scope string_scope.
Local Open Scope list_scope.

(* ================================================================= *)
(** ** Exceptions *)

Record JsError : Type := mkError
  { err_message : string;
    err_loc : option (Z * Z)   (* [err.loc.line], [err.loc.column] *) }.

Inductive Result (A : Type) : Type :=
| Ok (a : A)
| Throw (e : JsError).

Arguments Ok {A} a.
Arguments Throw {A} e.

Definition bind {A B : Type} (r : Result A) (k : A -> Result B) : Result B :=
  match r with
  | Ok a => k a
  | Throw e => Throw e
  end.

Notation "x <- r ;; k" := (bind r (fun x => k))
  (at level 61, r at next level, right associativity).

(** A left-to-right loop whose body may throw. *)
Fixpoint foldM {S A : Type} (f : A -> S -> Result S) (l : list A) (s : S)
  : Result S :=
  match l with
  | [] => Ok s
  | a :: tl => s' <- f a s ;; foldM f tl s'
  end.

(* ================================================================= *)
(** ** JavaScript strings

    A string is its sequence of code units; the helpers below are the
    [String.prototype] methods the analysed code calls, on the ASCII
    range. *)

Definition lower_char (c : ascii) : ascii :=
  let n := nat_of_ascii c in
  if andb (65 <=? n)%nat (n <=? 90)%nat then ascii_of_nat (n + 32) else c.

Fixpoint toLowerCase (s : string) : string :=
  match s with
  | EmptyString => EmptyString
  | String c r => String (lower_char c) (toLowerCase r)
  end.

Definition upper_char (c : ascii) : ascii :=
  let n := nat_of_ascii c in
  if andb (97 <=? n)%nat (n <=? 122)%nat then ascii_of_nat (n - 32) else c.

Fixpoint toUpperCase (s : string) : string :=
  match s with
  | EmptyString => EmptyString
  | String c r => String (upper_char c) (toUpperCase r)
  end.

(** [s.includes(sub)] *)
Fixpoint includes (s sub : string) : bool :=
  if String.prefix sub s then true
  else match s with
       | EmptyString => false
       | String _ r => includes r sub
       end.

(** [s.endsWith(suffix)] *)
Definition endsWith (s suffix : string) : bool :=
  let n := String.length s in
  let m := String.length suffix in
  if (m <=? n)%nat then String.eqb (String.substring (n - m) m s) suffix else false.

(** [s.split(sep)] for a separator of one character. *)
Fixpoint split (sep : ascii) (s : string) : list string :=
  match s with
  | EmptyString => [EmptyString]
  | String c r =>
      if Ascii.eqb c sep then EmptyString :: split sep r
      else match split sep r with
           | [] => [String c EmptyString]
           | h :: t => String c h :: t
           end
  end.

Definition newline : ascii := ascii_of_nat 10.

(** [array.includes(x)] on an array of strings. *)
Definition arr_includes (l : list string) (x : string) : bool :=
  existsb (String.eqb x) l.

(** Template-literal rendering of integers. *)
Definition show_nat (n : nat) : string := NilEmpty.string_of_uint (Nat.to_uint n).
Definition show_Z (z : Z) : string := NilZero.string_of_int (Z.to_int z).

(* ================================================================= *)
(** ** Numbers

    A JavaScript number is an IEEE 754 binary64 value. The finite ones are
    rationals, and an arithmetic operation returns the exact result rounded
    to the nearest representable value, ties to even. [fl] is that
    rounding, for magnitudes below [2^1024] (nothing in this program comes
    near the overflow threshold); not-a-number and the infinities are not
    represented. Counters (lengths, line and node counts) stay below [2^53],
    where the arithmetic of integers is exact, and are kept as [nat]. *)

Definition number : Type := Q.

(** [floor (log2 q)] for [q > 0]. *)
Definition ilog2 (q : Q) : Z :=
  let d := (Z.log2 (Qnum q) - Z.log2 (Zpos (Qden q)))%Z in
  if Qle_bool (2 ^ d)%Q q then d else (d - 1)%Z.

(** The nearest integer, ties to even. *)
Definition rne (q : Q) : Z :=
  let f := Qfloor q in
  match Qcompare (q - inject_Z f)%Q (1 # 2)%Q with
  | Lt => f
  | Gt => (f + 1)%Z
  | Eq => if Z.even f then f else (f + 1)%Z
  end.

(** The exponent of the last place of the binary64 format at [q]:
    53 significant bits, and no exponent below [-1074]. *)
Definition fexp (q : Q) : Z := Z.max (ilog2 q - 52) (-1074).

Definition fl_pos (q : Q) : Q :=
  (inject_Z (rne (q / 2 ^ fexp q)) * 2 ^ fexp q)%Q.

Definition fl (q : Q) : number :=
  match Qnum q with
  | Z0 => 0%Q
  | Zpos _ => fl_pos q
  | Zneg _ => (- fl_pos (- q))%Q
  end.

Definition fadd (x y : number) : number := fl (x + y)%Q.
Definition fsub (x y : number) : number := fl (x - y)%Q.
Definition fmul (x y : number) : number := fl (x * y)%Q.
Definition fdiv (x y : number) : number := fl (x / y)%Q.

(** A counter as a number. *)
Definition num (n : nat) : number := inject_Z (Z.of_nat n).

(** [Math.round]: the nearest integer, ties towards plus infinity. *)
Definition Math_round (x : number) : Z := Qfloor (x + (1 # 2))%Q.

Definition Math_max (x y : number) : number := if Qle_bool x y then y else x.
Definition Math_min (x y : number) : number := if Qle_bool x y then x else y.

(** Reading a primitive binary64 value of the proof assistant as a
    rational, to compare [fl] with the hardware arithmetic. *)
Definition float_value (x : PrimFloat.float) : option Q :=
  match FloatOps.Prim2SF x with
  | SpecFloat.S754_zero _ => Some 0%Q
  | SpecFloat.S754_finite s m e =>
      Some ((if s then -1 else 1) * inject_Z (Z.pos m) * 2 ^ e)%Q
  | _ => None
  end.

Definition float_of_Z (z : Z) : PrimFloat.float := PrimFloat.of_uint63 (Uint63.of_Z z).

Definition same_value (x : PrimFloat.float) (q : Q) : bool :=
  match float_value x with
  | Some r => Qeq_bool r q
  | None => false
  end.

(* ================================================================= *)
(** ** Babel syntax trees *)

Record Position : Type := mkPos { pos_line : Z; pos_column : Z }.
Record SourceLocation : Type := mkLoc { loc_start : Position; loc_end : Position }.

(** The node properties read by the analysed code. A property a node does
    not have ([undefined]) is [None]. *)
Record Props : Type := mkProps
  { p_name : option string;       (* [Identifier.name] *)
    p_value : option string;      (* [StringLiteral.value] *)
    p_operator : option string;   (* binary and logical expressions *)
    p_async : bool;               (* functions *)
    p_loc : option SourceLocation }.

(** A node: its [type], its properties and its child nodes, each under the
    key that holds it, in the order the traversal visits them. An array
    field contributes one entry per element; a [null] field none. *)
#[local] Unset Elimination Schemes.
Inductive node : Type :=
| Node (type : string) (props : Props) (children : list (string * node)).
#[local] Set Elimination Schemes.

Definition node_type (n : node) : string := let 'Node t _ _ := n in t.
Definition node_props (n : node) : Props := let 'Node _ p _ := n in p.
Definition children (n : node) : list (string * node) := let 'Node _ _ c := n in c.

Definition name (n : node) : option string := p_name (node_props n).
Definition value (n : node) : option string := p_value (node_props n).
Definition operator (n : node) : option string := p_operator (node_props n).
Definition async (n : node) : bool := p_async (node_props n).
Definition loc (n : node) : option SourceLocation := p_loc (node_props n).

(** [n.key] for a field that holds one node or [null]. *)
Definition field (key : string) (n : node) : option node :=
  match find (fun kc => String.eqb (fst kc) key) (children n) with
  | Some kc => Some (snd kc)
  | None => None
  end.

(** [n.key] for a field that holds an array of nodes. *)
Definition fields (key : string) (n : node) : list node :=
  map snd (filter (fun kc => String.eqb (fst kc) key) (children n)).

Definition isType (ty : string) (n : node) : bool := String.eqb (node_type n) ty.

(** [t.isXxx(x)] on a possibly missing node. *)
Definition isTypeO (ty : string) (o : option node) : bool :=
  match o with
  | Some n => isType ty n
  | None => false
  end.

(** [t.isIdentifier(x, { name: nm })] *)
Definition isIdentifierNamed (nm : string) (o : option node) : bool :=
  match o with
  | Some n =>
      andb (isType "Identifier" n)
           (match name n with Some s => String.eqb s nm | None => false end)
  | None => false
  end.

(** [loc?.start.line || 0] and [loc?.start.column || 0] *)
Definition start_line (l : option SourceLocation) : Z :=
  match l with
  | Some l => pos_line (loc_start l)
  | None => 0%Z
  end.

Definition start_column (l : option SourceLocation) : Z :=
  match l with
  | Some l => pos_column (loc_start l)
  | None => 0%Z
  end.

(* ----------------------------------------------------------------- *)
(** *** Traversal

    [traverse(root, visitor)] and [path.traverse(visitor)] of
    [@babel/traverse]: the strict descendants of the start node are visited
    in pre-order, and for each one the callback registered under its [type]
    runs with the node's path. None of the visitors of this program
    rewrites the tree, so a traversal is a loop over the paths of the
    descendants. The scopes that the library builds on the way are not
    represented: no modelled visitor reads them. *)

Record NodePath : Type := mkPath
  { path_node : node;                 (* [path.node] *)
    path_parent : option node         (* [path.parentPath?.node] *) }.

(** Paths of the strict descendants of [n]; their [parentPath] is set. *)
Fixpoint descend (n : node) : list NodePath :=
  match n with
  | Node _ _ cs =>
      (fix go (cs : list (string * node)) : list NodePath :=
         match cs with
         | [] => []
         | (_, c) :: tl => mkPath c (Some n) :: descend c ++ go tl
         end) cs
  end.

(** Paths met by [traverse(root, ...)]: the direct children of the root
    have no parent path, since the root itself has none. *)
Definition root_paths (root : node) : list NodePath :=
  flat_map (fun kc => mkPath (snd kc) None :: descend (snd kc)) (children root).

(** A visitor object: callbacks keyed by node type, acting on the state
    [S] they capture. *)
Definition Visitor (S : Type) : Type :=
  list (string * (NodePath -> S -> Result S)).

Definition visit {S : Type} (v : Visitor S) (p : NodePath) (s : S) : Result S :=
  match find (fun h => String.eqb (fst h) (node_type (path_node p))) v with
  | Some h => snd h p s
  | None => Ok s
  end.

Definition noScopeError (ty : string) : JsError :=
  mkError ("You must pass a scope and parentPath unless traversing a Program/File. Instead of that you tried to traverse a "
             ++ ty ++ " node without passing scope and parentPath.") None.

Definition isProgramOrFile (n : node) : bool :=
  orb (isType "Program" n) (isType "File" n).

(** [traverse(root, visitor)]: called without a scope, it refuses a root
    that is neither a [File] nor a [Program]. *)
Definition traverse {S : Type} (root : node) (v : Visitor S) (s : S) : Result S :=
  if isProgramOrFile root then foldM (visit v) (root_paths root) s
  else Throw (noScopeError (node_type root)).

(** [path.traverse(visitor)] *)
Definition path_traverse {S : Type} (p : NodePath) (v : Visitor S) (s : S)
  : Result S :=
  foldM (visit v) (descend (path_node p)) s.

(* ----------------------------------------------------------------- *)
(** *** Building trees *)

Definition noProps : Props := mkProps None None None false None.

Definition mk (ty : string) (cs : list (string * node)) : node := Node ty noProps cs.
Definition Identifier (nm : string) : node :=
  Node "Identifier" (mkProps (Some nm) None None false None) [].
Definition StringLiteral (v : string) : node :=
  Node "StringLiteral" (mkProps None (Some v) None false None) [].
Definition NumericLiteral : node := mk "NumericLiteral" [].
Definition File (body : list node) : node :=
  mk "File" [("program", mk "Program" (map (pair "body") body))].
Definition BlockStatement (body : list node) : node :=
  mk "BlockStatement" (map (pair "body") body).

(* ================================================================= *)
(** ** Issues *)

Inductive IssueSeverity : Type := error | warning | info.

Record CodeIssue : Type := mkIssue
  { type : string;
    severity : IssueSeverity;
    message : string;
    line : Z;
    column : Z;
    filePath : string;
    code : option string }.

(** [issues.push(x)] *)
Definition push {A : Type} (l : list A) (x : A) : list A := l ++ [x].

(** The interface the engine consumes:
    [detect(ast, code, filePath): Promise<CodeIssue[]>]; a rejected promise
    is a [Throw]. *)
Definition Detector : Type := node -> string -> string -> Result (list CodeIssue).

(** [x?.name || ''] *)
Definition name_or_empty (o : option node) : string :=
  match o with
  | Some n => match name n with Some s => s | None => "" end
  | None => ""
  end.

(* ================================================================= *)
(** ** ComplexityCalculator *)

Definition incr : NodePath -> nat -> Result nat := fun _ complexity => Ok (S complexity).

Definition calculate_visitor : Visitor nat :=
  [ ("IfStatement", incr);
    ("SwitchCase", fun path complexity =>
       match field "test" (path_node path) with
       | Some _ => Ok (S complexity)
       | None => Ok complexity               (* the default case *)
       end);
    ("ForStatement", incr);
    ("ForInStatement", incr);
    ("ForOfStatement", incr);
    ("WhileStatement", incr);
    ("DoWhileStatement", incr);
    ("CatchClause", incr);
    ("ConditionalExpression", incr);
    ("LogicalExpression", fun path complexity =>
       match operator (path_node path) with
       | Some op =>
           if orb (String.eqb op "||") (String.eqb op "&&")
           then Ok (S complexity) else Ok complexity
       | None => Ok complexity
       end) ].

Definition calculate (ast : node) : Result nat :=
  traverse ast calculate_visitor 1.

(* ----------------------------------------------------------------- *)
(** *** Decision points, as the specification words them *)

(** What the specification counts: the decision points of a tree. *)
Definition decision_point (n : node) : bool :=
  isType "IfStatement" n
  || (isType "SwitchCase" n && match field "test" n with Some _ => true | None => false end)
  || isType "ForStatement" n || isType "ForInStatement" n || isType "ForOfStatement" n
  || isType "WhileStatement" n
  || isType "DoWhileStatement" n
  || isType "CatchClause" n
  || isType "ConditionalExpression" n
  || (isType "LogicalExpression" n
      && match operator n with
         | Some op => String.eqb op "&&" || String.eqb op "||"
         | None => false
         end).

(** All the nodes of a tree, the root first. *)
Definition nodes (ast : node) : list node := ast :: map path_node (descend ast).

Definition count_decision_points (ast : node) : nat :=
  length (filter decision_point (nodes ast)).

(** [if (a) {} else if (b) {}] *)
Definition if_else_if : node :=
  File [ mk "IfStatement"
           [ ("test", Identifier "a");
             ("consequent", BlockStatement []);
             ("alternate",
               mk "IfStatement" [ ("test", Identifier "b");
                                  ("consequent", BlockStatement []) ]) ] ].

(** [function f() { return 1; }] *)
Definition straight_line_function : node :=
  File [ mk "FunctionDeclaration"
           [ ("id", Identifier "f");
             ("body", BlockStatement [ mk "ReturnStatement" [("argument", NumericLiteral)] ]) ] ].

(* ================================================================= *)
(** ** PerformanceDetector *)

Module PerformanceDetector.

(** The inner traversal of a [for] statement. Its state is the pair of
    the captured [nestedLoopCount] and [hasStringConcat]. The test
    [innerPath !== path] always holds: [path.traverse] visits the
    descendants of [path] only. *)
Definition loop_visitor : Visitor (nat * bool) :=
  [ ("ForStatement", fun _ st => Ok (S (fst st), snd st));
    ("WhileStatement", fun _ st => Ok (S (fst st), snd st));
    ("BinaryExpression", fun innerPath st =>
       match operator (path_node innerPath) with
       | Some "+" => Ok (fst st, true)
       | _ => Ok st
       end) ].

Definition nested_loops_issue (nestedLoopCount : nat) (n : node) (filePath : string)
  : CodeIssue :=
  {| type := "performance";
     severity := warning;
     message := "O(n^" ++ show_nat (nestedLoopCount + 1)
                ++ ") complexity detected — consider optimization";
     line := start_line (loc n);
     column := start_column (loc n);
     filePath := filePath;
     code := Some "NESTED_LOOPS" |}.

Definition string_concat_issue (n : node) (filePath : string) : CodeIssue :=
  {| type := "performance";
     severity := info;
     message := "String concatenation in loop — use array.join() or template literals";
     line := start_line (loc n);
     column := start_column (loc n);
     filePath := filePath;
     code := Some "STRING_CONCAT_LOOP" |}.

Definition ForStatement (filePath : string) (path : NodePath) (issues : list CodeIssue)
  : Result (list CodeIssue) :=
  st <- path_traverse path loop_visitor (0, false) ;;
  let nestedLoopCount := fst st in
  let hasStringConcat := snd st in
  let issues :=
    if (2 <=? nestedLoopCount)%nat
    then push issues (nested_loops_issue nestedLoopCount (path_node path) filePath)
    else issues in
  let issues :=
    if hasStringConcat
    then push issues (string_concat_issue (path_node path) filePath)
    else issues in
  Ok issues.

Definition push_visitor : Visitor bool :=
  [ ("CallExpression", fun innerPath hasPush =>
       let callee := field "callee" (path_node innerPath) in
       if isTypeO "MemberExpression" callee
          && String.eqb (name_or_empty (match callee with
                                        | Some c => field "property" c
                                        | None => None
                                        end)) "push"
       then Ok true else Ok hasPush) ].

Definition CallExpression (filePath : string) (path : NodePath) (issues : list CodeIssue)
  : Result (list CodeIssue) :=
  match field "callee" (path_node path) with
  | None => Ok issues
  | Some callee =>
      if negb (isType "MemberExpression" callee) then Ok issues
      else
        let methodName := name_or_empty (field "property" callee) in
        issues <-
          (if String.eqb methodName "forEach"
           then
             hasPush <- path_traverse path push_visitor false ;;
             if hasPush
             then Ok (push issues
                        {| type := "performance";
                           severity := info;
                           message := "Use .map() instead of .forEach() with .push()";
                           line := start_line (loc (path_node path));
                           column := start_column (loc (path_node path));
                           filePath := filePath;
                           code := Some "INEFFICIENT_ARRAY_METHOD" |})
             else Ok issues
           else Ok issues) ;;
        if arr_includes ["map"; "filter"; "reduce"] methodName
        then
          match path_parent path with
          | Some parent =>
              if isType "CallExpression" parent
                 && isTypeO "MemberExpression" (field "callee" parent)
              then Ok (push issues
                         {| type := "performance";
                            severity := info;
                            message := "Multiple array iterations detected — consider combining operations";
                            line := start_line (loc (path_node path));
                            column := start_column (loc (path_node path));
                            filePath := filePath;
                            code := Some "MULTIPLE_ITERATIONS" |})
              else Ok issues
          | None => Ok issues
          end
        else Ok issues
  end.

Definition sync_visitor : Visitor bool :=
  [ ("CallExpression", fun innerPath hasSyncOperation =>
       match field "callee" (path_node innerPath) with
       | Some callee =>
           if isType "MemberExpression" callee
              && isIdentifierNamed "fs" (field "object" callee)
              && match field "property" callee with
                 | Some property =>
                     match name property with
                     | Some nm => endsWith nm "Sync"
                     | None => false
                     end
                 | None => false
                 end
           then Ok true else Ok hasSyncOperation
       | None => Ok hasSyncOperation
       end) ].

Definition FunctionDeclaration (filePath : string) (path : NodePath)
           (issues : list CodeIssue) : Result (list CodeIssue) :=
  let isAsync := async (path_node path) in
  match loc (path_node path) with
  | None => Ok issues                       (* synthetic nodes *)
  | Some l =>
      issues <-
        (if isAsync
         then
           hasSyncOperation <- path_traverse path sync_visitor false ;;
           if hasSyncOperation
           then Ok (push issues
                      {| type := "performance";
                         severity := warning;
                         message := "Synchronous operation in async function blocks the event loop";
                         line := pos_line (loc_start l);
                         column := pos_column (loc_start l);
                         filePath := filePath;
                         code := Some "SYNC_IN_ASYNC" |})
           else Ok issues
         else Ok issues) ;;
      let lines := (pos_line (loc_end l) - pos_line (loc_start l))%Z in
      if (50 <? lines)%Z
      then Ok (push issues
                 {| type := "performance";
                    severity := info;
                    message := "Large function (" ++ show_Z lines
                               ++ " lines) — consider refactoring";
                    line := pos_line (loc_start l);
                    column := pos_column (loc_start l);
                    filePath := filePath;
                    code := Some "LARGE_FUNCTION" |})
      else Ok issues
  end.

Definition visitor (filePath : string) : Visitor (list CodeIssue) :=
  [ ("ForStatement", ForStatement filePath);
    ("CallExpression", CallExpression filePath);
    ("FunctionDeclaration", FunctionDeclaration filePath) ].

Definition detect : Detector :=
  fun ast _code filePath => traverse ast (visitor filePath) [].

End PerformanceDetector.

(* ----------------------------------------------------------------- *)
(** *** Nested loops, as the specification words them *)

Definition has_code (c : string) (i : CodeIssue) : bool :=
  match code i with
  | Some c' => String.eqb c' c
  | None => false
  end.

(** The loop constructs of the language: the five statements that the
    complexity calculator counts as loops. *)
Definition is_loop_construct (n : node) : bool :=
  isType "ForStatement" n || isType "ForInStatement" n || isType "ForOfStatement" n
  || isType "WhileStatement" n || isType "DoWhileStatement" n.

Definition nested_loop_constructs (n : node) : nat :=
  length (filter is_loop_construct (map path_node (descend n))).

(** What the detector counts: [for] and [while] statements. *)
Definition is_for_or_while (n : node) : bool :=
  isType "ForStatement" n || isType "WhileStatement" n.

Definition nested_for_while (n : node) : nat :=
  length (filter is_for_or_while (map path_node (descend n))).

(** A binary expression with the [+] operator. *)
Definition is_plus (n : node) : bool :=
  isType "BinaryExpression" n
  && match operator n with Some op => String.eqb op "+" | None => false end.

(** [for (;;) { for (const x of xs) {} do {} while (c); }] *)
Definition for_with_two_inner_loops : node :=
  mk "ForStatement"
     [ ("body",
        BlockStatement
          [ mk "ForOfStatement"
               [ ("left", mk "VariableDeclaration"
                             [("declarations", mk "VariableDeclarator" [("id", Identifier "x")])]);
                 ("right", Identifier "xs");
                 ("body", BlockStatement []) ];
            mk "DoWhileStatement"
               [ ("body", BlockStatement []); ("test", Identifier "c") ] ]) ].

(** [for (;;) { for (;;) {} while (c) {} }] *)
Definition for_with_for_and_while : node :=
  mk "ForStatement"
     [ ("body",
        BlockStatement
          [ mk "ForStatement" [ ("body", BlockStatement []) ];
            mk "WhileStatement" [ ("test", Identifier "c"); ("body", BlockStatement []) ] ]) ].

(* ================================================================= *)
(** ** SecurityDetector *)

(** [array.some(f)] for a callback that may throw. *)
Fixpoint someM {A : Type} (f : A -> Result bool) (l : list A) : Result bool :=
  match l with
  | [] => Ok false
  | a :: tl => b <- f a ;; if b then Ok true else someM f tl
  end.

Module SecurityDetector.
Section WithRegExp.

(** [hasReDoSVulnerability] tests its argument against two regular
    expression literals; the regular-expression engine is the runtime's,
    so the test is a parameter here. *)
Variable hasReDoSVulnerability : string -> bool.

Definition isSQLQuery (n : node) : bool :=
  match field "callee" n with
  | Some callee =>
      if isType "Identifier" callee
      then arr_includes ["query"; "execute"; "raw"]
                        (toLowerCase (name_or_empty (Some callee)))
      else if isType "MemberExpression" callee
              && isTypeO "Identifier" (field "property" callee)
      then arr_includes ["query"; "execute"; "raw"]
                        (toLowerCase (name_or_empty (field "property" callee)))
      else false
  | None => false
  end.

Definition containsUserInput_visitor : Visitor bool :=
  [ ("MemberExpression", fun innerPath hasInput =>
       let object := field "object" (path_node innerPath) in
       let property := field "property" (path_node innerPath) in
       (* req.body / req.params / req.query *)
       let hasInput :=
         if isIdentifierNamed "req" object && isTypeO "Identifier" property
         then
           let pname := toLowerCase (name_or_empty property) in
           if arr_includes ["body"; "params"; "query"] pname then true else hasInput
         else hasInput in
       (* .body/.params/.query in deeper chains *)
       if isTypeO "Identifier" property
          && arr_includes ["body"; "params"; "query"]
                          (toLowerCase (name_or_empty property))
       then Ok true else Ok hasInput);
    ("Identifier", fun innerPath hasInput =>
       let nm := toLowerCase (name_or_empty (Some (path_node innerPath))) in
       if arr_includes ["body"; "params"; "query"; "username"; "email"; "password"] nm
       then Ok true else Ok hasInput) ].

Definition containsUserInput (path : NodePath) : Result bool :=
  path_traverse path containsUserInput_visitor false.

(** The state is [found]; after [innerPath.stop()] no callback runs any
    more, and [stop] is called exactly when [found] is set. *)
Definition nodeContainsUserInput_visitor : Visitor bool :=
  [ ("MemberExpression", fun innerPath (found : bool) =>
       if found then Ok found
       else
         let object := field "object" (path_node innerPath) in
         let property := field "property" (path_node innerPath) in
         if isIdentifierNamed "req" object && isTypeO "Identifier" property
         then
           let pname := toLowerCase (name_or_empty property) in
           if arr_includes ["body"; "params"; "query"] pname then Ok true else Ok found
         else Ok found);
    ("Identifier", fun innerPath (found : bool) =>
       if found then Ok found
       else
         let nm := toLowerCase (name_or_empty (Some (path_node innerPath))) in
         if arr_includes ["body"; "params"; "query"; "username"; "password"; "token"] nm
         then Ok true else Ok found) ].

(** The helper starts a fresh [traverse] at the argument node. *)
Definition nodeContainsUserInput (n : node) : Result bool :=
  traverse n nodeContainsUserInput_visitor false.

Definition isCommandExecution (n : node) : bool :=
  match field "callee" n with
  | Some callee =>
      if isType "Identifier" callee
      then arr_includes ["exec"; "spawn"; "execSync"; "spawnSync"]
                        (toLowerCase (name_or_empty (Some callee)))
      else if isType "MemberExpression" callee
              && isTypeO "Identifier" (field "property" callee)
      then arr_includes ["exec"; "spawn"; "execsync"; "spawnsync"]
                        (toLowerCase (name_or_empty (field "property" callee)))
      else false
  | None => false
  end.

Definition security_issue (sev : IssueSeverity) (msg : string)
           (l : option SourceLocation) (filePath c : string) : CodeIssue :=
  {| type := "security";
     severity := sev;
     message := msg;
     line := start_line l;
     column := start_column l;
     filePath := filePath;
     code := Some c |}.

Definition CallExpression (filePath : string) (path : NodePath) (issues : list CodeIssue)
  : Result (list CodeIssue) :=
  let n := path_node path in
  (* eval() *)
  let issues :=
    if isIdentifierNamed "eval" (field "callee" n)
    then push issues
              (security_issue error "Use of eval() is dangerous and should be avoided"
                              (loc n) filePath "DANGEROUS_EVAL")
    else issues in
  (* SQL-like call *)
  issues <-
    (if isSQLQuery n
     then
       hasUserInput <- containsUserInput path ;;
       if hasUserInput
       then Ok (push issues
                  (security_issue error
                     "Potential SQL injection - use parameterized queries"
                     (loc n) filePath "SQL_INJECTION"))
       else Ok issues
     else Ok issues) ;;
  (* Command execution *)
  if isCommandExecution n
  then
    usesUserInput <- someM nodeContainsUserInput (fields "arguments" n) ;;
    if usesUserInput
    then Ok (push issues
               (security_issue error
                  "Command execution with user input - validate and sanitize"
                  (loc n) filePath "COMMAND_INJECTION"))
    else Ok issues
  else Ok issues.

Definition hardcoded_secret_issue (n : node) (filePath : string) : CodeIssue :=
  security_issue error "Hardcoded secret detected - use environment variables"
                 (loc n) filePath "HARDCODED_SECRET".

Definition VariableDeclarator (filePath : string) (path : NodePath)
           (issues : list CodeIssue) : Result (list CodeIssue) :=
  let id := field "id" (path_node path) in
  let init := field "init" (path_node path) in
  if negb (isTypeO "StringLiteral" init) then Ok issues
  else if negb (isTypeO "Identifier" id) then Ok issues   (* skip patterns *)
  else
    let varName := toLowerCase (name_or_empty id) in
    let value := match init with
                 | Some i => match value i with Some v => v | None => "" end
                 | None => ""
                 end in
    if (includes varName "password"
        || includes varName "secret"
        || includes varName "key"
        || includes varName "token")
       && (8 <? String.length value)%nat
    then Ok (push issues (hardcoded_secret_issue (path_node path) filePath))
    else Ok issues.

Definition NewExpression (filePath : string) (path : NodePath) (issues : list CodeIssue)
  : Result (list CodeIssue) :=
  let n := path_node path in
  if negb (isIdentifierNamed "RegExp" (field "callee" n)) then Ok issues
  else
    match fields "arguments" n with
    | firstArg :: _ =>
        if isType "StringLiteral" firstArg
        then
          let pattern := match value firstArg with Some v => v | None => "" end in
          if hasReDoSVulnerability pattern
          then Ok (push issues
                     (security_issue warning
                        "Regular expression may be vulnerable to ReDoS attacks"
                        (loc n) filePath "REDOS_VULNERABILITY"))
          else Ok issues
        else Ok issues
    | [] => Ok issues
    end.

Definition AssignmentExpression (filePath : string) (path : NodePath)
           (issues : list CodeIssue) : Result (list CodeIssue) :=
  match field "left" (path_node path) with
  | Some lhs =>
      if isType "MemberExpression" lhs
         && isTypeO "Identifier" (field "property" lhs)
         && String.eqb (name_or_empty (field "property" lhs)) "innerHTML"
      then Ok (push issues
                 (security_issue warning
                    "innerHTML usage can lead to XSS - use textContent or sanitize"
                    (loc (path_node path)) filePath "XSS_RISK"))
      else Ok issues
  | None => Ok issues
  end.

Definition visitor (filePath : string) : Visitor (list CodeIssue) :=
  [ ("CallExpression", CallExpression filePath);
    ("VariableDeclarator", VariableDeclarator filePath);
    ("NewExpression", NewExpression filePath);
    ("AssignmentExpression", AssignmentExpression filePath) ].

Definition detect : Detector :=
  fun ast _code filePath => traverse ast (visitor filePath) [].

End WithRegExp.
End SecurityDetector.

(* ----------------------------------------------------------------- *)
(** *** Hard-coded secrets, as the specification words them *)

Definition secret_name (identifier : string) : bool :=
  existsb (includes (toLowerCase identifier)) ["password"; "secret"; "key"; "token"].

(** A declarator that binds the simple identifier [nm] to the string
    literal [v]. *)
Definition binds_string_literal (n : node) (nm v : string) : Prop :=
  isType "VariableDeclarator" n = true
  /\ exists id init,
       field "id" n = Some id /\ isType "Identifier" id = true /\ name id = Some nm
       /\ field "init" n = Some init /\ isType "StringLiteral" init = true
       /\ value init = Some v.

(** [const password = "..."] *)
Definition declarator_password (v : string) : node :=
  mk "VariableDeclarator" [ ("id", Identifier "password"); ("init", StringLiteral v) ].

Definition const_password (v : string) : node :=
  File [ mk "VariableDeclaration" [ ("declarations", declarator_password v) ] ].

(** The declarators of a tree that the claim describes as flagged. *)
Definition flagged_declarator (n : node) : bool :=
  isType "VariableDeclarator" n
  && match field "id" n, field "init" n with
     | Some id, Some init =>
         isType "Identifier" id && isType "StringLiteral" init
         && secret_name (name_or_empty (Some id))
         && (8 <? String.length (match value init with Some v => v | None => "" end))%nat
     | _, _ => false
     end.

(* ================================================================= *)
(** ** The file system and the tools around the engine *)

(** A directory entry with what the file system answers for it:
    [readFile] for a file, [readdir] for a directory. *)
#[local] Unset Elimination Schemes.
Inductive Dirent : Type :=
| FileEntry (name : string) (content : Result string)
| DirEntry (name : string) (listing : Result (list Dirent)).
#[local] Set Elimination Schemes.

Definition dirent_name (e : Dirent) : string :=
  match e with
  | FileEntry n _ => n
  | DirEntry n _ => n
  end.

(** [e.isDirectory()] *)
Definition isDirectory (e : Dirent) : bool :=
  match e with
  | FileEntry _ _ => false
  | DirEntry _ _ => true
  end.

Definition fsError (c : string) : JsError := mkError c None.

(** [readdir] of the entry [name] of a directory whose own [readdir]
    answers [listing]. *)
Definition readdir_sub (listing : Result (list Dirent)) (nm : string)
  : Result (list Dirent) :=
  entries <- listing ;;
  match find (fun e => String.eqb (dirent_name e) nm) entries with
  | Some (DirEntry _ l) => l
  | Some (FileEntry _ _) => Throw (fsError "ENOTDIR")
  | None => Throw (fsError "ENOENT")
  end.

(** A discovered file: its path, and what [readFile] answers for it. *)
Record SourceFile : Type := mkSourceFile
  { sf_path : string;
    sf_read : Result string }.

(** What [@babel/parser] returns: a tree rooted at a [File] node. *)
Record ParsedFile : Type := mkParsed
  { parsed_ast : node;
    parsed_root : isProgramOrFile parsed_ast = true }.

Record LintMessage : Type := mkLintMessage
  { lm_severity : Z;
    lm_message : string;
    lm_line : option Z;
    lm_column : option Z;
    lm_ruleId : option string }.

Record LintResult : Type := mkLintResult { messages : list LintMessage }.

(** [eslint.lintText(code, { filePath })] *)
Definition ESLint : Type := string -> string -> Result (list LintResult).

Record ESLintConfig : Type := mkConfig
  { cfg_extends : list string;
    cfg_plugins : list string;
    cfg_ecmaVersion : Z;
    cfg_jsx : bool }.

(** The calls of [logger], one constructor per call site. *)
Inductive LogEvent : Type :=
| InfoESLintInitialized (framework : string)
| InfoDetected (framework dir : string)
| InfoBeginning (framework : string) (totalFiles : nat)
| InfoFinished (totalFiles : nat) (duration : Z)
| WarnProgressCallbackFailed (completed totalFiles : nat) (err : JsError)
| WarnESLintFailed (rel : string) (err : JsError)
| WarnDetectorFailed (detector rel : string) (err : JsError)
| WarnSkippingDirectory (dir : string) (msg : string)
| WarnComplexityFailed (file : string) (err : JsError).

(** A progress callback acts on the caller's world [W] and may throw. *)
Definition ProgressCallback (W : Type) : Type := Z -> W -> W * option JsError.

(** The three readings of the clock in a run. *)
Record Clock : Type := mkClock { clock_start : Z; clock_end : Z; clock_stamp : Z }.

(* ================================================================= *)
(** ** Results *)

Record FileMetrics : Type := mkMetrics
  { linesOfCode : nat;
    complexity : option nat;
    functions : option nat;
    classes : option nat;
    imports : option nat }.

Module FileAnalysis.
Record t : Type := mk
  { filePath : string;
    issues : list CodeIssue;
    metrics : FileMetrics }.
End FileAnalysis.

Record IssueBreakdown : Type := mkBreakdown
  { count_error : nat; count_warning : nat; count_info : nat }.

Record MetricsData : Type := mkMetricsData
  { totalLinesOfCode : nat;
    averageComplexity : number;
    totalFunctions : nat;
    totalClasses : nat;
    maintainabilityIndex : number;
    issueBreakdown : IssueBreakdown }.

Module AnalysisResult.
Record t : Type := mk
  { projectPath : string;
    totalFiles : nat;
    analyzedFiles : nat;
    issues : list CodeIssue;
    metrics : MetricsData;
    fileAnalyses : list FileAnalysis.t;
    duration : Z;
    timestamp : Z }.
End AnalysisResult.

(* ================================================================= *)
(** ** AnalysisEngine *)

Module AnalysisEngine.
Section Engine.

(** [path.join] and [path.relative] of the runtime. *)
Variable path_join : string -> string -> string.
Variable path_relative : string -> string -> string.

(** [parse] of [@babel/parser], with the options the engine passes. *)
Variable parse : string -> Result ParsedFile.

(** [new ESLint({ overrideConfig, useEslintrc: false })] *)
Variable newESLint : ESLintConfig -> ESLint.

(** The fields of the engine. *)
Variable syntaxDetector : Detector.
Variable logicDetector : Detector.
Variable performanceDetector : Detector.
Variable securityDetector : Detector.
Variable complexityCalculator : node -> Result nat.

(** [Math.log] and [Math.log2] of the runtime. *)
Variable Math_log : number -> number.
Variable Math_log2 : number -> number.

Definition eslintConfig (framework : string) : ESLintConfig :=
  if arr_includes ["react"; "next"; "reactnative"; "expo"] framework
  then mkConfig ["eslint:recommended"; "plugin:react/recommended"]
                ["react"; "react-hooks"] 2021 true
  else if arr_includes ["vue"; "nuxt"] framework
  then mkConfig ["plugin:vue/vue3-recommended"] ["vue"] 2021 false
  else if arr_includes ["angular"; "nest"] framework
  then mkConfig ["plugin:@typescript-eslint/recommended"] ["@typescript-eslint"] 2022 false
  else if String.eqb framework "svelte"
  then mkConfig ["plugin:svelte/recommended"] ["svelte"] 2021 false
  else mkConfig ["eslint:recommended"] [] 2021 false.

Definition initESLintForFramework (framework : string) : ESLint * list LogEvent :=
  (newESLint (eslintConfig framework), [InfoESLintInitialized (toUpperCase framework)]).

(* --------------------------------------------------------------- *)
(** *** detectFrameworkAndSource *)

Definition indicators : list (string * list string) :=
  [ ("react", ["App.js"; "App.tsx"; "package.json"]);
    ("next", ["next.config.js"; "pages"]);
    ("nest", ["nest-cli.json"; "main.ts"]);
    ("express", ["server.js"; "app.js"]);
    ("vue", ["App.vue"; "main.ts"]);
    ("angular", ["angular.json"]);
    ("svelte", ["App.svelte"; "svelte.config.js"]);
    ("nuxt", ["nuxt.config.js"]);
    ("reactnative", ["react-native.config.js"]);
    ("expo", ["app.json"]);
    ("fullstack", ["frontend"; "backend"; "client"; "server"]) ].

(** [/\.(ts|js|tsx|jsx|vue|svelte)$/.test(e)] *)
Definition looksLikeSource (e : string) : bool :=
  existsb (endsWith e) [".ts"; ".js"; ".tsx"; ".jsx"; ".vue"; ".svelte"].

Definition hasClue (entries : list string) (clues : list string) : bool :=
  existsb (fun c => arr_includes entries c
                    || arr_includes entries (hd "" (split "/" c))) clues.

(** A directory: its path and what [readdir] answers for it. *)
Definition Dir : Type := (string * Result (list Dirent))%type.

(** The loop over [dirsToCheck]; the state is [(framework, detectedDir)]. *)
Fixpoint detectLoop (dirsToCheck : list Dir) (st : string * Dir) : string * Dir :=
  match dirsToCheck with
  | [] => st
  | dir :: rest =>
      match snd dir with
      | Ok ents =>
          let entries := map dirent_name ents in
          let st :=
            match find (fun fw => hasClue entries (snd fw)) indicators with
            | Some fw => (fst fw, dir)
            | None => st
            end in
          if existsb looksLikeSource entries then st else detectLoop rest st
      | Throw _ => detectLoop rest st          (* ignore missing dirs *)
      end
  end.

Definition detectFrameworkAndSource (basePath : Dir) : (string * Dir) * list LogEvent :=
  let sub nm : Dir := (path_join (fst basePath) nm, readdir_sub (snd basePath) nm) in
  let dirsToCheck := [sub "src"; sub "frontend"; sub "backend"; sub "server"; basePath] in
  let r := detectLoop dirsToCheck ("node", basePath) in
  (r, [InfoDetected (toUpperCase (fst r)) (fst (snd r))]).

(* --------------------------------------------------------------- *)
(** *** getJavaScriptFiles *)

(** [/\.(mjs|cjs|js|jsx|ts|tsx|vue|svelte)$/.test(name)] *)
Definition isJavaScriptName (nm : string) : bool :=
  existsb (endsWith nm) [".mjs"; ".cjs"; ".js"; ".jsx"; ".ts"; ".tsx"; ".vue"; ".svelte"].

Definition skipped : list string := ["node_modules"; "dist"; "build"; ".git"; ".next"].

(** One turn of the loop over the entries of [dir]; for a directory the
    recursive call of [getJavaScriptFiles] is the inner loop. *)
Fixpoint scanEntry (dir : string) (e : Dirent) {struct e}
  : list SourceFile * list LogEvent :=
  let full := path_join dir (dirent_name e) in
  if arr_includes skipped (dirent_name e) then ([], [])
  else
    match e with
    | DirEntry _ listing =>
        match listing with
        | Ok entries =>
            (fix scan (es : list Dirent) : list SourceFile * list LogEvent :=
               match es with
               | [] => ([], [])
               | e' :: rest =>
                   let r1 := scanEntry full e' in
                   let r2 := scan rest in
                   (fst r1 ++ fst r2, snd r1 ++ snd r2)
               end) entries
        | Throw err => ([], [WarnSkippingDirectory full (err_message err)])
        end
    | FileEntry nm content =>
        if isJavaScriptName nm then ([mkSourceFile full content], []) else ([], [])
    end.

Definition getJavaScriptFiles (dir : Dir) : list SourceFile * list LogEvent :=
  match snd dir with
  | Ok entries =>
      fold_right (fun e r =>
                    let r1 := scanEntry (fst dir) e in
                    (fst r1 ++ fst r, snd r1 ++ snd r))
                 ([], []) entries
  | Throw err => ([], [WarnSkippingDirectory (fst dir) (err_message err)])
  end.

(* --------------------------------------------------------------- *)
(** *** analyzeFile *)

Definition mapLintSeverity (s : Z) : IssueSeverity :=
  if (s =? 2)%Z then error else if (s =? 1)%Z then warning else info.

Definition io_issue (rel : string) : CodeIssue :=
  {| type := "io"; severity := error; message := "Failed to read file";
     line := 0; column := 0; filePath := rel; code := None |}.

Definition parse_error_issue (err : JsError) (rel : string) : CodeIssue :=
  {| type := "syntax";
     severity := error;
     message := err_message err;
     line := match err_loc err with Some l => fst l | None => 0%Z end;
     column := match err_loc err with Some l => snd l | None => 0%Z end;
     filePath := rel;
     code := Some "PARSE_ERROR" |}.

Definition lint_issue (rel : string) (msg : LintMessage) : CodeIssue :=
  {| type := "lint";
     severity := mapLintSeverity (lm_severity msg);
     message := lm_message msg;
     line := match lm_line msg with Some l => l | None => 0%Z end;
     column := match lm_column msg with Some c => c | None => 0%Z end;
     filePath := rel;
     code := Some (match lm_ruleId msg with Some r => r | None => "LINT_ERROR" end) |}.

(** The ESLint block: [try { results?.forEach(...) } catch { warn }]. *)
Definition runESLint (eslint : option ESLint) (code filePath rel : string)
           (issues : list CodeIssue) : list CodeIssue * list LogEvent :=
  match eslint with
  | Some lintText =>
      match lintText code filePath with
      | Ok results =>
          (issues ++ flat_map (fun r => map (lint_issue rel) (messages r)) results, [])
      | Throw err => (issues, [WarnESLintFailed rel err])
      end
  | None => (issues, [])
  end.

Definition detectors : list (Detector * string) :=
  [ (syntaxDetector, "Syntax");
    (logicDetector, "Logic");
    (performanceDetector, "Performance");
    (securityDetector, "Security") ].

(** One turn of the loop over the detectors. *)
Definition runDetector (ast : node) (code rel : string)
           (st : list CodeIssue * list LogEvent) (d : Detector * string)
  : list CodeIssue * list LogEvent :=
  match fst d ast code rel with
  | Ok found => (fst st ++ found, snd st)
  | Throw err => (fst st, snd st ++ [WarnDetectorFailed (snd d) rel err])
  end.

Definition safeComplexity (ast : node) (file : string) : nat * list LogEvent :=
  match complexityCalculator ast with
  | Ok c => (c, [])
  | Throw err => (0, [WarnComplexityFailed file err])
  end.

Definition countFunctions (ast : node) : Result nat :=
  traverse ast [ ("FunctionDeclaration", incr);
                 ("ArrowFunctionExpression", incr);
                 ("FunctionExpression", incr) ] 0.

Definition countClasses (ast : node) : Result nat :=
  traverse ast [ ("ClassDeclaration", incr) ] 0.

Definition countImports (ast : node) : Result nat :=
  traverse ast [ ("ImportDeclaration", incr) ] 0.

Definition analyzeFile (eslint : option ESLint) (file : SourceFile) (root : string)
  : Result (FileAnalysis.t * list LogEvent) :=
  let rel := path_relative root (sf_path file) in
  match sf_read file with
  | Throw _ =>
      Ok (FileAnalysis.mk rel [io_issue rel] (mkMetrics 0 None None None None), [])
  | Ok code =>
      match parse code with
      | Throw err =>
          Ok (FileAnalysis.mk rel [parse_error_issue err rel]
                (mkMetrics (List.length (split newline code)) None None None None),
              [])
      | Ok parsed =>
          let ast := parsed_ast parsed in
          let lint := runESLint eslint code (sf_path file) rel [] in
          let found := fold_left (runDetector ast code rel) detectors (fst lint, snd lint) in
          let cx := safeComplexity ast rel in
          nfunctions <- countFunctions ast ;;
          nclasses <- countClasses ast ;;
          nimports <- countImports ast ;;
          Ok (FileAnalysis.mk rel (fst found)
                (mkMetrics (List.length (split newline code)) (Some (fst cx))
                           (Some nfunctions) (Some nclasses) (Some nimports)),
              snd found ++ snd cx)
      end
  end.

(* --------------------------------------------------------------- *)
(** *** calculateMetrics *)

Definition calculateMaintainabilityIndex (c loc : number) : number :=
  if Qeq_bool loc 0 then 0%Q
  else
    let raw :=
      fdiv (fmul (fsub (fsub 171%Q
                            (fmul (fl (52 # 10))
                                  (Math_log (fmul loc (Math_log2 (fadd loc 1%Q))))))
                       (fmul (fl (23 # 100)) c))
                 100%Q)
           171%Q in
    Math_max 0%Q (Math_min 100%Q
                    (fdiv (inject_Z (Math_round (fmul raw 100%Q))) 100%Q)).

Definition orZero (o : option nat) : nat :=
  match o with Some n => n | None => 0 end.

Definition bump (b : IssueBreakdown) (i : CodeIssue) : IssueBreakdown :=
  match severity i with
  | error => mkBreakdown (S (count_error b)) (count_warning b) (count_info b)
  | warning => mkBreakdown (count_error b) (S (count_warning b)) (count_info b)
  | info => mkBreakdown (count_error b) (count_warning b) (S (count_info b))
  end.

Record Totals : Type := mkTotals
  { t_loc : nat; t_cx : nat; t_fn : nat; t_cl : nat; t_issues : IssueBreakdown }.

Definition addFile (totals : Totals) (f : FileAnalysis.t) : Totals :=
  let m := FileAnalysis.metrics f in
  mkTotals (t_loc totals + linesOfCode m)
           (t_cx totals + orZero (complexity m))
           (t_fn totals + orZero (functions m))
           (t_cl totals + orZero (classes m))
           (fold_left bump (FileAnalysis.issues f) (t_issues totals)).

Definition calculateMetrics (files : list FileAnalysis.t) : MetricsData :=
  let totals := fold_left addFile files (mkTotals 0 0 0 0 (mkBreakdown 0 0 0)) in
  let avgCx :=
    match List.length files with
    | O => 0%Q
    | S _ => fdiv (num (t_cx totals)) (num (List.length files))
    end in
  {| totalLinesOfCode := t_loc totals;
     averageComplexity := fdiv (inject_Z (Math_round (fmul avgCx 100%Q))) 100%Q;
     totalFunctions := t_fn totals;
     totalClasses := t_cl totals;
     issueBreakdown := t_issues totals;
     maintainabilityIndex := calculateMaintainabilityIndex avgCx (num (t_loc totals)) |}.

(* --------------------------------------------------------------- *)
(** *** analyzeCodebase *)

Section Run.
Variable W : Type.
Variable progressCallback : option (ProgressCallback W).

(** [Math.round(((i + 1) / totalFiles) * 100)] *)
Definition progress (i totalFiles : nat) : Z :=
  Math_round (fmul (fdiv (num (i + 1)) (num totalFiles)) 100%Q).

(** The [if (progressCallback) { try { ... } catch { warn } }] block. *)
Definition reportProgress (i totalFiles : nat) (w : W) : W * list LogEvent :=
  match progressCallback with
  | Some callback =>
      let pct := progress i totalFiles in
      match callback pct w with
      | (w', None) => (w', [])
      | (w', Some err) => (w', [WarnProgressCallbackFailed (i + 1) totalFiles err])
      end
  | None => (w, [])
  end.

Record LoopState : Type := mkLoop
  { ls_fileAnalyses : list FileAnalysis.t;
    ls_allIssues : list CodeIssue;
    ls_world : W;
    ls_log : list LogEvent }.

(** [for (let i = 0; i < totalFiles; i++)], entered at index [i] with
    [files] the files not yet analysed. *)
Fixpoint analyzeLoop (eslint : option ESLint) (dir : string) (totalFiles : nat)
         (files : list SourceFile) (i : nat) (st : LoopState) : Result LoopState :=
  match files with
  | [] => Ok st
  | filePath :: rest =>
      analysis <- analyzeFile eslint filePath dir ;;
      let fileAnalyses := push (ls_fileAnalyses st) (fst analysis) in
      let allIssues := ls_allIssues st ++ FileAnalysis.issues (fst analysis) in
      let reported := reportProgress i totalFiles (ls_world st) in
      analyzeLoop eslint dir totalFiles rest (S i)
                  (mkLoop fileAnalyses allIssues (fst reported)
                          (ls_log st ++ snd analysis ++ snd reported))
  end.

Record Run : Type := mkRun
  { run_result : AnalysisResult.t;
    run_world : W;
    run_log : list LogEvent }.

Definition analyzeCodebase (projectPath : Dir) (clock : Clock) (w : W) : Result Run :=
  let detected := detectFrameworkAndSource projectPath in
  let framework := fst (fst detected) in
  let dir := snd (fst detected) in
  let eslint := initESLintForFramework framework in
  let files := getJavaScriptFiles dir in
  let totalFiles := List.length (fst files) in
  let start := clock_start clock in
  let log :=
    snd detected ++ snd eslint ++ snd files
    ++ [InfoBeginning (toUpperCase framework) totalFiles] in
  st <- analyzeLoop (Some (fst eslint)) (fst dir) totalFiles (fst files) 0
                    (mkLoop [] [] w log) ;;
  let metrics := calculateMetrics (ls_fileAnalyses st) in
  let duration := (clock_end clock - start)%Z in
  Ok (mkRun
        (AnalysisResult.mk (fst dir) totalFiles (List.length (ls_fileAnalyses st))
                           (ls_allIssues st) metrics (ls_fileAnalyses st)
                           duration (clock_stamp clock))
        (ls_world st)
        (ls_log st ++ [InfoFinished totalFiles duration])).

End Run.

End Engine.
End AnalysisEngine.

(* ----------------------------------------------------------------- *)
(** *** The maintainability index, as the specification words it *)



Section Maintainability.
Variable ln : number -> number.
Variable log2 : number -> number.


End Maintainability.

(* ----------------------------------------------------------------- *)
(** *** The per-file result, as the specification words it *)

(** The issues a detector contributes: those it returns, none if it fails. *)
Definition detector_issues (d : Detector) (ast : node) (code rel : string)
  : list CodeIssue :=
  match d ast code rel with
  | Ok found => found
  | Throw _ => []
  end.

(** The issues the lint pass contributes: one per diagnostic, none if the
    linter fails. *)
Definition lint_issues (eslint : option ESLint) (code filePath rel : string)
  : list CodeIssue :=
  match eslint with
  | Some lintText =>
      match lintText code filePath with
      | Ok results =>
          flat_map (fun r => map (AnalysisEngine.lint_issue rel) (messages r)) results
      | Throw _ => []
      end
  | None => []
  end.

(** The number of occurrences of a character. *)
Fixpoint count_char (c : ascii) (s : string) : nat :=
  match s with
  | EmptyString => 0
  | String c' r => (if Ascii.eqb c' c then 1 else 0) + count_char c r
  end.

(** [round(100 * completedCount / totalFiles)], in exact arithmetic. *)
Definition claimed_progress (completedCount totalFiles : nat) : Z :=
  Math_round (100 * num completedCount / num totalFiles)%Q.

(** The same, computed in binary64 in the order it is written. *)
Definition claimed_progress_binary64 (completedCount totalFiles : nat) : Z :=
  Math_round (fdiv (fmul 100%Q (num completedCount)) (num totalFiles)).

(* ----------------------------------------------------------------- *)
(** *** A small engine and project, to run the engine on *)

Definition sample_path_join (a b : string) : string := a ++ "/" ++ b.

Definition sample_path_relative (root p : string) : string :=
  if String.prefix (root ++ "/") p
  then String.substring (S (String.length root))
                        (String.length p - S (String.length root)) p
  else p.

Definition if_else_if_root : isProgramOrFile if_else_if = true := eq_refl.

(** A stand-in for the parser: the empty text is rejected, any other text
    parses to the tree of [if (a) {} else if (b) {}]. *)
Definition sample_parse (code : string) : Result ParsedFile :=
  if String.eqb code ""
  then Throw (mkError "Unexpected token (1:0)" (Some (1, 0)%Z))
  else Ok (mkParsed if_else_if if_else_if_root).

Definition sample_newESLint (cfg : ESLintConfig) : ESLint :=
  fun code filePath =>
    Ok [ mkLintResult [ mkLintMessage 2 "'a' is not defined." (Some 1%Z) (Some 5%Z)
                                      (Some "no-undef") ] ].

Definition sample_syntaxDetector : Detector :=
  fun ast code rel =>
    Ok [ mkIssue "syntax" info "Empty code block detected" 1 7 rel (Some "EMPTY_BLOCK") ].

Definition sample_logicDetector : Detector :=
  fun ast code rel => Throw (mkError "Cannot read properties of undefined" None).

Definition sample_ln (x : number) : number := 3%Q.
Definition sample_log2 (x : number) : number := 4%Q.

Definition sample_clock : Clock := mkClock 1000 1250 1251.

(** A progress callback that records the values it receives. *)
Definition record_progress : ProgressCallback (list Z) :=
  fun pct received => (received ++ [pct], None).

(** A progress callback that records the value and then throws. *)
Definition failing_progress : ProgressCallback (list Z) :=
  fun pct received => (received ++ [pct], Some (mkError "subscriber gone" None)).

Definition sample_file (nm : string) (content : string) : Dirent :=
  FileEntry nm (Ok content).

(** A project with [n] source files under [src]. *)
Definition sample_project (n : nat) : AnalysisEngine.Dir :=
  ("/p",
   Ok [ sample_file "package.json" "{}";
        DirEntry "node_modules" (Ok [sample_file "index.js" "x"]);
        DirEntry "src"
          (Ok (map (fun k => sample_file ("f" ++ show_nat k ++ ".js") "if (a) {} else if (b) {}")
                   (seq 0 n))) ]).

(** A project without any source file. *)
Definition empty_project : AnalysisEngine.Dir :=
  ("/p", Ok [ sample_file "README.md" "hello"; DirEntry "docs" (Ok []) ]).

Definition sample_analyzeFile : option ESLint -> SourceFile -> string
                                -> Result (FileAnalysis.t * list LogEvent) :=
  AnalysisEngine.analyzeFile sample_path_relative sample_parse
    sample_syntaxDetector sample_logicDetector PerformanceDetector.detect
    (SecurityDetector.detect (fun _ => false)) calculate.

Definition sample_analyzeCodebase (W : Type) (cb : option (ProgressCallback W))
  : AnalysisEngine.Dir -> Clock -> W -> Result (AnalysisEngine.Run W) :=
  AnalysisEngine.analyzeCodebase sample_path_join sample_path_relative sample_parse
    sample_newESLint sample_syntaxDetector sample_logicDetector
    PerformanceDetector.detect (SecurityDetector.detect (fun _ => false)) calculate
    sample_ln sample_log2 cb.

(** A source file that parses, and one that does not. *)
Definition sample_source : SourceFile :=
  mkSourceFile "/p/src/a.js" (Ok "if (a) {} else if (b) {}").

Definition sample_broken_source : SourceFile := mkSourceFile "/p/src/b.js" (Ok "").

(* ================================================================= *)
(** ** What the detectors report for a node

    The trigger conditions of the performance detector as predicates on a
    node and its descendants, to state what the traversal adds up to. *)

(** Some strict descendant of [n] satisfies [q]. *)
Definition contains (q : node -> bool) (n : node) : bool :=
  existsb q (map path_node (descend n)).

(** A call whose callee is a member expression, [x.m(...)]. *)
Definition is_member_call (n : node) : bool :=
  isType "CallExpression" n && isTypeO "MemberExpression" (field "callee" n).

(** The [m] of [x.m(...)] when it is an identifier, [''] otherwise. *)
Definition called_method (n : node) : string :=
  name_or_empty (match field "callee" n with
                 | Some callee => field "property" callee
                 | None => None
                 end).

Definition is_push_call (n : node) : bool :=
  is_member_call n && String.eqb (called_method n) "push".

(** [fs.xxxSync(...)] *)
Definition is_fs_sync_call (n : node) : bool :=
  isType "CallExpression" n
  && match field "callee" n with
     | Some callee =>
         isType "MemberExpression" callee
         && isIdentifierNamed "fs" (field "object" callee)
         && match field "property" callee with
            | Some property =>
                match name property with
                | Some nm => endsWith nm "Sync"
                | None => false
                end
            | None => false
            end
     | None => false
     end.

Definition performance_issue (sev : IssueSeverity) (msg : string) (l c : Z)
           (fp cd : string) : CodeIssue :=
  mkIssue "performance" sev msg l c fp (Some cd).

Definition at_node (sev : IssueSeverity) (msg cd : string) (fp : string) (p : NodePath)
  : CodeIssue :=
  performance_issue sev msg (start_line (loc (path_node p)))
                    (start_column (loc (path_node p))) fp cd.

(** A [for] statement with a [+] expression inside. *)
Definition concat_in_for (p : NodePath) : bool :=
  isType "ForStatement" (path_node p) && contains is_plus (path_node p).

(** [x.forEach(...)] with a [.push(...)] call inside. *)
Definition forEach_with_push (p : NodePath) : bool :=
  is_member_call (path_node p)
  && String.eqb (called_method (path_node p)) "forEach"
  && contains is_push_call (path_node p).

(** [x.map(...)], [x.filter(...)] or [x.reduce(...)] whose parent node is
    itself a call on a member expression. *)
Definition iteration_under_call (p : NodePath) : bool :=
  is_member_call (path_node p)
  && arr_includes ["map"; "filter"; "reduce"] (called_method (path_node p))
  && match path_parent p with
     | Some parent => is_member_call parent
     | None => false
     end.

(** An [async] function declaration with a location and a call
    [fs.xxxSync(...)] inside. *)
Definition sync_in_async (p : NodePath) : bool :=
  isType "FunctionDeclaration" (path_node p)
  && async (path_node p)
  && match loc (path_node p) with Some _ => true | None => false end
  && contains is_fs_sync_call (path_node p).

(** [loc.end.line - loc.start.line] *)
Definition line_span (n : node) : option Z :=
  match loc n with
  | Some l => Some (pos_line (loc_end l) - pos_line (loc_start l))%Z
  | None => None
  end.

(** A function declaration that spans more than 50 lines. *)
Definition large_function (p : NodePath) : bool :=
  isType "FunctionDeclaration" (path_node p)
  && match line_span (path_node p) with
     | Some lines => (50 <? lines)%Z
     | None => false
     end.

Definition when {A : Type} (b : bool) (x : A) : list A := if b then [x] else [].

(** The issues of one node, in the order the detector pushes them. *)
Definition performance_issues_at (fp : string) (p : NodePath) : list CodeIssue :=
  when (isType "ForStatement" (path_node p)
        && (2 <=? nested_for_while (path_node p))%nat)
       (PerformanceDetector.nested_loops_issue
          (nested_for_while (path_node p)) (path_node p) fp)
  ++ when (concat_in_for p) (PerformanceDetector.string_concat_issue (path_node p) fp)
  ++ when (forEach_with_push p)
          (at_node info "Use .map() instead of .forEach() with .push()"
                   "INEFFICIENT_ARRAY_METHOD" fp p)
  ++ when (iteration_under_call p)
          (at_node info "Multiple array iterations detected — consider combining operations"
                   "MULTIPLE_ITERATIONS" fp p)
  ++ when (sync_in_async p)
          (at_node warning "Synchronous operation in async function blocks the event loop"
                   "SYNC_IN_ASYNC" fp p)
  ++ when (large_function p)
          (at_node info
                   ("Large function ("
                      ++ show_Z (match line_span (path_node p) with
                                 | Some lines => lines
                                 | None => 0%Z
                                 end)
                      ++ " lines) — consider refactoring")
                   "LARGE_FUNCTION" fp p).

(** [a.map(f).filter(g)] *)
Definition chained_iterations : node :=
  File [ mk "ExpressionStatement"
            [ ("expression",
               mk "CallExpression"
                  [ ("callee",
                     mk "MemberExpression"
                        [ ("object",
                           mk "CallExpression"
                              [ ("callee", mk "MemberExpression"
                                              [ ("object", Identifier "a");
                                                ("property", Identifier "map") ]);
                                ("arguments", Identifier "f") ]);
                          ("property", Identifier "filter") ]);
                    ("arguments", Identifier "g") ]) ] ].

Definition member (object : node) (property : string) : node :=
  mk "MemberExpression" [ ("object", object); ("property", Identifier property) ].

Definition call (callee : node) (arguments : list node) : node :=
  mk "CallExpression" (("callee", callee) :: map (pair "arguments") arguments).

Definition statement (expression : node) : node :=
  mk "ExpressionStatement" [ ("expression", expression) ].

Definition binary (op : string) (l r : node) : node :=
  Node "BinaryExpression" (mkProps None None (Some op) false None)
       [ ("left", l); ("right", r) ].

Definition function_at (isAsync : bool) (first last : Z) (nm : string) (body : list node)
  : node :=
  Node "FunctionDeclaration"
       (mkProps None None None isAsync (Some (mkLoc (mkPos first 0) (mkPos last 1))))
       [ ("id", Identifier nm); ("body", BlockStatement body) ].

(** A file with one statement for each trigger:
[[
for (;;) { s = s + x; }
xs.forEach(x => out.push(x));
console.log(a.map(g));
async function load() { fs.readFileSync(p); }     // lines 10 to 12
function big() { }                                // lines 20 to 71
function fits() { }                               // lines 80 to 130
]] *)
Definition performance_sample : node :=
  File [ mk "ForStatement"
            [ ("body",
               BlockStatement
                 [ statement
                     (mk "AssignmentExpression"
                         [ ("left", Identifier "s");
                           ("right", binary "+" (Identifier "s") (Identifier "x")) ]) ]) ];
         statement
           (call (member (Identifier "xs") "forEach")
                 [ mk "ArrowFunctionExpression"
                      [ ("params", Identifier "x");
                        ("body", call (member (Identifier "out") "push")
                                      [Identifier "x"]) ] ]);
         statement
           (call (member (Identifier "console") "log")
                 [ call (member (Identifier "a") "map") [Identifier "g"] ]);
         function_at true 10 12 "load"
           [ statement (call (member (Identifier "fs") "readFileSync") [Identifier "p"]) ];
         function_at false 20 71 "big" [];
         function_at false 80 130 "fits" [] ].

(* ----------------------------------------------------------------- *)
(** *** The security detector, node by node *)

(** What the helper [containsUserInput] takes for user input: a member
    expression [x.body], [x.params] or [x.query], or an identifier named
    like a request field; names are compared in lower case. *)
Definition names_user_input (n : node) : bool :=
  (isType "MemberExpression" n
   && isTypeO "Identifier" (field "property" n)
   && arr_includes ["body"; "params"; "query"]
                   (toLowerCase (name_or_empty (field "property" n))))
  || (isType "Identifier" n
      && arr_includes ["body"; "params"; "query"; "username"; "email"; "password"]
                      (toLowerCase (name_or_empty (Some n)))).

(** [eval(...)] *)
Definition is_eval_call (n : node) : bool :=
  isType "CallExpression" n && isIdentifierNamed "eval" (field "callee" n).

(** A query call with something that names user input inside it. *)
Definition sql_flagged (n : node) : bool :=
  isType "CallExpression" n && SecurityDetector.isSQLQuery n
  && contains names_user_input n.

(** [new RegExp("pattern", ...)] with a pattern the heuristic rejects. *)
Definition redos_flagged (hasReDoSVulnerability : string -> bool) (n : node) : bool :=
  isType "NewExpression" n
  && isIdentifierNamed "RegExp" (field "callee" n)
  && match fields "arguments" n with
     | firstArg :: _ =>
         isType "StringLiteral" firstArg
         && hasReDoSVulnerability (match value firstArg with Some v => v | None => "" end)
     | [] => false
     end.

(** [x.innerHTML = ...] *)
Definition assigns_innerHTML (n : node) : bool :=
  isType "AssignmentExpression" n
  && match field "left" n with
     | Some lhs =>
         isType "MemberExpression" lhs
         && isTypeO "Identifier" (field "property" lhs)
         && String.eqb (name_or_empty (field "property" lhs)) "innerHTML"
     | None => false
     end.

Definition security_at (sev : IssueSeverity) (msg cd : string) (fp : string) (n : node)
  : CodeIssue :=
  SecurityDetector.security_issue sev msg (loc n) fp cd.

(** The issues of one node other than [COMMAND_INJECTION], in the order
    the detector pushes them. *)
Definition security_issues_at (hasReDoSVulnerability : string -> bool) (fp : string)
           (p : NodePath) : list CodeIssue :=
  let n := path_node p in
  when (is_eval_call n)
       (security_at error "Use of eval() is dangerous and should be avoided"
                    "DANGEROUS_EVAL" fp n)
  ++ when (sql_flagged n)
          (security_at error "Potential SQL injection - use parameterized queries"
                       "SQL_INJECTION" fp n)
  ++ when (flagged_declarator n) (SecurityDetector.hardcoded_secret_issue n fp)
  ++ when (redos_flagged hasReDoSVulnerability n)
          (security_at warning "Regular expression may be vulnerable to ReDoS attacks"
                       "REDOS_VULNERABILITY" fp n)
  ++ when (assigns_innerHTML n)
          (security_at warning
                       "innerHTML usage can lead to XSS - use textContent or sanitize"
                       "XSS_RISK" fp n).

(** The callee of [query(...)] or [x.query(...)], the name compared in
    lower case. *)
Definition is_query_callee (callee : node) : bool :=
  (isType "Identifier" callee
   && String.eqb (toLowerCase (name_or_empty (Some callee))) "query")
  || (isType "MemberExpression" callee
      && isTypeO "Identifier" (field "property" callee)
      && String.eqb (toLowerCase (name_or_empty (field "property" callee))) "query").

Definition command_injection_issue (fp : string) (n : node) : CodeIssue :=
  security_at error "Command execution with user input - validate and sanitize"
              "COMMAND_INJECTION" fp n.

(** A call the detector takes for a command execution, with at least one
    argument. *)
Definition command_call_with_argument (n : node) : bool :=
  isType "CallExpression" n && SecurityDetector.isCommandExecution n
  && match fields "arguments" n with [] => false | _ :: _ => true end.

(** Parsed trees have expressions for call arguments, never a [File] or a
    [Program]. *)
Definition arguments_are_expressions (ast : node) : bool :=
  forallb (fun p => forallb (fun a => negb (isProgramOrFile a))
                            (fields "arguments" (path_node p)))
          (root_paths ast).

(** A regular-expression test to run the detector with: two quantifiers
    in a row. *)
Definition sample_hasReDoSVulnerability (pattern : string) : bool :=
  includes pattern "++" || includes pattern "*+" || includes pattern "**".

(** [[
eval(src);
db.query("SELECT 1");
el.innerHTML = html;
const apiKey = "0123456789";
new RegExp("a**");
child.exec();
]] *)
Definition security_sample : node :=
  File [ statement (call (Identifier "eval") [Identifier "src"]);
         statement (call (member (Identifier "db") "query") [StringLiteral "SELECT 1"]);
         statement (mk "AssignmentExpression"
                       [ ("left", member (Identifier "el") "innerHTML");
                         ("right", Identifier "html") ]);
         mk "VariableDeclaration"
            [ ("declarations",
               mk "VariableDeclarator"
                  [ ("id", Identifier "apiKey"); ("init", StringLiteral "0123456789") ]) ];
         statement (mk "NewExpression" [ ("callee", Identifier "RegExp");
                                         ("arguments", StringLiteral "a**") ]);
         statement (call (member (Identifier "child") "exec") []) ].

(** [const m = re.exec(line);] *)
Definition regexp_exec_sample : node :=
  File [ mk "VariableDeclaration"
            [ ("declarations",
               mk "VariableDeclarator"
                  [ ("id", Identifier "m");
                    ("init", call (member (Identifier "re") "exec")
                                  [Identifier "line"]) ]) ] ].

(* ================================================================= *)
(** ** ComplexityCalculator.calculateCognitive *)

(** [traverse(root, { enter, exit })]: every node below the root is
    entered, then its children are walked in order, then it is exited. *)
Fixpoint walk {S : Type} (enter exit : node -> S -> S) (n : node) (s : S) : S :=
  match n with
  | Node _ _ cs =>
      exit n ((fix go (cs : list (string * node)) (s : S) : S :=
                 match cs with
                 | [] => s
                 | (_, c) :: tl => go tl (walk enter exit c s)
                 end) cs (enter n s))
  end.

Definition walk_all {S : Type} (enter exit : node -> S -> S) (ns : list node) (s : S) : S :=
  fold_left (fun s c => walk enter exit c s) ns s.

Definition traverse_enter_exit {S : Type} (root : node) (enter exit : node -> S -> S)
           (s : S) : Result S :=
  if isProgramOrFile root then Ok (walk_all enter exit (map snd (children root)) s)
  else Throw (noScopeError (node_type root)).

(** The two captured counters. *)
Record Cognitive : Type := mkCognitive { cognitive : Z; nesting : Z }.

Definition isControlFlow (n : node) : bool :=
  isType "IfStatement" n || isType "ForStatement" n
  || isType "WhileStatement" n || isType "SwitchStatement" n.

Definition isLogicalOperator (n : node) : bool :=
  isType "LogicalExpression" n
  && match operator n with
     | Some op => String.eqb op "&&" || String.eqb op "||"
     | None => false
     end.

Definition cognitive_enter (n : node) (s : Cognitive) : Cognitive :=
  (* Increment for control flow *)
  let s := if isControlFlow n
           then mkCognitive (cognitive s + (1 + nesting s)) (nesting s + 1)
           else s in
  (* Increment for logical operators *)
  if isLogicalOperator n then mkCognitive (cognitive s + 1) (nesting s) else s.

Definition cognitive_exit (n : node) (s : Cognitive) : Cognitive :=
  if isControlFlow n then mkCognitive (cognitive s) (nesting s - 1) else s.

Definition calculateCognitive (ast : node) : Result Z :=
  s <- traverse_enter_exit ast cognitive_enter cognitive_exit (mkCognitive 0 0) ;;
  Ok (cognitive s).

(** The score of a subtree met at a given depth of control-flow
    statements: a control-flow statement weighs one more than the number
    of control-flow statements around it, a logical operator weighs one. *)
Fixpoint cognitive_weight (depth : Z) (n : node) : Z :=
  match n with
  | Node _ _ cs =>
      ((if isControlFlow n then 1 + depth else 0)
       + (if isLogicalOperator n then 1 else 0)
       + (fix go (cs : list (string * node)) : Z :=
            match cs with
            | [] => 0
            | (_, c) :: tl =>
                cognitive_weight (if isControlFlow n then depth + 1 else depth) c + go tl
            end) cs)%Z
  end.

Definition cognitive_weights (depth : Z) (ns : list node) : Z :=
  fold_right (fun c acc => (cognitive_weight depth c + acc)%Z) 0%Z ns.

(* ================================================================= *)
(** ** What the engine's helpers compute *)

Definition has_severity (sev : IssueSeverity) (i : CodeIssue) : bool :=
  match sev, severity i with
  | error, error | warning, warning | info, info => true
  | _, _ => false
  end.

(** The nodes [countFunctions] counts. *)
Definition counted_function (n : node) : bool :=
  isType "FunctionDeclaration" n || isType "ArrowFunctionExpression" n
  || isType "FunctionExpression" n.

(** [[
import fs from "fs";
class A { m() {} }
const f = () => {};
]] *)
Definition class_with_method : node :=
  File [ mk "ImportDeclaration" [ ("source", StringLiteral "fs") ];
         mk "ClassDeclaration"
            [ ("id", Identifier "A");
              ("body",
               mk "ClassBody"
                  [ ("body", mk "ClassMethod" [ ("key", Identifier "m");
                                                ("body", BlockStatement []) ]) ]) ];
         mk "VariableDeclaration"
            [ ("declarations",
               mk "VariableDeclarator"
                  [ ("id", Identifier "f");
                    ("init", mk "ArrowFunctionExpression"
                                [ ("body", BlockStatement []) ]) ]) ] ].

(** The files of a directory listing that discovery is to find: those
    with a source extension, reached through directories that can be read,
    no name on the way being one of the skipped names. *)
Inductive Listed (path_join : string -> string -> string)
  : string -> list Dirent -> SourceFile -> Prop :=
| Listed_file (dir : string) (entries : list Dirent) (nm : string)
              (content : Result string) :
    In (FileEntry nm content) entries ->
    arr_includes AnalysisEngine.skipped nm = false ->
    AnalysisEngine.isJavaScriptName nm = true ->
    Listed path_join dir entries (mkSourceFile (path_join dir nm) content)
| Listed_sub (dir : string) (entries : list Dirent) (nm : string)
             (sub : list Dirent) (f : SourceFile) :
    In (DirEntry nm (Ok sub)) entries ->
    arr_includes AnalysisEngine.skipped nm = false ->
    Listed path_join (path_join dir nm) sub f ->
    Listed path_join dir entries f.

(** A project whose sources are two levels down:
[[
/app/package.json
/app/src/routes/users.js
/app/build/bundle.js
]] *)
Definition nested_project : AnalysisEngine.Dir :=
  ("/app",
   Ok [ sample_file "package.json" "{}";
        DirEntry "src" (Ok [ DirEntry "routes" (Ok [ sample_file "users.js" "x" ]) ]);
        DirEntry "build" (Ok [ sample_file "bundle.js" "y" ]) ]).

(* ================================================================= *)
(** ** The analysis worker *)

(** [Math.floor] *)
Definition Math_floor (x : number) : Z := Qfloor x.

(** The progress callback the worker passes to [analyzeCodebase] computes
    [percent = Math.min(80, 10 + Math.floor(progress * 0.7))] and stores
    it. *)
Definition workerPercent (progress : Z) : number :=
  Math_min 80%Q
           (fadd 10%Q
                 (inject_Z (Math_floor (fmul (inject_Z progress) (fl (7 # 10)))))).

(** What [runWithRetry] does with the session, in order. *)
Inductive TxEvent : Type :=
| StartSession
| StartTransaction
| CallFn (attempt : nat)
| CommitTransaction
| LogCommitted (attempt : nat)
| AbortTransaction
| EndSession
| LogWriteConflict (delay : Z)
| Sleep (delay : Z).

Section RunWithRetry.

(** What the transaction body, the commit and the abort of an attempt
    answer. [startSession], [startTransaction] and [endSession] are taken
    to succeed. *)
Variable fn : nat -> Result unit.
Variable commitTransaction : nat -> Result unit.
Variable abortTransaction : nat -> Result unit.

Definition MAX_RETRIES : nat := 3.

(** [for (let attempt = 1; attempt <= MAX_RETRIES; attempt++)], entered
    with the attempts still to make. *)
Fixpoint retryLoop (attempts : list nat) : Result unit * list TxEvent :=
  match attempts with
  | [] => (Ok tt, [])
  | attempt :: rest =>
      let tried :=
        match fn attempt with
        | Ok _ => (commitTransaction attempt, [CallFn attempt; CommitTransaction])
        | Throw err => (Throw err, [CallFn attempt])
        end in
      let opened := [StartSession; StartTransaction] ++ snd tried in
      match fst tried with
      | Ok _ => (Ok tt, opened ++ [LogCommitted attempt])
      | Throw err =>
          let isConflict := includes (err_message err) "Write conflict" in
          match abortTransaction attempt with
          | Throw abortError => (Throw abortError, opened ++ [AbortTransaction])
          | Ok _ =>
              let closed := opened ++ [AbortTransaction; EndSession] in
              if isConflict && (attempt <? MAX_RETRIES)%nat
              then
                let delay := (500 * Z.of_nat attempt)%Z in
                let next := retryLoop rest in
                (fst next, closed ++ [LogWriteConflict delay; Sleep delay] ++ snd next)
              else (Throw err, closed)
          end
      end
  end.

Definition runWithRetry : Result unit * list TxEvent :=
  retryLoop (seq 1 MAX_RETRIES).

End RunWithRetry.

Definition is_call (e : TxEvent) : bool :=
  match e with CallFn _ => true | _ => false end.
Definition is_start (e : TxEvent) : bool :=
  match e with StartSession => true | _ => false end.
Definition is_end (e : TxEvent) : bool :=
  match e with EndSession => true | _ => false end.

(** The time spent waiting between attempts. *)
Definition slept (trace : list TxEvent) : Z :=
  fold_right (fun e acc => match e with Sleep d => (d + acc)%Z | _ => acc end) 0%Z trace.

(** The error an attempt fails with, if it fails. *)
Definition attempt_error (fn commitTransaction : nat -> Result unit) (attempt : nat)
  : option JsError :=
  match fn attempt with
  | Throw err => Some err
  | Ok _ => match commitTransaction attempt with
            | Throw err => Some err
            | Ok _ => None
            end
  end.

(* ================================================================= *)
(** ** errorHandler *)

Module ErrorHandler.

(** The prototype chain of the thrown value, as far as [instanceof] sees
    it. *)
Inductive ErrorClass : Type :=
| OtherClass
| ApiErrorClass
| AuthorizationErrorClass
| NotFoundErrorClass.

(** The properties of the thrown value that the handler reads; a property
    that is missing is [None], [false] or the empty list. *)
Record AnyError : Type := mkAnyError
  { e_class : ErrorClass;
    e_name : option string;
    e_message : string;
    e_stack : option string;
    e_code : option Z;
    e_errors : list string;         (* the [message] of each value of [error.errors] *)
    e_keyPattern : list string;     (* the keys of [error.keyPattern] *)
    e_statusCode : option Z;
    e_isOperational : bool }.

(** [new ApiError(statusCode, message, isOperational = true)]; the stack is
    the one the runtime captures. *)
Definition ApiError (stack : string) (statusCode : Z) (message : string)
           (isOperational : option bool) : AnyError :=
  {| e_class := ApiErrorClass;
     e_name := Some "ApiError";
     e_message := message;
     e_stack := Some stack;
     e_code := None;
     e_errors := [];
     e_keyPattern := [];
     e_statusCode := Some statusCode;
     e_isOperational := match isOperational with Some b => b | None => true end |}.

Definition subclass (c : ErrorClass) (nm : string) (e : AnyError) : AnyError :=
  {| e_class := c;
     e_name := Some nm;
     e_message := e_message e;
     e_stack := e_stack e;
     e_code := e_code e;
     e_errors := e_errors e;
     e_keyPattern := e_keyPattern e;
     e_statusCode := e_statusCode e;
     e_isOperational := e_isOperational e |}.

(** [new AuthorizationError(message = 'You are not authorized ...')] *)
Definition AuthorizationError (stack : string) (message : option string) : AnyError :=
  subclass AuthorizationErrorClass "AuthorizationError"
    (ApiError stack 403
              (match message with
               | Some m => m
               | None => "You are not authorized to perform this action"
               end)
              (Some true)).

(** [new NotFoundError(resource = 'Resource')] *)
Definition NotFoundError (stack : string) (resource : option string) : AnyError :=
  subclass NotFoundErrorClass "NotFoundError"
    (ApiError stack 404
              ((match resource with Some r => r | None => "Resource" end) ++ " not found")
              (Some true)).

(** The same thrown value with another message and stack. *)
Definition withDetail (e : AnyError) (msg : string) (trace : option string) : AnyError :=
  {| e_class := e_class e;
     e_name := e_name e;
     e_message := msg;
     e_stack := trace;
     e_code := e_code e;
     e_errors := e_errors e;
     e_keyPattern := e_keyPattern e;
     e_statusCode := e_statusCode e;
     e_isOperational := e_isOperational e |}.

Definition instanceofAuthorizationError (e : AnyError) : bool :=
  match e_class e with AuthorizationErrorClass => true | _ => false end.

Definition instanceofApiError (e : AnyError) : bool :=
  match e_class e with OtherClass => false | _ => true end.

(** The JSON body; a key that is not sent is [None]. *)
Record Body : Type := mkBody
  { success : bool;
    message : string;
    errors : option (list string);
    error_message : option string;    (* the key [error] *)
    stack : option string }.

Record Response : Type := mkResponse
  { status : option Z;
    body : Body }.

Definition plain (code : Z) (msg : string) : Response :=
  mkResponse (Some code) (mkBody false msg None None None).

Definition hasName (nm : string) (e : AnyError) : bool :=
  match e_name e with Some n => String.eqb n nm | None => false end.

(** A number is truthy unless it is 0. *)
Definition truthy (o : option Z) : bool :=
  match o with Some z => negb (z =? 0)%Z | None => false end.

Definition errorHandler (NODE_ENV : option string) (e : AnyError) : Response :=
  let development :=
    match NODE_ENV with Some v => String.eqb v "development" | None => false end in
  (* Mongoose validation error *)
  if hasName "ValidationError" e
  then mkResponse (Some 400%Z)
                  (mkBody false "Validation error" (Some (e_errors e)) None None)
  (* Duplicate key error *)
  else if match e_code e with Some c => (c =? 11000)%Z | None => false end
  then
    let field := match e_keyPattern e with
                 | k :: _ => if String.eqb k "" then "field" else k
                 | [] => "field"
                 end in
    plain 400 (field ++ " already exists")
  (* JWT / auth errors *)
  else if hasName "JsonWebTokenError" e then plain 401 "Invalid authentication token"
  else if hasName "TokenExpiredError" e then plain 401 "Authentication token expired"
  (* Authorization errors *)
  else if instanceofAuthorizationError e
  then mkResponse (e_statusCode e) (mkBody false (e_message e) None None None)
  (* Custom API errors *)
  else if instanceofApiError e || e_isOperational e || truthy (e_statusCode e)
  then mkResponse (Some (if truthy (e_statusCode e)
                         then match e_statusCode e with Some z => z | None => 400%Z end
                         else 400%Z))
                  (mkBody false (e_message e) None None
                          (if development then e_stack e else None))
  (* MongoDB general errors *)
  else if hasName "MongoError" e then plain 500 "Database operation failed"
  (* Fallback *)
  else mkResponse (Some 500%Z)
                  (mkBody false "Internal server error" None
                          (if development then Some (e_message e) else None)
                          (if development then e_stack e else None)).

End ErrorHandler.

(* ================================================================= *)
(** ** LogicDetector *)

Definition typeError (msg : string) : JsError := mkError msg None.

Module LogicDetector.
Section WithLiterals.

(** [node.value] of a boolean literal: the tree carries the text of string
    literals only, so the value of a boolean literal is read through this
    function. *)
Variable booleanValue : node -> option bool.

Definition isPromiseCall (n : node) : bool :=
  match field "callee" n with
  | Some callee =>
      if negb (isType "MemberExpression" callee) then false
      else
        let propName := name_or_empty (field "property" callee) in
        let objName :=
          if isTypeO "Identifier" (field "object" callee)
          then name_or_empty (field "object" callee) else "" in
        String.eqb propName "then" || String.eqb propName "fetch"
        || includes objName "axios" || includes objName "fetch"
  | None => false
  end.

Definition thenCatch_visitor : Visitor bool :=
  [ ("CallExpression", fun innerPath hasCatch =>
       match field "callee" (path_node innerPath) with
       | Some callee =>
           if isType "MemberExpression" callee
              && arr_includes ["catch"; "then"] (name_or_empty (field "property" callee))
           then Ok true else Ok hasCatch
       | None => Ok hasCatch
       end) ].

Definition hasThenCatch (path : NodePath) : Result bool :=
  path_traverse path thenCatch_visitor false.

Definition try_visitor : Visitor bool :=
  [ ("TryStatement", fun _ _ => Ok true) ].

(** [path.get('body')], then [body.traverse]. *)
Definition containsTryCatch (path : NodePath) : Result bool :=
  match field "body" (path_node path) with
  | Some body =>
      if negb (isType "BlockStatement" body) then Ok false
      else path_traverse (mkPath body (Some (path_node path))) try_visitor false
  | None => Ok false
  end.

Definition exit_visitor : Visitor bool :=
  [ ("BreakStatement", fun _ _ => Ok true);
    ("ReturnStatement", fun _ _ => Ok true) ].

Definition containsBreakOrReturn (path : NodePath) : Result bool :=
  path_traverse path exit_visitor false.

Definition isApiCall (n : node) : bool :=
  let calleeName :=
    match field "callee" n with
    | Some callee =>
        if isType "Identifier" callee then name_or_empty (Some callee)
        else if isType "MemberExpression" callee
                && isTypeO "Identifier" (field "object" callee)
        then name_or_empty (field "object" callee)
        else ""
    | None => ""
    end in
  arr_includes ["fetch"; "axios"] calleeName
  || includes (toLowerCase calleeName) "http"
  || includes (toLowerCase calleeName) "api".

Definition return_visitor : Visitor bool :=
  [ ("ReturnStatement", fun _ _ => Ok true) ].

Definition hasReturnStatement (path : NodePath) : Result bool :=
  path_traverse path return_visitor false.

(** [!!(rt && t.isTSTypeAnnotation(rt) && rt.typeAnnotation.type ===
    'TSVoidKeyword')]; reading [type] of a missing [typeAnnotation]
    throws. *)
Definition isVoidFunction (path : NodePath) : Result bool :=
  match field "returnType" (path_node path) with
  | Some rt =>
      if isType "TSTypeAnnotation" rt
      then match field "typeAnnotation" rt with
           | Some annotation => Ok (isType "TSVoidKeyword" annotation)
           | None => Throw (typeError "Cannot read properties of undefined (reading 'type')")
           end
      else Ok false
  | None => Ok false
  end.

Definition logic_issue (sev : IssueSeverity) (msg : string) (n : node)
           (filePath c : string) : CodeIssue :=
  {| type := "logic";
     severity := sev;
     message := msg;
     line := start_line (loc n);
     column := start_column (loc n);
     filePath := filePath;
     code := Some c |}.

Definition CallExpression (filePath : string) (path : NodePath) (issues : list CodeIssue)
  : Result (list CodeIssue) :=
  if isPromiseCall (path_node path)
  then
    let hasAwait := isTypeO "AwaitExpression" (path_parent path) in
    hasThen <- hasThenCatch path ;;
    if negb hasAwait && negb hasThen
    then Ok (push issues
               (logic_issue error "Unhandled promise - use await or .catch()"
                            (path_node path) filePath "UNHANDLED_PROMISE"))
    else Ok issues
  else Ok issues.

Definition FunctionDeclaration (filePath : string) (path : NodePath)
           (issues : list CodeIssue) : Result (list CodeIssue) :=
  (* Async try/catch detection *)
  issues <-
    (if async (path_node path)
     then
       hasTryCatch <- containsTryCatch path ;;
       if negb hasTryCatch
       then Ok (push issues
                  (logic_issue warning "Async function without try-catch block"
                               (path_node path) filePath "ASYNC_NO_TRY_CATCH"))
       else Ok issues
     else Ok issues) ;;
  (* Missing return detection *)
  hasReturn <- hasReturnStatement path ;;
  if hasReturn then Ok issues
  else
    isVoid <- isVoidFunction path ;;
    if negb isVoid
    then Ok (push issues
               (logic_issue warning "Function may not return a value in all code paths"
                            (path_node path) filePath "MISSING_RETURN"))
    else Ok issues.

(** [t.isBooleanLiteral(x, { value: true })] *)
Definition isTrueLiteral (o : option node) : bool :=
  match o with
  | Some n =>
      isType "BooleanLiteral" n
      && match booleanValue n with Some true => true | _ => false end
  | None => false
  end.

Definition WhileStatement (filePath : string) (path : NodePath) (issues : list CodeIssue)
  : Result (list CodeIssue) :=
  if isTrueLiteral (field "test" (path_node path))
  then
    hasBreak <- containsBreakOrReturn path ;;
    if negb hasBreak
    then Ok (push issues
               (logic_issue error "Potential infinite loop detected"
                            (path_node path) filePath "INFINITE_LOOP"))
    else Ok issues
  else Ok issues.

Definition api_visitor : Visitor bool :=
  [ ("CallExpression", fun innerPath hasApiCall =>
       if isApiCall (path_node innerPath) then Ok true else Ok hasApiCall) ].

Definition ForStatement (filePath : string) (path : NodePath) (issues : list CodeIssue)
  : Result (list CodeIssue) :=
  hasApiCall <- path_traverse path api_visitor false ;;
  if hasApiCall
  then Ok (push issues
             (logic_issue warning
                          "API call inside loop - consider batching or using Promise.all()"
                          (path_node path) filePath "API_CALL_IN_LOOP"))
  else Ok issues.

Definition BinaryExpression (filePath : string) (path : NodePath)
           (issues : list CodeIssue) : Result (list CodeIssue) :=
  let n := path_node path in
  if match operator n with
     | Some op => String.eqb op "===" || String.eqb op "=="
     | None => false
     end
     && (isIdentifierNamed "NaN" (field "right" n)
         || isIdentifierNamed "NaN" (field "left" n))
  then Ok (push issues
             (logic_issue error "Use Number.isNaN() instead of comparing with NaN"
                          n filePath "NAN_COMPARISON"))
  else Ok issues.

Definition visitor (filePath : string) : Visitor (list CodeIssue) :=
  [ ("CallExpression", CallExpression filePath);
    ("FunctionDeclaration", FunctionDeclaration filePath);
    ("WhileStatement", WhileStatement filePath);
    ("ForStatement", ForStatement filePath);
    ("BinaryExpression", BinaryExpression filePath) ].

Definition detect : Detector :=
  fun ast _code filePath => traverse ast (visitor filePath) [].

End WithLiterals.
End LogicDetector.

(* ----------------------------------------------------------------- *)
(** *** The logic detector, node by node *)

(** [x.then(...)] or [x.catch(...)] *)
Definition is_then_or_catch_call (n : node) : bool :=
  is_member_call n && arr_includes ["catch"; "then"] (called_method n).

(** A promise call that is not awaited and has no [.then] or [.catch]
    call inside it. *)
Definition unhandled_promise (p : NodePath) : bool :=
  isType "CallExpression" (path_node p)
  && LogicDetector.isPromiseCall (path_node p)
  && negb (isTypeO "AwaitExpression" (path_parent p))
  && negb (contains is_then_or_catch_call (path_node p)).

(** An [async] function declaration with no [try] statement in its body. *)
Definition async_without_try (n : node) : bool :=
  isType "FunctionDeclaration" n && async n
  && negb (match field "body" n with
           | Some body =>
               isType "BlockStatement" body && contains (isType "TryStatement") body
           | None => false
           end).

(** A return type annotation [: void]. *)
Definition declared_void (n : node) : bool :=
  match field "returnType" n with
  | Some rt =>
      isType "TSTypeAnnotation" rt && isTypeO "TSVoidKeyword" (field "typeAnnotation" rt)
  | None => false
  end.

(** A function declaration with no [return] statement anywhere inside it
    and no [: void] annotation. *)
Definition missing_return (n : node) : bool :=
  isType "FunctionDeclaration" n
  && negb (contains (isType "ReturnStatement") n)
  && negb (declared_void n).

(** [while (true)] with no [break] and no [return] anywhere inside it. *)
Definition infinite_loop (booleanValue : node -> option bool) (n : node) : bool :=
  isType "WhileStatement" n
  && LogicDetector.isTrueLiteral booleanValue (field "test" n)
  && negb (contains (fun c => isType "BreakStatement" c || isType "ReturnStatement" c) n).

(** A [for] statement with an API call inside it. *)
Definition api_call_in_loop (n : node) : bool :=
  isType "ForStatement" n
  && contains (fun c => isType "CallExpression" c && LogicDetector.isApiCall c) n.

(** [x == NaN], [x === NaN], [NaN == x], [NaN === x] *)
Definition nan_comparison (n : node) : bool :=
  isType "BinaryExpression" n
  && match operator n with
     | Some op => String.eqb op "===" || String.eqb op "=="
     | None => false
     end
  && (isIdentifierNamed "NaN" (field "right" n)
      || isIdentifierNamed "NaN" (field "left" n)).

(** The issues of one node, in the order the detector pushes them. *)
Definition logic_issues_at (booleanValue : node -> option bool) (fp : string)
           (p : NodePath) : list CodeIssue :=
  let n := path_node p in
  when (unhandled_promise p)
       (LogicDetector.logic_issue error "Unhandled promise - use await or .catch()"
                                  n fp "UNHANDLED_PROMISE")
  ++ when (async_without_try n)
          (LogicDetector.logic_issue warning "Async function without try-catch block"
                                     n fp "ASYNC_NO_TRY_CATCH")
  ++ when (missing_return n)
          (LogicDetector.logic_issue warning
                                     "Function may not return a value in all code paths"
                                     n fp "MISSING_RETURN")
  ++ when (infinite_loop booleanValue n)
          (LogicDetector.logic_issue error "Potential infinite loop detected"
                                     n fp "INFINITE_LOOP")
  ++ when (api_call_in_loop n)
          (LogicDetector.logic_issue
             warning "API call inside loop - consider batching or using Promise.all()"
             n fp "API_CALL_IN_LOOP")
  ++ when (nan_comparison n)
          (LogicDetector.logic_issue error
                                     "Use Number.isNaN() instead of comparing with NaN"
                                     n fp "NAN_COMPARISON").

(** The nodes at which the detector throws: a function declaration
    without a [return] whose return type annotation lacks its
    [typeAnnotation]. Parsed trees have none. *)
Definition broken_annotation (n : node) : bool :=
  isType "FunctionDeclaration" n
  && negb (contains (isType "ReturnStatement") n)
  && match field "returnType" n with
     | Some rt =>
         isType "TSTypeAnnotation" rt
         && match field "typeAnnotation" rt with Some _ => false | None => true end
     | None => false
     end.

(** Sample trees keep the value of a boolean literal in its text. *)
Definition BooleanLiteral (b : bool) : node :=
  Node "BooleanLiteral"
       (mkProps None (Some (if b then "true" else "false")) None false None) [].

Definition sample_booleanValue (n : node) : option bool :=
  match value n with
  | Some v => Some (String.eqb v "true")
  | None => None
  end.

(** [[
api.get(url).then(render).catch(report);
async function load() { await client.fetch(url); }
while (true) { poll(); }
for (;;) { httpClient.send(x); }
if (x != NaN) {}
if (x === NaN) {}
]] *)
Definition logic_sample : node :=
  File [ statement
           (call (member
                    (call (member (call (member (Identifier "api") "get")
                                        [Identifier "url"])
                                  "then")
                          [Identifier "render"])
                    "catch")
                 [Identifier "report"]);
         function_at true 2 2 "load"
           [ statement
               (mk "AwaitExpression"
                   [ ("argument",
                      call (member (Identifier "client") "fetch") [Identifier "url"]) ]) ];
         mk "WhileStatement"
            [ ("test", BooleanLiteral true);
              ("body", BlockStatement [ statement (call (Identifier "poll") []) ]) ];
         mk "ForStatement"
            [ ("body",
               BlockStatement
                 [ statement (call (member (Identifier "httpClient") "send")
                                   [Identifier "x"]) ]) ];
         mk "IfStatement"
            [ ("test", binary "!=" (Identifier "x") (Identifier "NaN"));
              ("consequent", BlockStatement []) ];
         mk "IfStatement"
            [ ("test", binary "===" (Identifier "x") (Identifier "NaN"));
              ("consequent", BlockStatement []) ] ].

(* ================================================================= *)
(** ** A secret next to a command execution *)

(** [[
const password = 'abcdef123';
exec('ls');
]] *)
Definition password_and_exec : node :=
  File [ mk "VariableDeclaration" [ ("declarations", declarator_password "abcdef123") ];
         statement (call (Identifier "exec") [StringLiteral "ls"]) ].

Definition password_and_exec_root : isProgramOrFile password_and_exec = true := eq_refl.

Definition password_and_exec_source : SourceFile :=
  mkSourceFile "/p/src/c.js" (Ok "const password = 'abcdef123'; exec('ls');").

(** The per-file analyzer with the detectors of the repository, on a
    parser that answers the tree of that file. *)
Definition analyze_password_and_exec
  : option ESLint -> SourceFile -> string -> Result (FileAnalysis.t * list LogEvent) :=
  AnalysisEngine.analyzeFile sample_path_relative
    (fun _ => Ok (mkParsed password_and_exec password_and_exec_root))
    sample_syntaxDetector (LogicDetector.detect sample_booleanValue)
    PerformanceDetector.detect (SecurityDetector.detect sample_hasReDoSVulnerability)
    calculate.

(* ################################################################# *)
(** * Properties *)

(* ================================================================= *)
(** ** Traversal lemmas *)

(** A loop whose body never throws is a plain left fold. *)
Lemma foldM_pure {S A : Type} (f : A -> S -> Result S) (g : A -> S -> S) :
  (forall a s, f a s = Ok (g a s)) ->
  forall l s, foldM f l s = Ok (fold_left (fun s a => g a s) l s).
Proof.
  intros Hf l; induction l as [|a l IH]; intros s; simpl; [reflexivity|].
  rewrite Hf; simpl; apply IH.
Qed.

Lemma fold_left_count {A : Type} (p : A -> bool) (l : list A) (c : nat) :
  fold_left (fun c a => if p a then S c else c) l c = c + length (filter p l).
Proof.
  revert c; induction l as [|a l IH]; intros c; simpl; [lia|].
  rewrite IH; destruct (p a); simpl; lia.
Qed.

Lemma descend_unfold (n : node) :
  descend n = flat_map (fun kc => mkPath (snd kc) (Some n) :: descend (snd kc)) (children n).
Proof.
  destruct n as [t p cs]; cbn [descend children].
  set (n := Node t p cs); clearbody n.
  induction cs as [|[k c] cs IH]; simpl; [reflexivity|].
  now rewrite IH.
Qed.

Lemma root_paths_nodes (root : node) :
  map path_node (root_paths root) = map path_node (descend root).
Proof.
  rewrite descend_unfold; unfold root_paths.
  induction (children root) as [|[k c] cs IH]; simpl; [reflexivity|].
  now rewrite !map_app, IH.
Qed.

(* ================================================================= *)
(** ** Complexity calculator *)

Lemma eqb_lit (a b : string) : a <> b -> String.eqb b a = false.
Proof. intros H; apply String.eqb_neq; congruence. Qed.

Lemma visit_cons {S : Type} k (f : NodePath -> S -> Result S) (v : Visitor S) p s :
  visit ((k, f) :: v) p s
  = if String.eqb k (node_type (path_node p)) then f p s else visit v p s.
Proof. unfold visit; simpl. now destruct (String.eqb k _). Qed.

Lemma visit_nil {S : Type} (p : NodePath) (s : S) : visit [] p s = Ok s.
Proof. reflexivity. Qed.

(** Case analysis on the type of the visited node against the literal
    keys of a visitor. *)
Ltac dispatch t :=
  repeat (rewrite visit_cons; cbn [path_node node_type];
          match goal with
          | |- context [String.eqb ?lit t] =>
              let H := fresh "Hne" in
              destruct (String.eqb_spec lit t) as [<-|H]
          end);
  rewrite ?visit_nil.

Lemma visit_calculate (p : NodePath) (c : nat) :
  visit calculate_visitor p c
  = Ok (if decision_point (path_node p) then S c else c).
Proof.
  destruct p as [[t pr cs] par].
  unfold calculate_visitor, decision_point, isType, incr.
  cbn [path_node node_type].
  dispatch t;
    repeat match goal with
           | H : ?lit <> t |- _ => rewrite (eqb_lit H); clear H
           end;
    try reflexivity.
  - cbn. destruct (field "test" _); reflexivity.
  - cbn. destruct (operator _) as [op|]; [|reflexivity].
    rewrite orb_comm. destruct (_ || _); reflexivity.
Qed.

Lemma calculate_counts (ast : node) :
  isProgramOrFile ast = true ->
  calculate ast = Ok (1 + count_decision_points ast).
Proof.
  intros Hroot. unfold calculate, traverse. rewrite Hroot.
  rewrite (foldM_pure _ (fun p c => if decision_point (path_node p) then S c else c))
    by apply visit_calculate.
  rewrite (fold_left_count (fun p => decision_point (path_node p))).
  f_equal. f_equal.
  unfold count_decision_points, nodes. simpl filter.
  assert (decision_point ast = false) as ->.
  { destruct ast as [t pr cs]. unfold isProgramOrFile, isType in Hroot.
    cbn [node_type] in Hroot.
    apply orb_true_iff in Hroot as [H|H]; apply String.eqb_eq in H; subst t; reflexivity. }
  rewrite <- root_paths_nodes.
  induction (root_paths ast) as [|p l IH]; simpl; [reflexivity|].
  destruct (decision_point (path_node p)); simpl; now rewrite IH.
Qed.

(** C2. On every syntax tree (a tree rooted at the parser's [File] or
    [Program] node) the cyclomatic complexity is 1 plus the number of nodes
    that are [if] statements, switch cases with a test, [for], [for-in],
    [for-of], [while] and [do-while] loops, [catch] clauses, conditional
    expressions and [&&] / [||] logical expressions, each counted once
    whatever its depth. A tree without such a node scores 1, as the tree of
    [function f() { return 1; }] does, and the tree of
    [if (a) {} else if (b) {}] scores 3. *)
Theorem C2_cyclomatic_complexity :
  (forall ast, isProgramOrFile ast = true ->
     calculate ast = Ok (1 + count_decision_points ast)
     /\ (count_decision_points ast = 0 -> calculate ast = Ok 1))
  /\ calculate straight_line_function = Ok 1
  /\ calculate if_else_if = Ok 3.
Proof.
  split; [|split; reflexivity].
  intros ast Hroot. rewrite (calculate_counts ast Hroot).
  split; [reflexivity|]. now intros ->.
Qed.

Lemma C2_cyclomatic_complexity_witness :
  isProgramOrFile if_else_if = true
  /\ calculate if_else_if = Ok (1 + count_decision_points if_else_if).
Proof.
  split; [reflexivity|].
  apply (proj1 C2_cyclomatic_complexity if_else_if). reflexivity.
Defined.

(* ================================================================= *)
(** ** Visitors that only append issues *)

Lemma foldM_total {S A : Type} (f : A -> S -> Result S) :
  (forall a s, exists s', f a s = Ok s') ->
  forall l s, exists s', foldM f l s = Ok s'.
Proof.
  intros Hf l; induction l as [|a l IH]; intros s; simpl; [now exists s|].
  destruct (Hf a s) as [s' ->]; simpl; apply IH.
Qed.

Lemma visit_total {S : Type} (v : Visitor S) :
  Forall (fun h => forall p s, exists s', snd h p s = Ok s') v ->
  forall p s, exists s', visit v p s = Ok s'.
Proof.
  intros Hv p s; induction Hv as [|[k f] v Hf _ IH].
  - now exists s.
  - rewrite visit_cons. destruct (String.eqb k _); [apply Hf | apply IH].
Qed.

(** A loop whose body appends to a list: what it appends, seen through a
    filter [q], is the concatenation of what each round appends. *)
Lemma foldM_appends {A I : Type} (f : A -> list I -> Result (list I))
      (q : I -> bool) (g : A -> list I) :
  (forall a s, exists e, f a s = Ok (s ++ e) /\ filter q e = g a) ->
  forall l s, exists r, foldM f l s = Ok r /\ filter q r = filter q s ++ flat_map g l.
Proof.
  intros Hf l; induction l as [|a l IH]; intros s; simpl.
  - exists s; now rewrite app_nil_r.
  - destruct (Hf a s) as (e & -> & He); simpl.
    destruct (IH (s ++ e)) as (r & -> & Hr). exists r; split; [reflexivity|].
    now rewrite Hr, filter_app, He, app_assoc.
Qed.

Lemma flat_map_filter_map {A B : Type} (c : A -> bool) (h : A -> B) (l : list A) :
  flat_map (fun a => if c a then [h a] else []) l = map h (filter c l).
Proof.
  induction l as [|a l IH]; simpl; [reflexivity|].
  destruct (c a); simpl; now rewrite IH.
Qed.

(* ================================================================= *)
(** ** Performance detector *)

Lemma visit_loop_visitor (p : NodePath) (st : nat * bool) :
  visit PerformanceDetector.loop_visitor p st
  = Ok (if is_for_or_while (path_node p) then S (fst st) else fst st,
        snd st || is_plus (path_node p)).
Proof.
  destruct p as [[t pr cs] par], st as [k h].
  unfold PerformanceDetector.loop_visitor, is_for_or_while, is_plus, isType.
  cbn [path_node node_type fst snd].
  dispatch t;
    repeat match goal with
           | H : ?lit <> t |- _ => rewrite (eqb_lit H); clear H
           end;
    cbn [path_node node_type fst snd orb andb]; rewrite ?orb_false_r; try reflexivity.
  cbn. destruct (operator _) as [op|]; cbn; rewrite ?orb_false_r; [|reflexivity].
  destruct (String.eqb_spec op "+") as [->|Hop]; [now rewrite orb_true_r|].
  rewrite orb_false_r.
  destruct op as [|c [|c' op]]; try reflexivity;
    destruct c as [[] [] [] [] [] [] [] []]; try reflexivity; now destruct Hop.
Qed.

Lemma loop_traversal (p : NodePath) :
  path_traverse p PerformanceDetector.loop_visitor (0, false)
  = Ok (nested_for_while (path_node p),
        existsb is_plus (map path_node (descend (path_node p)))).
Proof.
  unfold path_traverse, nested_for_while.
  rewrite (foldM_pure _ (fun p st =>
             (if is_for_or_while (path_node p) then S (fst st) else fst st,
              snd st || is_plus (path_node p)))) by apply visit_loop_visitor.
  f_equal.
  generalize (descend (path_node p)) as l; intros l.
  assert (forall k h,
             fold_left (fun st p0 =>
                          (if is_for_or_while (path_node p0) then S (fst st) else fst st,
                           snd st || is_plus (path_node p0))) l (k, h)
             = (k + length (filter is_for_or_while (map path_node l)),
                h || existsb is_plus (map path_node l))) as H.
  { induction l as [|a l IH]; intros k h; simpl.
    - now rewrite Nat.add_0_r, orb_false_r.
    - rewrite IH. destruct (is_for_or_while (path_node a)); simpl;
        f_equal; try lia; now rewrite orb_assoc. }
  apply H.
Qed.

Lemma ForStatement_emits (fp : string) (p : NodePath) (issues : list CodeIssue) :
  PerformanceDetector.ForStatement fp p issues
  = Ok (issues
        ++ (if (2 <=? nested_for_while (path_node p))%nat
            then [PerformanceDetector.nested_loops_issue
                    (nested_for_while (path_node p)) (path_node p) fp]
            else [])
        ++ (if existsb is_plus (map path_node (descend (path_node p)))
            then [PerformanceDetector.string_concat_issue (path_node p) fp]
            else [])).
Proof.
  unfold PerformanceDetector.ForStatement. rewrite loop_traversal.
  cbn [bind fst snd]. unfold push.
  destruct (2 <=? _)%nat, (existsb _ _);
    now rewrite <- ?app_assoc, ?app_nil_r.
Qed.

Lemma push_visitor_total (p : NodePath) (b : bool) :
  exists b', path_traverse p PerformanceDetector.push_visitor b = Ok b'.
Proof.
  apply foldM_total, visit_total.
  repeat constructor. cbn. intros q s. destruct (_ && _); eauto.
Qed.

Lemma sync_visitor_total (p : NodePath) (b : bool) :
  exists b', path_traverse p PerformanceDetector.sync_visitor b = Ok b'.
Proof.
  apply foldM_total, visit_total.
  repeat constructor. cbn. intros q s.
  destruct (field "callee" _); [destruct (_ && _)|]; eauto.
Qed.

Ltac appended :=
  match goal with
  | |- exists e, Ok ?l = Ok (?l ++ e) /\ _ =>
      exists []; split; [now rewrite app_nil_r | reflexivity]
  | |- exists e, Ok (push ?l ?x) = Ok (?l ++ e) /\ _ =>
      exists [x]; split; reflexivity
  | |- exists e, Ok (push (push ?l ?x) ?y) = Ok (?l ++ e) /\ _ =>
      exists [x; y]; split; [unfold push; now rewrite <- app_assoc | reflexivity]
  end.

Lemma CallExpression_appends (fp : string) (p : NodePath) (issues : list CodeIssue) :
  exists e, PerformanceDetector.CallExpression fp p issues = Ok (issues ++ e)
            /\ filter (has_code "NESTED_LOOPS") e = [].
Proof.
  unfold PerformanceDetector.CallExpression.
  destruct (field "callee" _) as [callee|]; [|appended].
  destruct (negb _); [appended|].
  destruct (String.eqb _ "forEach").
  - destruct (push_visitor_total p false) as [b ->]. cbn [bind].
    destruct b; cbn [bind];
      (destruct (arr_includes _ _); [destruct (path_parent p); [destruct (_ && _)|]|]);
      appended.
  - cbn [bind].
    destruct (arr_includes _ _); [destruct (path_parent p); [destruct (_ && _)|]|];
      appended.
Qed.

Lemma FunctionDeclaration_appends (fp : string) (p : NodePath) (issues : list CodeIssue) :
  exists e, PerformanceDetector.FunctionDeclaration fp p issues = Ok (issues ++ e)
            /\ filter (has_code "NESTED_LOOPS") e = [].
Proof.
  unfold PerformanceDetector.FunctionDeclaration.
  destruct (loc _) as [l|]; [|appended].
  destruct (async _).
  - destruct (sync_visitor_total p false) as [b ->]. cbn [bind].
    destruct b; cbn [bind]; destruct (50 <? _)%Z; appended.
  - cbn [bind]. destruct (50 <? _)%Z; appended.
Qed.

Lemma visit_performance (fp : string) (p : NodePath) (issues : list CodeIssue) :
  exists e,
    visit (PerformanceDetector.visitor fp) p issues = Ok (issues ++ e)
    /\ filter (has_code "NESTED_LOOPS") e
       = if isType "ForStatement" (path_node p)
            && (2 <=? nested_for_while (path_node p))%nat
         then [PerformanceDetector.nested_loops_issue
                 (nested_for_while (path_node p)) (path_node p) fp]
         else [].
Proof.
  unfold PerformanceDetector.visitor, isType.
  destruct (path_node p) as [t pr cs] eqn:Hp.
  rewrite !visit_cons, visit_nil, Hp. cbn [node_type].
  rewrite (String.eqb_sym t "ForStatement").
  destruct (String.eqb_spec "ForStatement" t) as [<-|Hfor].
  - rewrite ForStatement_emits, Hp. eexists; split; [reflexivity|].
    cbn [andb]. rewrite filter_app.
    destruct (2 <=? _)%nat, (existsb _ _); reflexivity.
  - cbn [andb].
    destruct (String.eqb "CallExpression" t); [apply CallExpression_appends|].
    destruct (String.eqb "FunctionDeclaration" t); [apply FunctionDeclaration_appends|].
    appended.
Qed.

(** C8, as stated, fails: a [for] statement whose body holds a [for-of]
    and a [do-while] loop contains two nested loop constructs, yet the
    detector reports nothing for it. *)
Lemma C8_nested_loops_counterexample :
  isType "ForStatement" for_with_two_inner_loops = true
  /\ nested_loop_constructs for_with_two_inner_loops = 2
  /\ PerformanceDetector.detect (File [for_with_two_inner_loops]) "" "a.js" = Ok [].
Proof. repeat split. Qed.

(** C8, amended. For every [for] statement of a parsed tree the
    performance detector emits one warning with code [NESTED_LOOPS] if and
    only if the statement contains at least 2 nested [for] or [while]
    statements (nested [for-in], [for-of] and [do-while] loops are not
    counted), and the message of that warning reports the complexity as
    [n^(nestedCount+1)], [nestedCount] being the number of those nested
    [for] and [while] statements. *)
Theorem C8_nested_loops (ast : node) (code fp : string) :
  isProgramOrFile ast = true ->
  exists issues,
    PerformanceDetector.detect ast code fp = Ok issues
    /\ filter (has_code "NESTED_LOOPS") issues
       = map (fun p => PerformanceDetector.nested_loops_issue
                         (nested_for_while (path_node p)) (path_node p) fp)
             (filter (fun p => isType "ForStatement" (path_node p)
                               && (2 <=? nested_for_while (path_node p))%nat)
                     (root_paths ast))
    /\ forall k n,
         severity (PerformanceDetector.nested_loops_issue k n fp) = warning
         /\ message (PerformanceDetector.nested_loops_issue k n fp)
            = ("O(n^" ++ show_nat (k + 1) ++ ") complexity detected — consider optimization")%string.
Proof.
  intros Hroot. unfold PerformanceDetector.detect, traverse. rewrite Hroot.
  destruct (foldM_appends _ _ _ (visit_performance fp) (root_paths ast) [])
    as (issues & Hrun & Hfilter).
  exists issues. split; [exact Hrun|]. split; [|now split].
  rewrite Hfilter. cbn [filter app].
  apply (flat_map_filter_map
           (fun p => isType "ForStatement" (path_node p)
                     && (2 <=? nested_for_while (path_node p))%nat)).
Qed.

Lemma C8_nested_loops_witness :
  isProgramOrFile (File [for_with_for_and_while]) = true
  /\ exists issues,
       PerformanceDetector.detect (File [for_with_for_and_while]) "" "a.js" = Ok issues
       /\ map message (filter (has_code "NESTED_LOOPS") issues)
          = ["O(n^3) complexity detected — consider optimization"].
Proof.
  split; [reflexivity|].
  destruct (C8_nested_loops (File [for_with_for_and_while]) "" "a.js" eq_refl)
    as (issues & Hrun & Hfilter & _).
  exists issues. split; [exact Hrun|]. now rewrite Hfilter.
Defined.

(* ================================================================= *)
(** ** Security detector *)

(** The variant of [foldM_appends] for a body that may throw. *)
Lemma foldM_appends_if_ok {A I : Type} (f : A -> list I -> Result (list I))
      (q : I -> bool) (g : A -> list I) :
  (forall a s, match f a s with
               | Ok r => exists e, r = s ++ e /\ filter q e = g a
               | Throw _ => True
               end) ->
  forall l s r, foldM f l s = Ok r -> filter q r = filter q s ++ flat_map g l.
Proof.
  intros Hf l; induction l as [|a l IH]; intros s r; simpl.
  - intros [= <-]. now rewrite app_nil_r.
  - specialize (Hf a s). destruct (f a s) as [s'|err]; simpl; [|discriminate].
    destruct Hf as (e & -> & He). intros Hrun.
    now rewrite (IH _ _ Hrun), filter_app, He, app_assoc.
Qed.

Ltac appended_ok :=
  match goal with
  | |- True => exact I
  | |- exists e, ?l = ?l ++ e /\ _ =>
      exists []; split; [now rewrite app_nil_r | reflexivity]
  | |- exists e, push ?l ?x = ?l ++ e /\ _ =>
      exists [x]; split; reflexivity
  | |- exists e, push (push ?l ?x) ?y = ?l ++ e /\ _ =>
      exists [x; y]; split; [unfold push; now rewrite <- app_assoc | reflexivity]
  | |- exists e, push (push (push ?l ?x) ?y) ?z = ?l ++ e /\ _ =>
      exists [x; y; z]; split; [unfold push; now rewrite <- !app_assoc | reflexivity]
  end.

Lemma secret_name_unfold (nm : string) :
  secret_name nm
  = (includes (toLowerCase nm) "password" || includes (toLowerCase nm) "secret"
     || includes (toLowerCase nm) "key" || includes (toLowerCase nm) "token").
Proof.
  unfold secret_name; simpl.
  now rewrite orb_false_r, !orb_assoc.
Qed.

Lemma VariableDeclarator_binding (fp : string) (path : NodePath)
      (issues : list CodeIssue) (nm v : string) :
  binds_string_literal (path_node path) nm v ->
  SecurityDetector.VariableDeclarator fp path issues
  = Ok (if secret_name nm && (8 <? String.length v)%nat
        then push issues (SecurityDetector.hardcoded_secret_issue (path_node path) fp)
        else issues).
Proof.
  intros (_ & id & init & Hid & Tid & Nid & Hinit & Tinit & Vinit).
  unfold SecurityDetector.VariableDeclarator.
  rewrite Hid, Hinit. cbn [isTypeO name_or_empty]. rewrite Tid, Tinit, Nid, Vinit.
  cbn [negb]. rewrite secret_name_unfold. now destruct (_ && _).
Qed.

Lemma VariableDeclarator_emits (fp : string) (p : NodePath) (issues : list CodeIssue) :
  isType "VariableDeclarator" (path_node p) = true ->
  SecurityDetector.VariableDeclarator fp p issues
  = Ok (issues ++ if flagged_declarator (path_node p)
                  then [SecurityDetector.hardcoded_secret_issue (path_node p) fp]
                  else []).
Proof.
  intros Hty. unfold SecurityDetector.VariableDeclarator, flagged_declarator.
  rewrite Hty. cbn [andb].
  destruct (field "init" _) as [init|], (field "id" _) as [id|];
    cbn [isTypeO negb name_or_empty]; rewrite ?app_nil_r; try reflexivity.
  - destruct (isType "StringLiteral" init), (isType "Identifier" id);
      cbn [negb andb]; rewrite ?app_nil_r; try reflexivity.
    rewrite secret_name_unfold. cbn [name_or_empty].
    destruct (_ && _); [reflexivity | now rewrite app_nil_r].
  - destruct (isType "StringLiteral" init); reflexivity.
Qed.

Lemma visit_security (redos : string -> bool) (fp : string) (p : NodePath)
      (issues : list CodeIssue) :
  match visit (SecurityDetector.visitor redos fp) p issues with
  | Ok r =>
      exists e, r = issues ++ e
                /\ filter (has_code "HARDCODED_SECRET") e
                   = if flagged_declarator (path_node p)
                     then [SecurityDetector.hardcoded_secret_issue (path_node p) fp]
                     else []
  | Throw _ => True
  end.
Proof.
  unfold SecurityDetector.visitor.
  rewrite !visit_cons, visit_nil.
  destruct (String.eqb_spec "VariableDeclarator" (node_type (path_node p))) as [Hd|Hd].
  - assert (isType "VariableDeclarator" (path_node p) = true) as Hty
        by (unfold isType; rewrite <- Hd; reflexivity).
    rewrite <- Hd. cbn [String.eqb Ascii.eqb Bool.eqb].
    rewrite (VariableDeclarator_emits _ _ _ Hty).
    eexists; split; [reflexivity|]. now destruct (flagged_declarator _).
  - assert (flagged_declarator (path_node p) = false) as ->.
    { unfold flagged_declarator, isType. now rewrite (eqb_lit Hd). }
    destruct (String.eqb "CallExpression" _).
    { unfold SecurityDetector.CallExpression.
      destruct (isIdentifierNamed "eval" _), (SecurityDetector.isSQLQuery _);
        try destruct (SecurityDetector.containsUserInput p) as [[]|];
        cbn [bind]; try exact I;
        destruct (SecurityDetector.isCommandExecution _);
        try destruct (someM _ _) as [[]|]; cbn [bind]; appended_ok. }
    destruct (String.eqb "NewExpression" _).
    { unfold SecurityDetector.NewExpression.
      destruct (negb _); [appended_ok|].
      destruct (fields _ _) as [|a l]; [appended_ok|].
      destruct (isType _ a); [|appended_ok].
      destruct (redos _); appended_ok. }
    destruct (String.eqb "AssignmentExpression" _).
    { unfold SecurityDetector.AssignmentExpression.
      destruct (field "left" _); [|appended_ok].
      destruct (_ && _); appended_ok. }
    appended_ok.
Qed.

(** The detector does not always return: the helper
    [nodeContainsUserInput] starts [traverse] at an argument node, which
    the library refuses, so a command-execution call with an argument makes
    [detect] throw (the per-file analyzer catches it). Here the tree is
    that of [exec("ls")]. *)
Example detect_throws_on_command_execution (redos : string -> bool) :
  SecurityDetector.detect redos
    (File [ mk "ExpressionStatement"
               [ ("expression",
                  mk "CallExpression" [ ("callee", Identifier "exec");
                                        ("arguments", StringLiteral "ls") ]) ] ])
    "" "a.js"
  = Throw (noScopeError "StringLiteral").
Proof. reflexivity. Qed.

(** What the detector does for a declarator by itself. For a variable
    declarator that binds a simple identifier to a string literal, the
    [VariableDeclarator] visitor pushes an issue of severity [error] and
    code [HARDCODED_SECRET] if and only if the lower-cased identifier
    contains one of [password], [secret], [key], [token] and the literal
    is longer than 8 characters, and it pushes nothing else for it. When
    the detector returns, its [HARDCODED_SECRET] issues are those of the
    declarators of the tree that meet this condition, one each; on a file
    that holds nothing but [const password = "abcdef123"] it returns that
    issue, and on [const password = "abc"] none. *)
Lemma hardcoded_secret_when_detect_returns :
  (forall fp path issues nm v,
      binds_string_literal (path_node path) nm v ->
      SecurityDetector.VariableDeclarator fp path issues
      = Ok (if secret_name nm && (8 <? String.length v)%nat
            then push issues (SecurityDetector.hardcoded_secret_issue (path_node path) fp)
            else issues))
  /\ (forall n fp,
        severity (SecurityDetector.hardcoded_secret_issue n fp) = error
        /\ code (SecurityDetector.hardcoded_secret_issue n fp) = Some "HARDCODED_SECRET")
  /\ (forall redos ast src fp issues,
        SecurityDetector.detect redos ast src fp = Ok issues ->
        filter (has_code "HARDCODED_SECRET") issues
        = map (fun p => SecurityDetector.hardcoded_secret_issue (path_node p) fp)
              (filter (fun p => flagged_declarator (path_node p)) (root_paths ast)))
  /\ (forall redos,
        SecurityDetector.detect redos (const_password "abcdef123") "" "a.js"
        = Ok [SecurityDetector.hardcoded_secret_issue (declarator_password "abcdef123") "a.js"])
  /\ (forall redos,
        SecurityDetector.detect redos (const_password "abc") "" "a.js" = Ok []).
Proof.
  split; [exact VariableDeclarator_binding|].
  split; [now split|].
  split; [|split; reflexivity].
  intros redos ast src fp issues.
  unfold SecurityDetector.detect, traverse.
  destruct (isProgramOrFile ast); [|discriminate].
  intros Hrun.
  rewrite (foldM_appends_if_ok _ _ _ (visit_security redos fp) _ _ Hrun).
  apply (flat_map_filter_map (fun p => flagged_declarator (path_node p))).
Qed.

(** C9. The claim does not hold of the code. In the file
    [const password = 'abcdef123'; exec('ls');] the declarator binds the
    identifier [password] to a string literal of 9 characters, so it meets
    the condition, and it is a node of the tree. But [exec('ls')] is a
    command-execution call with an argument: the helper
    [nodeContainsUserInput] starts [traverse] at the argument node, the
    library refuses a root that is neither a [File] nor a [Program], and
    [detect] throws, whatever the regular-expression test. The per-file
    analyzer catches the failure and logs it: the result of the file has
    no [HARDCODED_SECRET] issue. *)
Theorem C9_hardcoded_secret :
  binds_string_literal (declarator_password "abcdef123") "password" "abcdef123"
  /\ secret_name "password" && (8 <? String.length "abcdef123")%nat = true
  /\ In (declarator_password "abcdef123") (map path_node (root_paths password_and_exec))
  /\ (forall redos src fp,
        SecurityDetector.detect redos password_and_exec src fp
        = Throw (noScopeError "StringLiteral"))
  /\ exists fa log,
       analyze_password_and_exec None password_and_exec_source "/p" = Ok (fa, log)
       /\ filter (has_code "HARDCODED_SECRET") (FileAnalysis.issues fa) = []
       /\ In (WarnDetectorFailed "Security" "src/c.js" (noScopeError "StringLiteral")) log.
Proof.
  split.
  { split; [reflexivity|].
    exists (Identifier "password"), (StringLiteral "abcdef123"). repeat split. }
  split; [reflexivity|].
  split; [cbn; tauto|].
  split; [reflexivity|].
  vm_compute. eexists. eexists. split; [reflexivity|].
  split; [reflexivity|].
  repeat (first [left; reflexivity | right]).
Qed.

(* ================================================================= *)
(** ** Rounding to binary64 *)

Unset Implicit Arguments.

Section Rounding.
Local Open Scope Q_scope.

Lemma two_pos z : 0 < 2 ^ z.
Proof. apply Qpower_0_lt. reflexivity. Qed.

Lemma two_nz z : ~ 2 ^ z == 0.
Proof. intros H. pose proof (two_pos z) as P. rewrite H in P. discriminate. Qed.

Lemma pow2_le (n m : Z) : (n <= m)%Z -> 2 ^ n <= 2 ^ m.
Proof. intros H. apply Qpower_le_compat_l; [exact H | discriminate]. Qed.

Lemma pow2_inject (n : Z) : (0 <= n)%Z -> inject_Z (2 ^ n) == 2 ^ n.
Proof. intros H. now rewrite Zpower_Qpower. Qed.

Lemma Qmake_mult_den (a : Z) (b : positive) : (a # b) * inject_Z (Z.pos b) == inject_Z a.
Proof. unfold Qeq, Qmult, inject_Z; simpl. rewrite Pos.mul_1_r. ring. Qed.

Lemma ilog2_spec (q : Q) : 0 < q -> 2 ^ ilog2 q <= q /\ q < 2 ^ (ilog2 q + 1).
Proof.
  intros Hq. destruct q as [a b].
  assert (0 < a)%Z as Ha by (unfold Qlt in Hq; simpl in Hq; lia).
  unfold ilog2. cbn [Qnum Qden].
  set (la := Z.log2 a). set (lb := Z.log2 (Z.pos b)).
  assert (0 <= la)%Z as Hla by apply Z.log2_nonneg.
  assert (0 <= lb)%Z as Hlb by apply Z.log2_nonneg.
  destruct (Z.log2_spec a Ha) as [A1 A2]. fold la in A1, A2.
  destruct (Z.log2_spec (Z.pos b) eq_refl) as [B1 B2]. fold lb in B1, B2.
  pose proof (Qmake_mult_den a b) as E.
  rewrite Zle_Qle, pow2_inject in A1 by lia.
  rewrite Zlt_Qlt, pow2_inject in A2 by lia.
  rewrite Zle_Qle, pow2_inject in B1 by lia.
  rewrite Zlt_Qlt, pow2_inject in B2 by lia.
  replace (Z.succ la) with (la + 1)%Z in A2 by lia.
  replace (Z.succ lb) with (lb + 1)%Z in B2 by lia.
  assert (2 ^ (la - lb - 1) <= a # b) as Lo.
  { replace (la - lb - 1)%Z with (la - (lb + 1))%Z by lia.
    rewrite Qpower_minus by discriminate.
    apply Qle_shift_div_r; [apply two_pos|].
    apply Qle_trans with (inject_Z a); [exact A1|].
    rewrite <- E. apply Qmult_le_l; [exact Hq|]. now apply Qlt_le_weak. }
  assert (a # b < 2 ^ (la - lb + 1)) as Hi.
  { replace (la - lb + 1)%Z with (la + 1 - lb)%Z by lia.
    rewrite Qpower_minus by discriminate.
    apply Qlt_shift_div_l; [apply two_pos|].
    apply Qle_lt_trans with (inject_Z a); [|exact A2].
    rewrite <- E. apply Qmult_le_l; [exact Hq|exact B1]. }
  destruct (Qle_bool (2 ^ (la - lb)) (a # b)) eqn:C.
  - apply Qle_bool_iff in C. split; [exact C | exact Hi].
  - split; [exact Lo|].
    replace (la - lb - 1 + 1)%Z with (la - lb)%Z by lia.
    apply Qnot_le_lt. intros H. apply Qle_bool_iff in H. congruence.
Qed.

Lemma ilog2_mono (x y : Q) : 0 < x -> x <= y -> (ilog2 x <= ilog2 y)%Z.
Proof.
  intros Hx Hxy.
  assert (0 < y) as Hy by (eapply Qlt_le_trans; eauto).
  destruct (ilog2_spec x Hx) as [X1 _]. destruct (ilog2_spec y Hy) as [_ Y2].
  destruct (Z_le_gt_dec (ilog2 x) (ilog2 y)) as [H|H]; [exact H|exfalso].
  assert (2 ^ (ilog2 y + 1) <= 2 ^ ilog2 x) as P by (apply pow2_le; lia).
  apply (Qlt_irrefl y).
  eapply Qlt_le_trans; [exact Y2|]. eapply Qle_trans; [exact P|].
  eapply Qle_trans; eauto.
Qed.

(** *** Rounding to the nearest integer *)

Lemma rne_bounds (q : Q) : (Qfloor q <= rne q <= Qfloor q + 1)%Z.
Proof.
  unfold rne. destruct (Qcompare _ _); [destruct (Z.even _)| |]; lia.
Qed.

Lemma rne_Z (n : Z) : rne (inject_Z n) = n.
Proof.
  unfold rne. rewrite Qfloor_Z.
  assert (inject_Z n - inject_Z n == 0) as E by ring.
  rewrite E. reflexivity.
Qed.

Lemma rne_mono (x y : Q) : x <= y -> (rne x <= rne y)%Z.
Proof.
  intros Hxy. pose proof (Qfloor_resp_le _ _ Hxy) as Hf.
  pose proof (rne_bounds x) as Bx. pose proof (rne_bounds y) as By.
  destruct (Z.eq_dec (Qfloor x) (Qfloor y)) as [E|NE]; [|lia].
  unfold rne in *. rewrite <- E in *.
  assert (x - inject_Z (Qfloor x) <= y - inject_Z (Qfloor x)) as Hr by lra.
  destruct (Qcompare_spec (x - inject_Z (Qfloor x)) (1 # 2)) as [Cx|Cx|Cx];
    destruct (Qcompare_spec (y - inject_Z (Qfloor x)) (1 # 2)) as [Cy|Cy|Cy];
    try destruct (Z.even _); try lia; exfalso; lra.
Qed.

Lemma rne_comp (x y : Q) : x == y -> rne x = rne y.
Proof.
  intros E. apply Z.le_antisymm; apply rne_mono; rewrite E; apply Qle_refl.
Qed.

(** *** Rounding to binary64 *)

Lemma fl_pos_mono (x y : Q) : 0 < x -> x <= y -> fl_pos x <= fl_pos y.
Proof.
  intros Hx Hxy.
  assert (0 < y) as Hy by (eapply Qlt_le_trans; eauto).
  pose proof (ilog2_mono x y Hx Hxy) as Hl.
  unfold fl_pos.
  assert (fexp x <= fexp y)%Z as He by (unfold fexp; lia).
  destruct (Z.eq_dec (fexp x) (fexp y)) as [E|NE].
  - rewrite <- E. apply Qmult_le_compat_r; [|apply Qlt_le_weak, two_pos].
    rewrite <- Zle_Qle. apply rne_mono.
    apply Qmult_le_compat_r; [exact Hxy|].
    apply Qlt_le_weak, Qinv_lt_0_compat, two_pos.
  - assert (fexp x + 1 <= fexp y)%Z as Hlt by lia.
    assert (fexp y = ilog2 y - 52)%Z as Ey by (unfold fexp in *; lia).
    destruct (ilog2_spec x Hx) as [_ X2]. destruct (ilog2_spec y Hy) as [Y1 _].
    apply Qle_trans with (2 ^ 53 * 2 ^ fexp x).
    + apply Qmult_le_compat_r; [|apply Qlt_le_weak, two_pos].
      rewrite <- (pow2_inject 53) by lia. rewrite <- Zle_Qle.
      rewrite <- (rne_Z (2 ^ 53)). apply rne_mono.
      rewrite pow2_inject by lia.
      apply Qle_shift_div_r; [apply two_pos|].
      rewrite <- Qpower_plus by discriminate.
      apply Qlt_le_weak. eapply Qlt_le_trans; [exact X2|].
      apply pow2_le. unfold fexp. lia.
    + apply Qle_trans with (2 ^ 52 * 2 ^ fexp y).
      * rewrite <- !Qpower_plus by discriminate. apply pow2_le. lia.
      * apply Qmult_le_compat_r; [|apply Qlt_le_weak, two_pos].
        rewrite <- (pow2_inject 52) by lia. rewrite <- Zle_Qle.
        rewrite <- (rne_Z (2 ^ 52)) at 1. apply rne_mono.
        rewrite pow2_inject by lia.
        apply Qle_shift_div_l; [apply two_pos|].
        rewrite <- Qpower_plus by discriminate.
        eapply Qle_trans; [|exact Y1]. apply pow2_le. lia.
Qed.

Lemma fl_pos_nonneg (x : Q) : 0 < x -> 0 <= fl_pos x.
Proof.
  intros Hx. unfold fl_pos.
  apply Qmult_le_0_compat; [|apply Qlt_le_weak, two_pos].
  change 0 with (inject_Z 0). rewrite <- Zle_Qle.
  rewrite <- (rne_Z 0). apply rne_mono. change (inject_Z 0) with 0.
  apply Qlt_le_weak. apply Qlt_shift_div_l; [apply two_pos|]. now rewrite Qmult_0_l.
Qed.

Lemma Qnum_pos (q : Q) : 0 < q <-> (0 < Qnum q)%Z.
Proof. unfold Qlt; simpl. lia. Qed.

Lemma Qnum_neg (q : Q) : q < 0 <-> (Qnum q < 0)%Z.
Proof. unfold Qlt; simpl. lia. Qed.

Lemma fl_positive (q : Q) : 0 < q -> fl q = fl_pos q.
Proof. intros H%Qnum_pos. unfold fl. destruct (Qnum q); lia || reflexivity. Qed.

Lemma fl_negative (q : Q) : q < 0 -> fl q = - fl_pos (- q).
Proof. intros H%Qnum_neg. unfold fl. destruct (Qnum q); lia || reflexivity. Qed.

Lemma fl_zero (q : Q) : q == 0 -> fl q = 0.
Proof.
  intros H. unfold fl. unfold Qeq in H; simpl in H.
  destruct (Qnum q); lia || reflexivity.
Qed.

Lemma fl_sign_nonneg (q : Q) : 0 <= q -> 0 <= fl q.
Proof.
  intros H. apply Qle_lteq in H as [H|H].
  - rewrite fl_positive by exact H. now apply fl_pos_nonneg.
  - rewrite fl_zero by (now symmetry). apply Qle_refl.
Qed.

Lemma fl_sign_nonpos (q : Q) : q <= 0 -> fl q <= 0.
Proof.
  intros H. apply Qle_lteq in H as [H|H].
  - rewrite fl_negative by exact H.
    assert (0 <= fl_pos (- q)) by (apply fl_pos_nonneg; lra). lra.
  - rewrite fl_zero by exact H. apply Qle_refl.
Qed.

(** Rounding is monotone. *)
Lemma fl_mono (x y : Q) : x <= y -> fl x <= fl y.
Proof.
  intros Hxy.
  destruct (Qlt_le_dec 0 x) as [Hx|Hx].
  - rewrite !fl_positive by lra. now apply fl_pos_mono.
  - destruct (Qlt_le_dec 0 y) as [Hy|Hy].
    + apply Qle_trans with 0; [now apply fl_sign_nonpos|apply fl_sign_nonneg; lra].
    + destruct (Qlt_le_dec y 0) as [Hy'|Hy'].
      * rewrite !fl_negative by lra.
        assert (fl_pos (- y) <= fl_pos (- x)) by (apply fl_pos_mono; lra). lra.
      * rewrite (fl_zero y) by lra. now apply fl_sign_nonpos.
Qed.

Lemma fl_comp (x y : Q) : x == y -> fl x == fl y.
Proof. intros E. apply Qle_antisym; apply fl_mono; rewrite E; apply Qle_refl. Qed.

Lemma Math_round_mono (x y : Q) : x <= y -> (Math_round x <= Math_round y)%Z.
Proof. intros H. apply Qfloor_resp_le. lra. Qed.

Lemma Math_round_Z (n : Z) : Math_round (inject_Z n) = n.
Proof.
  unfold Math_round.
  assert (Qfloor (inject_Z n) <= Qfloor (inject_Z n + (1 # 2)))%Z
    by (apply Qfloor_resp_le; lra).
  rewrite Qfloor_Z in H.
  pose proof (Qfloor_le (inject_Z n + (1 # 2))) as L.
  assert (inject_Z (Qfloor (inject_Z n + (1 # 2))) < inject_Z (n + 1)).
  { rewrite inject_Z_plus. change (inject_Z 1) with 1. lra. }
  rewrite <- Zlt_Qlt in H0. lia.
Qed.

(** [fl] and the binary64 arithmetic of the proof assistant's primitive
    floats return the same values. *)
Example fl_is_binary64_rounding :
  forallb (fun k => same_value (PrimFloat.div (float_of_Z k) (float_of_Z 200))
                               (fl (inject_Z k / 200)))
          [1; 2; 3; 29; 57; 115; 199; 200]%Z
  && forallb (fun k =>
                same_value (PrimFloat.mul (PrimFloat.div (float_of_Z k) (float_of_Z 7))
                                          (float_of_Z 100))
                           (fl (fl (inject_Z k / 7) * 100)))
             [1; 2; 3; 4; 5; 6; 7]%Z
  && same_value (PrimFloat.div (FloatOps.Z.ldexp (float_of_Z 1) (-1070)%Z) (float_of_Z 3))
                (fl (2 ^ (-1070) / 3))
  && same_value (PrimFloat.mul (PrimFloat.div (float_of_Z 23) (float_of_Z 40))
                               (float_of_Z 100))
                (fmul (fdiv (num 23) (num 40)) 100)
  && PrimFloat.ltb (PrimFloat.mul (PrimFloat.div (float_of_Z 23) (float_of_Z 40))
                                  (float_of_Z 100))
                   (PrimFloat.div (float_of_Z 115) (float_of_Z 2))
  = true.
Proof. vm_compute. reflexivity. Qed.










Lemma num_pos (n : nat) : (0 < n)%nat -> ~ num n == 0.
Proof.
  intros H E. unfold num, Qeq in E. simpl in E. lia.
Qed.

(* ================================================================= *)
(** ** Maintainability index *)




End Rounding.

(* ================================================================= *)
(** ** Progress values *)

Section Progress.
Local Open Scope Q_scope.

Lemma num_le (i j : nat) : (i <= j)%nat -> num i <= num j.
Proof. intros H. unfold num. rewrite <- Zle_Qle. lia. Qed.

Lemma progress_mono (i j n : nat) :
  (i <= j)%nat -> (AnalysisEngine.progress i n <= AnalysisEngine.progress j n)%Z.
Proof.
  intros H. unfold AnalysisEngine.progress, fmul, fdiv.
  apply Math_round_mono, fl_mono.
  apply Qmult_le_compat_r; [|discriminate].
  apply fl_mono. apply Qmult_le_compat_r; [apply num_le; lia|].
  apply Qinv_le_0_compat. apply (num_le 0 n). lia.
Qed.

Lemma fl_1 : fl 1 == 1.
Proof. apply Qeq_bool_eq. vm_compute. reflexivity. Qed.

Lemma fl_100 : fl 100 == 100.
Proof. apply Qeq_bool_eq. vm_compute. reflexivity. Qed.

Lemma progress_final (n : nat) :
  (1 <= n)%nat -> AnalysisEngine.progress (n - 1) n = 100%Z.
Proof.
  intros H. unfold AnalysisEngine.progress, fmul, fdiv.
  replace (n - 1 + 1)%nat with n by lia.
  assert (fl (fl (num n / num n) * 100) == 100) as E.
  { transitivity (fl 100); [apply fl_comp | apply fl_100].
    assert (fl (num n / num n) == 1) as ->; [|reflexivity].
    transitivity (fl 1); [apply fl_comp | apply fl_1].
    apply Qmult_inv_r. apply num_pos. lia. }
  unfold Math_round. rewrite (Qfloor_comp _ (100 + (1 # 2))); [reflexivity|].
  now rewrite E.
Qed.

End Progress.

(* ================================================================= *)
(** ** Per-file analyzer *)

Lemma split_length (c : ascii) (s : string) :
  List.length (split c s) = S (count_char c s).
Proof.
  induction s as [|c' r IH]; simpl; [reflexivity|].
  destruct (Ascii.eqb c' c); simpl; [now rewrite IH|].
  destruct (split c r); simpl in *; lia.
Qed.

Lemma traverse_total {S : Type} (ast : node) (v : Visitor S) (s : S) :
  isProgramOrFile ast = true ->
  Forall (fun h => forall p s, exists s', snd h p s = Ok s') v ->
  exists s', traverse ast v s = Ok s'.
Proof.
  intros Hroot Hv. unfold traverse. rewrite Hroot.
  now apply foldM_total, visit_total.
Qed.

Lemma incr_total : forall (p : NodePath) (s : nat), exists s', incr p s = Ok s'.
Proof. intros p s. now exists (S s). Qed.

Section EngineProperties.

Variable path_join : string -> string -> string.
Variable path_relative : string -> string -> string.
Variable parse : string -> Result ParsedFile.
Variable newESLint : ESLintConfig -> ESLint.
Variable syntaxDetector : Detector.
Variable logicDetector : Detector.
Variable performanceDetector : Detector.
Variable securityDetector : Detector.
Variable complexityCalculator : node -> Result nat.
Variable Math_log : number -> number.
Variable Math_log2 : number -> number.

Local Abbreviation analyzeFile :=
  (AnalysisEngine.analyzeFile path_relative parse syntaxDetector logicDetector
     performanceDetector securityDetector complexityCalculator).
Local Abbreviation analyzeLoop :=
  (AnalysisEngine.analyzeLoop path_relative parse syntaxDetector logicDetector
     performanceDetector securityDetector complexityCalculator).
Local Abbreviation analyzeCodebase :=
  (AnalysisEngine.analyzeCodebase path_join path_relative parse newESLint
     syntaxDetector logicDetector performanceDetector securityDetector
     complexityCalculator Math_log Math_log2).
Local Abbreviation detectFrameworkAndSource :=
  (AnalysisEngine.detectFrameworkAndSource path_join).
Local Abbreviation getJavaScriptFiles := (AnalysisEngine.getJavaScriptFiles path_join).
Local Abbreviation calculateMetrics := (AnalysisEngine.calculateMetrics Math_log Math_log2).

Lemma counts_total (ast : node) :
  isProgramOrFile ast = true ->
  exists f c i,
    AnalysisEngine.countFunctions ast = Ok f
    /\ AnalysisEngine.countClasses ast = Ok c
    /\ AnalysisEngine.countImports ast = Ok i.
Proof.
  intros Hroot.
  destruct (traverse_total ast
              [("FunctionDeclaration", incr); ("ArrowFunctionExpression", incr);
               ("FunctionExpression", incr)] 0 Hroot) as [f Hf];
    [repeat constructor; apply incr_total|].
  destruct (traverse_total ast [("ClassDeclaration", incr)] 0 Hroot) as [c Hc];
    [repeat constructor; apply incr_total|].
  destruct (traverse_total ast [("ImportDeclaration", incr)] 0 Hroot) as [i Hi];
    [repeat constructor; apply incr_total|].
  now exists f, c, i.
Qed.

Lemma detectors_issues (ast : node) (code rel : string)
      (issues : list CodeIssue) (log : list LogEvent) :
  fst (fold_left (AnalysisEngine.runDetector ast code rel)
                 (AnalysisEngine.detectors syntaxDetector logicDetector
                                           performanceDetector securityDetector)
                 (issues, log))
  = issues
    ++ detector_issues syntaxDetector ast code rel
    ++ detector_issues logicDetector ast code rel
    ++ detector_issues performanceDetector ast code rel
    ++ detector_issues securityDetector ast code rel.
Proof.
  unfold AnalysisEngine.detectors, AnalysisEngine.runDetector, detector_issues.
  cbn [fold_left fst snd].
  destruct (syntaxDetector ast code rel), (logicDetector ast code rel),
    (performanceDetector ast code rel), (securityDetector ast code rel);
    cbn [fst snd]; now rewrite ?app_nil_r, <- ?app_assoc.
Qed.

Lemma runESLint_issues (eslint : option ESLint) (code filePath rel : string) :
  fst (AnalysisEngine.runESLint eslint code filePath rel [])
  = lint_issues eslint code filePath rel.
Proof.
  unfold AnalysisEngine.runESLint, lint_issues.
  destruct eslint as [lintText|]; [|reflexivity].
  now destruct (lintText code filePath).
Qed.

(** What the analyzer returns for a file that is read and parsed. *)
Lemma analyzeFile_parsed (eslint : option ESLint) (file : SourceFile) (root code : string)
      (parsed : ParsedFile) :
  sf_read file = Ok code ->
  parse code = Ok parsed ->
  let rel := path_relative root (sf_path file) in
  let ast := parsed_ast parsed in
  exists cx nfunctions nclasses nimports log,
    analyzeFile eslint file root
    = Ok (FileAnalysis.mk rel
            (lint_issues eslint code (sf_path file) rel
             ++ detector_issues syntaxDetector ast code rel
             ++ detector_issues logicDetector ast code rel
             ++ detector_issues performanceDetector ast code rel
             ++ detector_issues securityDetector ast code rel)
            (mkMetrics (List.length (split newline code)) (Some cx)
                       (Some nfunctions) (Some nclasses) (Some nimports)),
          log).
Proof.
  intros Hread Hparse rel ast.
  unfold AnalysisEngine.analyzeFile. rewrite Hread, Hparse.
  destruct (counts_total (parsed_ast parsed) (parsed_root parsed))
    as (f & c & i & -> & -> & ->).
  cbn [bind]. fold rel ast.
  rewrite detectors_issues, runESLint_issues.
  now eexists _, f, c, i, _.
Qed.

(** The analyzer returns a result for every file, whatever reading,
    parsing, linting, the detectors and the calculator do. *)
Lemma analyzeFile_returns (eslint : option ESLint) (file : SourceFile) (root : string) :
  exists fa log,
    analyzeFile eslint file root = Ok (fa, log)
    /\ FileAnalysis.filePath fa = path_relative root (sf_path file).
Proof.
  destruct (sf_read file) as [code|err] eqn:Hread.
  - destruct (parse code) as [parsed|perr] eqn:Hparse.
    + destruct (analyzeFile_parsed eslint file root code parsed Hread Hparse)
        as (cx & f & c & i & log & ->).
      now eexists _, _.
    + unfold AnalysisEngine.analyzeFile. rewrite Hread, Hparse. now eexists _, _.
  - unfold AnalysisEngine.analyzeFile. rewrite Hread. now eexists _, _.
Qed.

(** C4. For a file that is read and parsed, the issues of the result are,
    in this order: the lint issues, then the issues of the syntax, the
    logic, the performance and the security detector (a pass that fails
    contributes none). *)
Theorem C4_issue_order (eslint : option ESLint) (file : SourceFile) (root code : string)
        (parsed : ParsedFile) :
  sf_read file = Ok code ->
  parse code = Ok parsed ->
  exists fa log,
    analyzeFile eslint file root = Ok (fa, log)
    /\ FileAnalysis.issues fa
       = lint_issues eslint code (sf_path file) (path_relative root (sf_path file))
         ++ detector_issues syntaxDetector (parsed_ast parsed) code
                            (path_relative root (sf_path file))
         ++ detector_issues logicDetector (parsed_ast parsed) code
                            (path_relative root (sf_path file))
         ++ detector_issues performanceDetector (parsed_ast parsed) code
                            (path_relative root (sf_path file))
         ++ detector_issues securityDetector (parsed_ast parsed) code
                            (path_relative root (sf_path file)).
Proof.
  intros Hread Hparse.
  destruct (analyzeFile_parsed eslint file root code parsed Hread Hparse)
    as (cx & f & c & i & log & ->).
  now eexists _, _.
Qed.

(** C5. For a file that is read but does not parse, the analyzer returns
    (it does not throw) a result with exactly one issue, whose code is
    [PARSE_ERROR], type [syntax], severity [error], message the parser's
    message and position the parser's position (0 where the parser gives
    none), and whose metrics hold the line count of the text and nothing
    else. *)
Theorem C5_parse_failure (eslint : option ESLint) (file : SourceFile) (root text : string)
        (err : JsError) :
  sf_read file = Ok text ->
  parse text = Throw err ->
  exists issue,
    analyzeFile eslint file root
    = Ok (FileAnalysis.mk (path_relative root (sf_path file)) [issue]
            (mkMetrics (List.length (split newline text)) None None None None),
          [])
    /\ code issue = Some "PARSE_ERROR"
    /\ type issue = "syntax"
    /\ severity issue = error
    /\ message issue = err_message err
    /\ (line issue, column issue)
       = match err_loc err with Some l => l | None => (0, 0)%Z end.
Proof.
  intros Hread Hparse.
  exists (AnalysisEngine.parse_error_issue err (path_relative root (sf_path file))).
  unfold AnalysisEngine.analyzeFile. rewrite Hread, Hparse.
  repeat split. cbn. now destruct (err_loc err) as [[l c]|].
Qed.

(** C7. For a file that is read, [linesOfCode] is the length of the text
    split on the newline character, that is the number of newline
    characters plus one, whether or not the text ends with a newline. *)
Theorem C7_lines_of_code (eslint : option ESLint) (file : SourceFile) (root code : string) :
  sf_read file = Ok code ->
  exists fa log,
    analyzeFile eslint file root = Ok (fa, log)
    /\ linesOfCode (FileAnalysis.metrics fa) = List.length (split newline code)
    /\ linesOfCode (FileAnalysis.metrics fa) = count_char newline code + 1.
Proof.
  intros Hread.
  assert (List.length (split newline code) = count_char newline code + 1) as E
      by (rewrite split_length; lia).
  destruct (parse code) as [parsed|perr] eqn:Hparse.
  - destruct (analyzeFile_parsed eslint file root code parsed Hread Hparse)
      as (cx & f & c & i & log & ->).
    now eexists _, _.
  - unfold AnalysisEngine.analyzeFile. rewrite Hread, Hparse. now eexists _, _.
Qed.


(* ================================================================= *)
(** ** Project-level run *)

(** For a directory that is not skipped, the turn of the loop is the
    recursive call of [getJavaScriptFiles]. *)
Lemma scanEntry_directory (dir nm : string) (listing : Result (list Dirent)) :
  arr_includes AnalysisEngine.skipped nm = false ->
  AnalysisEngine.scanEntry path_join dir (DirEntry nm listing)
  = getJavaScriptFiles (path_join dir nm, listing).
Proof.
  intros Hskip. unfold AnalysisEngine.getJavaScriptFiles.
  cbn [AnalysisEngine.scanEntry dirent_name fst snd]. rewrite Hskip.
  destruct listing as [entries|err]; [|reflexivity].
  induction entries as [|e entries IH]; [reflexivity|].
  cbn [fold_right]. now rewrite <- IH.
Qed.

(** [fa] is the result of the per-file analyzer for [f]. *)
Local Abbreviation analysis_of eslint dir :=
  (fun (f : SourceFile) (fa : FileAnalysis.t) =>
     exists log, analyzeFile eslint f dir = Ok (fa, log)).

Lemma analysis_of_unique (eslint : option ESLint) (dir : string)
      (files : list SourceFile) (fas fas' : list FileAnalysis.t) :
  Forall2 (analysis_of eslint dir) files fas ->
  Forall2 (analysis_of eslint dir) files fas' ->
  fas = fas'.
Proof.
  intros H; revert fas'. induction H as [|f fa files fas [l Hf] _ IH]; intros fas' H'.
  - now inversion H'.
  - inversion H' as [|f' fa' files' fas'' [l' Hf'] Hrest]; subst.
    rewrite Hf in Hf'. injection Hf' as <- _. f_equal. now apply IH.
Qed.

Lemma analysis_of_paths (eslint : option ESLint) (dir : string)
      (files : list SourceFile) (fas : list FileAnalysis.t) :
  Forall2 (analysis_of eslint dir) files fas ->
  map FileAnalysis.filePath fas = map (fun f => path_relative dir (sf_path f)) files.
Proof.
  induction 1 as [|f fa files fas [l Hf] _ IH]; [reflexivity|].
  cbn [map]. rewrite IH. f_equal.
  destruct (analyzeFile_returns eslint f dir) as (fa' & l' & Hf' & Hpath).
  rewrite Hf in Hf'. now injection Hf' as -> _.
Qed.

Section Loop.
Variable W : Type.
Variable progressCallback : option (ProgressCallback W).
Variable eslint : option ESLint.
Variable dir : string.
Variable totalFiles : nat.

(** The loop analyses every file, in order, and reports the progress once
    after each of them. *)
Lemma analyzeLoop_run (files : list SourceFile) :
  forall (i : nat) (st : AnalysisEngine.LoopState W),
  exists fas log,
    Forall2 (analysis_of eslint dir) files fas
    /\ analyzeLoop progressCallback eslint dir totalFiles files i st
       = Ok (AnalysisEngine.mkLoop
               (AnalysisEngine.ls_fileAnalyses st ++ fas)
               (AnalysisEngine.ls_allIssues st ++ flat_map FileAnalysis.issues fas)
               (fold_left (fun w k =>
                             fst (AnalysisEngine.reportProgress progressCallback
                                                                k totalFiles w))
                          (seq i (List.length files)) (AnalysisEngine.ls_world st))
               log).
Proof.
  induction files as [|f files IH]; intros i st.
  - exists [], (AnalysisEngine.ls_log st). split; [constructor|].
    cbn. rewrite !app_nil_r. now destruct st.
  - destruct (analyzeFile_returns eslint f dir) as (fa & l & Hf & _).
    cbn [AnalysisEngine.analyzeLoop]. rewrite Hf. cbn [bind fst snd].
    match goal with
    | |- context [analyzeLoop _ _ _ _ files (S i) ?st'] =>
        destruct (IH (S i) st') as (fas & log & Hfas & ->)
    end.
    exists (fa :: fas), log. split; [constructor; [now exists l | exact Hfas]|].
    cbn [AnalysisEngine.ls_fileAnalyses AnalysisEngine.ls_allIssues
         AnalysisEngine.ls_world List.length seq fold_left flat_map].
    unfold push. now rewrite <- !app_assoc.
Qed.

End Loop.

Lemma reportProgress_world (W : Type) (callback : ProgressCallback W)
      (k totalFiles : nat) (w : W) :
  fst (AnalysisEngine.reportProgress (Some callback) k totalFiles w)
  = fst (callback (AnalysisEngine.progress k totalFiles) w).
Proof.
  unfold AnalysisEngine.reportProgress.
  now destruct (callback _ w) as [w' [err|]].
Qed.

(** The files the engine discovers in a project. *)
Local Abbreviation discovered projectPath :=
  (fst (getJavaScriptFiles (snd (fst (detectFrameworkAndSource projectPath))))).
Local Abbreviation scanned projectPath :=
  (fst (snd (fst (detectFrameworkAndSource projectPath)))).
Local Abbreviation linter projectPath :=
  (Some (fst (AnalysisEngine.initESLintForFramework
                newESLint (fst (fst (detectFrameworkAndSource projectPath)))))).

(** What a run returns. *)
Lemma analyzeCodebase_run (W : Type) (progressCallback : option (ProgressCallback W))
      (projectPath : AnalysisEngine.Dir) (clock : Clock) (w : W) :
  exists fas log,
    Forall2 (analysis_of (linter projectPath) (scanned projectPath))
            (discovered projectPath) fas
    /\ analyzeCodebase progressCallback projectPath clock w
       = Ok (AnalysisEngine.mkRun
               (AnalysisResult.mk
                  (scanned projectPath)
                  (List.length (discovered projectPath))
                  (List.length fas)
                  (flat_map FileAnalysis.issues fas)
                  (calculateMetrics fas)
                  fas
                  (clock_end clock - clock_start clock)%Z
                  (clock_stamp clock))
               (fold_left (fun w k =>
                             fst (AnalysisEngine.reportProgress
                                    progressCallback k
                                    (List.length (discovered projectPath)) w))
                          (seq 0 (List.length (discovered projectPath))) w)
               log).
Proof.
  unfold AnalysisEngine.analyzeCodebase.
  match goal with
  | |- context [analyzeLoop _ ?e ?d ?n ?fs 0 ?st] =>
      destruct (analyzeLoop_run W progressCallback e d n fs 0 st)
        as (fas & log & Hfas & ->)
  end.
  cbn [bind AnalysisEngine.ls_fileAnalyses AnalysisEngine.ls_allIssues
       AnalysisEngine.ls_world AnalysisEngine.ls_log app].
  exists fas. eexists. split; [exact Hfas | reflexivity].
Qed.

(** C3. When file discovery finds no eligible source file, the run
    returns (it does not throw) a result with [totalFiles = 0],
    [analyzedFiles = 0], [averageComplexity = 0],
    [maintainabilityIndex = 0], no issue and no file result. *)
Theorem C3_no_source_files (W : Type) (progressCallback : option (ProgressCallback W))
        (projectPath : AnalysisEngine.Dir) (clock : Clock) (w : W) :
  discovered projectPath = [] ->
  exists run,
    analyzeCodebase progressCallback projectPath clock w = Ok run
    /\ AnalysisResult.totalFiles (AnalysisEngine.run_result run) = 0
    /\ AnalysisResult.analyzedFiles (AnalysisEngine.run_result run) = 0
    /\ averageComplexity (AnalysisResult.metrics (AnalysisEngine.run_result run)) = 0%Q
    /\ maintainabilityIndex (AnalysisResult.metrics (AnalysisEngine.run_result run)) = 0%Q
    /\ AnalysisResult.issues (AnalysisEngine.run_result run) = []
    /\ AnalysisResult.fileAnalyses (AnalysisEngine.run_result run) = [].
Proof.
  intros Hnone.
  destruct (analyzeCodebase_run W progressCallback projectPath clock w)
    as (fas & log & Hfas & ->).
  rewrite Hnone in *. inversion Hfas; subst.
  eexists; split; [reflexivity|].
  cbn [AnalysisEngine.run_result AnalysisResult.totalFiles AnalysisResult.analyzedFiles
       AnalysisResult.metrics AnalysisResult.issues AnalysisResult.fileAnalyses
       List.length flat_map].
  repeat split.
Qed.

(** C10. Every run returns a result in which [analyzedFiles = totalFiles]
    and the list of file results has [totalFiles] entries, one for each
    discovered file, in order: the per-file analyzer produces a result for
    a file whether or not reading, parsing, linting, a detector or the
    complexity calculation fails for it. *)
Theorem C10_no_file_dropped (W : Type) (progressCallback : option (ProgressCallback W))
        (projectPath : AnalysisEngine.Dir) (clock : Clock) (w : W) :
  (forall eslint file root, exists fa log, analyzeFile eslint file root = Ok (fa, log))
  /\ exists run,
       analyzeCodebase progressCallback projectPath clock w = Ok run
       /\ AnalysisResult.totalFiles (AnalysisEngine.run_result run)
          = List.length (discovered projectPath)
       /\ AnalysisResult.analyzedFiles (AnalysisEngine.run_result run)
          = AnalysisResult.totalFiles (AnalysisEngine.run_result run)
       /\ List.length (AnalysisResult.fileAnalyses (AnalysisEngine.run_result run))
          = AnalysisResult.totalFiles (AnalysisEngine.run_result run)
       /\ map FileAnalysis.filePath
              (AnalysisResult.fileAnalyses (AnalysisEngine.run_result run))
          = map (fun f => path_relative (scanned projectPath) (sf_path f))
                (discovered projectPath).
Proof.
  split.
  - intros eslint file root.
    destruct (analyzeFile_returns eslint file root) as (fa & log & H & _).
    now exists fa, log.
  - destruct (analyzeCodebase_run W progressCallback projectPath clock w)
      as (fas & log & Hfas & ->).
    eexists; split; [reflexivity|].
    cbn [AnalysisEngine.run_result AnalysisResult.totalFiles
         AnalysisResult.analyzedFiles AnalysisResult.fileAnalyses].
    pose proof (Forall2_length Hfas) as Hlen.
    repeat split; try (symmetry; exact Hlen).
    now apply (analysis_of_paths (linter projectPath)).
Qed.

(** C6, amended. In a run over [totalFiles >= 1] files the progress
    callback is invoked exactly once after each file, in order, with the
    value [Math.round((completedCount / totalFiles) * 100)] as binary64
    arithmetic computes it, the quotient first (at a tie this can be one
    less than [round(100 * completedCount / totalFiles)]); the values are
    non-decreasing and the last one is 100; an exception of the callback is
    caught, and the result of the run does not depend on the callback. *)
Theorem C6_progress_callback (W : Type) (callback : ProgressCallback W)
        (projectPath : AnalysisEngine.Dir) (clock : Clock) (w : W) :
  (1 <= List.length (discovered projectPath))%nat ->
  let totalFiles := List.length (discovered projectPath) in
  exists run,
    analyzeCodebase (Some callback) projectPath clock w = Ok run
    /\ AnalysisEngine.run_world run
       = fold_left (fun w i => fst (callback (AnalysisEngine.progress i totalFiles) w))
                   (seq 0 totalFiles) w
    /\ (forall i j, (i <= j)%nat ->
          (AnalysisEngine.progress i totalFiles <= AnalysisEngine.progress j totalFiles)%Z)
    /\ AnalysisEngine.progress (totalFiles - 1) totalFiles = 100%Z
    /\ (forall (W' : Type) (other : option (ProgressCallback W')) (w' : W'),
          exists run',
            analyzeCodebase other projectPath clock w' = Ok run'
            /\ AnalysisEngine.run_result run' = AnalysisEngine.run_result run).
Proof.
  intros Hn totalFiles.
  destruct (analyzeCodebase_run W (Some callback) projectPath clock w)
    as (fas & log & Hfas & ->).
  eexists; split; [reflexivity|].
  cbn [AnalysisEngine.run_world AnalysisEngine.run_result].
  split; [|split; [|split]].
  - fold totalFiles. generalize (seq 0 totalFiles) as ks. intros ks; revert w.
    induction ks as [|k ks IH]; intros w; [reflexivity|].
    cbn [fold_left]. now rewrite reportProgress_world, IH.
  - intros i j Hij. now apply progress_mono.
  - now apply progress_final.
  - intros W' other w'.
    destruct (analyzeCodebase_run W' other projectPath clock w')
      as (fas' & log' & Hfas' & ->).
    eexists; split; [reflexivity|].
    cbn [AnalysisEngine.run_result].
    now rewrite (analysis_of_unique _ _ _ _ _ Hfas' Hfas).
Qed.

End EngineProperties.

(* ================================================================= *)
(** ** The properties on the sample engine *)

Lemma C3_no_source_files_witness :
  fst (AnalysisEngine.getJavaScriptFiles
         sample_path_join
         (snd (fst (AnalysisEngine.detectFrameworkAndSource sample_path_join empty_project))))
  = []
  /\ exists run,
       sample_analyzeCodebase (Some record_progress) empty_project sample_clock [] = Ok run
       /\ AnalysisResult.totalFiles (AnalysisEngine.run_result run) = 0
       /\ maintainabilityIndex (AnalysisResult.metrics (AnalysisEngine.run_result run)) = 0%Q.
Proof.
  split; [reflexivity|].
  destruct (C3_no_source_files
              sample_path_join sample_path_relative sample_parse sample_newESLint
              sample_syntaxDetector sample_logicDetector PerformanceDetector.detect
              (SecurityDetector.detect (fun _ => false)) calculate sample_ln sample_log2
              (list Z) (Some record_progress) empty_project sample_clock [] eq_refl)
    as (run & Hrun & Htotal & _ & _ & Hmi & _).
  exists run. repeat split; assumption.
Defined.

Lemma C4_issue_order_witness :
  sf_read sample_source = Ok "if (a) {} else if (b) {}"
  /\ sample_parse "if (a) {} else if (b) {}" = Ok (mkParsed if_else_if if_else_if_root)
  /\ exists fa log,
       sample_analyzeFile (Some (sample_newESLint (AnalysisEngine.eslintConfig "node")))
                          sample_source "/p"
       = Ok (fa, log)
       /\ map code (FileAnalysis.issues fa) = [Some "no-undef"; Some "EMPTY_BLOCK"].
Proof.
  split; [reflexivity|]. split; [reflexivity|].
  destruct (C4_issue_order
              sample_path_relative sample_parse
              sample_syntaxDetector sample_logicDetector PerformanceDetector.detect
              (SecurityDetector.detect (fun _ => false)) calculate
              (Some (sample_newESLint (AnalysisEngine.eslintConfig "node")))
              sample_source "/p" "if (a) {} else if (b) {}"
              (mkParsed if_else_if if_else_if_root) eq_refl eq_refl)
    as (fa & log & Hrun & Hissues).
  exists fa, log. split; [exact Hrun|]. now rewrite Hissues.
Defined.

Lemma C5_parse_failure_witness :
  sf_read sample_broken_source = Ok ""
  /\ sample_parse "" = Throw (mkError "Unexpected token (1:0)" (Some (1, 0)%Z))
  /\ exists issue,
       sample_analyzeFile None sample_broken_source "/p"
       = Ok (FileAnalysis.mk "src/b.js" [issue] (mkMetrics 1 None None None None), [])
       /\ code issue = Some "PARSE_ERROR"
       /\ (line issue, column issue) = (1, 0)%Z.
Proof.
  split; [reflexivity|]. split; [reflexivity|].
  destruct (C5_parse_failure
              sample_path_relative sample_parse
              sample_syntaxDetector sample_logicDetector PerformanceDetector.detect
              (SecurityDetector.detect (fun _ => false)) calculate
              None sample_broken_source "/p" ""
              (mkError "Unexpected token (1:0)" (Some (1, 0)%Z)) eq_refl eq_refl)
    as (issue & Hrun & Hcode & _ & _ & _ & Hpos).
  exists issue. repeat split; assumption.
Defined.

Lemma C7_lines_of_code_witness :
  sf_read sample_source = Ok "if (a) {} else if (b) {}"
  /\ exists fa log,
       sample_analyzeFile None sample_source "/p" = Ok (fa, log)
       /\ linesOfCode (FileAnalysis.metrics fa) = 1.
Proof.
  split; [reflexivity|].
  destruct (C7_lines_of_code
              sample_path_relative sample_parse
              sample_syntaxDetector sample_logicDetector PerformanceDetector.detect
              (SecurityDetector.detect (fun _ => false)) calculate
              None sample_source "/p" "if (a) {} else if (b) {}" eq_refl)
    as (fa & log & Hrun & _ & Hloc).
  exists fa, log. split; [exact Hrun | exact Hloc].
Defined.

Lemma C6_progress_callback_witness :
  (1 <= List.length
          (fst (AnalysisEngine.getJavaScriptFiles
                  sample_path_join
                  (snd (fst (AnalysisEngine.detectFrameworkAndSource
                               sample_path_join (sample_project 3)))))))%nat
  /\ exists run,
       sample_analyzeCodebase (Some failing_progress) (sample_project 3) sample_clock []
       = Ok run
       /\ AnalysisEngine.run_world run = [33; 67; 100]%Z.
Proof.
  split; [vm_compute; lia|].
  destruct (C6_progress_callback
              sample_path_join sample_path_relative sample_parse sample_newESLint
              sample_syntaxDetector sample_logicDetector PerformanceDetector.detect
              (SecurityDetector.detect (fun _ => false)) calculate sample_ln sample_log2
              (list Z) failing_progress (sample_project 3) sample_clock [])
    as (run & Hrun & Hworld & _); [vm_compute; lia|].
  exists run. split; [exact Hrun|]. rewrite Hworld. reflexivity.
Defined.

(** C6, as stated, fails: in a run over 40 files the value passed after
    the 23rd file is 57, while [round(100 * 23 / 40) = round(57.5)] is 58.
    In binary64, [23 / 40] is just below 0.575 and its product with 100 is
    57.49999999999999. *)
Lemma C6_progress_callback_counterexample :
  exists run,
    sample_analyzeCodebase (Some record_progress) (sample_project 40) sample_clock []
    = Ok run
    /\ AnalysisResult.totalFiles (AnalysisEngine.run_result run) = 40
    /\ nth 22 (AnalysisEngine.run_world run) 0%Z = 57%Z
    /\ claimed_progress 23 40 = 58%Z
    /\ claimed_progress_binary64 23 40 = 58%Z.
Proof.
  destruct (analyzeCodebase_run
              sample_path_join sample_path_relative sample_parse sample_newESLint
              sample_syntaxDetector sample_logicDetector PerformanceDetector.detect
              (SecurityDetector.detect (fun _ => false)) calculate sample_ln sample_log2
              (list Z) (Some record_progress) (sample_project 40) sample_clock [])
    as (fas & log & _ & Hrun).
  eexists. split; [exact Hrun|].
  cbn [AnalysisEngine.run_result AnalysisEngine.run_world AnalysisResult.totalFiles].
  repeat split; vm_compute; reflexivity.
Qed.

(* ################################################################# *)
(** * Further properties of the analysed code *)

(* ================================================================= *)
(** ** Performance detector: what a traversal adds up to *)

Lemma fold_left_orb {A : Type} (f : A -> bool) (l : list A) (b : bool) :
  fold_left (fun b a => b || f a) l b = b || existsb f l.
Proof.
  revert b; induction l as [|a l IH]; intros b; simpl; [now rewrite orb_false_r|].
  now rewrite IH, orb_assoc.
Qed.

Lemma flag_traversal (v : Visitor bool) (q : node -> bool) (p : NodePath) :
  (forall x b, visit v x b = Ok (b || q (path_node x))) ->
  path_traverse p v false = Ok (contains q (path_node p)).
Proof.
  intros Hv. unfold path_traverse, contains.
  rewrite (foldM_pure _ (fun x b => b || q (path_node x))) by exact Hv.
  rewrite (fold_left_orb (fun x => q (path_node x))).
  cbn [orb]. f_equal.
  induction (descend (path_node p)) as [|a l IH]; simpl; [reflexivity|].
  now rewrite IH.
Qed.

Lemma visit_push_visitor (x : NodePath) (b : bool) :
  visit PerformanceDetector.push_visitor x b = Ok (b || is_push_call (path_node x)).
Proof.
  destruct x as [[t pr cs] par].
  unfold PerformanceDetector.push_visitor, is_push_call, is_member_call, called_method, isType.
  cbn [path_node node_type].
  dispatch t.
  - cbn [String.eqb Ascii.eqb Bool.eqb andb path_node].
    destruct (_ && _), b; reflexivity.
  - rewrite (eqb_lit Hne). cbn [andb]. now rewrite orb_false_r.
Qed.

Lemma visit_sync_visitor (x : NodePath) (b : bool) :
  visit PerformanceDetector.sync_visitor x b = Ok (b || is_fs_sync_call (path_node x)).
Proof.
  destruct x as [[t pr cs] par].
  unfold PerformanceDetector.sync_visitor, is_fs_sync_call, isType.
  cbn [path_node node_type].
  dispatch t.
  - cbn [String.eqb Ascii.eqb Bool.eqb andb path_node].
    destruct (field "callee" _) as [callee|]; [|now rewrite orb_false_r].
    destruct (_ && _), b; reflexivity.
  - rewrite (eqb_lit Hne). cbn [andb]. now rewrite orb_false_r.
Qed.

Lemma when_false {A : Type} (x : A) : when false x = [].
Proof. reflexivity. Qed.

(** What the detector pushes when it visits a node. *)
Lemma visit_performance_at (fp : string) (p : NodePath) (issues : list CodeIssue) :
  visit (PerformanceDetector.visitor fp) p issues
  = Ok (issues ++ performance_issues_at fp p).
Proof.
  unfold PerformanceDetector.visitor, performance_issues_at.
  rewrite !visit_cons, visit_nil.
  unfold concat_in_for, forEach_with_push, iteration_under_call, sync_in_async,
    large_function, is_member_call, isType.
  destruct (String.eqb_spec "ForStatement" (node_type (path_node p))) as [Hf|Hf].
  { rewrite ForStatement_emits. rewrite <- Hf.
    cbn [String.eqb Ascii.eqb Bool.eqb andb when]. rewrite !app_nil_r.
    unfold when, contains. now destruct (2 <=? _)%nat, (existsb _ _). }
  rewrite (eqb_lit Hf). cbn [andb when app].
  destruct (String.eqb_spec "CallExpression" (node_type (path_node p))) as [Hc|Hc].
  { rewrite <- Hc. cbn [String.eqb Ascii.eqb Bool.eqb andb when app].
    rewrite !app_nil_r.
    unfold PerformanceDetector.CallExpression, called_method, isType.
    destruct (field "callee" (path_node p)) as [callee|]; cbn [isTypeO andb when app];
      [|now rewrite app_nil_r].
    unfold isType.
    destruct (String.eqb (node_type callee) "MemberExpression"); cbn [negb andb when app];
      [|now rewrite app_nil_r].
    rewrite (flag_traversal _ is_push_call p visit_push_visitor).
    unfold at_node, performance_issue, push, when.
    destruct (String.eqb _ "forEach"), (contains is_push_call (path_node p));
      cbn [bind andb];
      (destruct (arr_includes _ _); cbn [andb];
       [destruct (path_parent p) as [parent|];
        [destruct (String.eqb (node_type parent) "CallExpression" && _)|]|]);
      cbn [app]; now rewrite <- ?app_assoc, ?app_nil_r. }
  rewrite (eqb_lit Hc). cbn [andb when app].
  destruct (String.eqb_spec "FunctionDeclaration" (node_type (path_node p))) as [Hd|Hd].
  { rewrite <- Hd. cbn [String.eqb Ascii.eqb Bool.eqb andb].
    unfold PerformanceDetector.FunctionDeclaration, line_span.
    destruct (loc (path_node p)) as [l|] eqn:Hloc;
      [|rewrite !andb_false_r; now rewrite app_nil_r].
    rewrite (flag_traversal _ is_fs_sync_call p visit_sync_visitor).
    unfold at_node, performance_issue, push, when. rewrite Hloc. cbn [start_line start_column].
    destruct (async (path_node p)), (contains is_fs_sync_call (path_node p));
      cbn [bind andb]; destruct (50 <? _)%Z; cbn [app];
      now rewrite <- ?app_assoc, ?app_nil_r. }
  rewrite (eqb_lit Hd). cbn [andb when app]. now rewrite app_nil_r.
Qed.

Lemma foldM_flat_map {A I : Type} (f : A -> list I -> Result (list I)) (g : A -> list I) :
  (forall a s, f a s = Ok (s ++ g a)) ->
  forall l s, foldM f l s = Ok (s ++ flat_map g l).
Proof.
  intros Hf l; induction l as [|a l IH]; intros s; simpl.
  - now rewrite app_nil_r.
  - rewrite Hf. simpl. rewrite IH. now rewrite <- app_assoc.
Qed.

(** On a parsed tree the detector returns, and what it returns is the
    issues of each node, node after node in traversal order. *)
Lemma performance_detect_nodes (ast : node) (src fp : string) :
  isProgramOrFile ast = true ->
  PerformanceDetector.detect ast src fp
  = Ok (flat_map (performance_issues_at fp) (root_paths ast)).
Proof.
  intros Hroot. unfold PerformanceDetector.detect, traverse. rewrite Hroot.
  now rewrite (foldM_flat_map _ (performance_issues_at fp) (visit_performance_at fp)).
Qed.

Lemma filter_flat_map {A B : Type} (q : B -> bool) (g : A -> list B) (l : list A) :
  filter q (flat_map g l) = flat_map (fun a => filter q (g a)) l.
Proof.
  induction l as [|a l IH]; simpl; [reflexivity|]. now rewrite filter_app, IH.
Qed.

Lemma flat_map_when {A B : Type} (c : A -> bool) (h : A -> B) (l : list A) :
  flat_map (fun a => when (c a) (h a)) l = map h (filter c l).
Proof. apply (flat_map_filter_map c h). Qed.

(** The issues of a given code among those of a parsed tree. *)
Lemma performance_detect_code (cd : string) (c : NodePath -> bool)
      (h : NodePath -> CodeIssue) (ast : node) (src fp : string) :
  (forall p, filter (has_code cd) (performance_issues_at fp p) = when (c p) (h p)) ->
  isProgramOrFile ast = true ->
  exists issues,
    PerformanceDetector.detect ast src fp = Ok issues
    /\ filter (has_code cd) issues = map h (filter c (root_paths ast)).
Proof.
  intros Hat Hroot. rewrite (performance_detect_nodes ast src fp Hroot).
  eexists; split; [reflexivity|].
  rewrite filter_flat_map, <- flat_map_when.
  induction (root_paths ast) as [|p l IH]; simpl; [reflexivity|].
  now rewrite Hat, IH.
Qed.

Ltac by_trigger :=
  intros p; unfold performance_issues_at, when;
  destruct (isType "ForStatement" (path_node p) && _), (concat_in_for p),
    (forEach_with_push p), (iteration_under_call p), (sync_in_async p),
    (large_function p); reflexivity.

(** X1. On a parsed tree the performance detector never throws, and each
    issue it returns has type [performance], the file path it was given
    and one of its six codes. *)
Theorem X1_performance_detector_returns (ast : node) (src fp : string) :
  isProgramOrFile ast = true ->
  exists issues,
    PerformanceDetector.detect ast src fp = Ok issues
    /\ Forall (fun i =>
                 type i = "performance" /\ filePath i = fp
                 /\ exists cd, code i = Some cd
                               /\ In cd ["NESTED_LOOPS"; "STRING_CONCAT_LOOP";
                                         "INEFFICIENT_ARRAY_METHOD"; "MULTIPLE_ITERATIONS";
                                         "SYNC_IN_ASYNC"; "LARGE_FUNCTION"])
              issues.
Proof.
  intros Hroot. rewrite (performance_detect_nodes ast src fp Hroot).
  eexists; split; [reflexivity|].
  induction (root_paths ast) as [|p l IH]; simpl; [constructor|].
  apply Forall_app; split; [|exact IH].
  unfold performance_issues_at, when.
  destruct (isType "ForStatement" (path_node p) && _), (concat_in_for p),
    (forEach_with_push p), (iteration_under_call p), (sync_in_async p),
    (large_function p);
    repeat (first [apply Forall_nil | apply Forall_cons]);
    (split; [reflexivity|split; [reflexivity|eexists; split; [reflexivity|cbn; tauto]]]).
Qed.

Lemma X1_performance_detector_returns_witness :
  isProgramOrFile performance_sample = true
  /\ exists issues,
       PerformanceDetector.detect performance_sample "" "a.js" = Ok issues
       /\ map code issues
          = [ Some "STRING_CONCAT_LOOP"; Some "INEFFICIENT_ARRAY_METHOD";
              Some "MULTIPLE_ITERATIONS"; Some "SYNC_IN_ASYNC"; Some "LARGE_FUNCTION" ].
Proof.
  split; [reflexivity|].
  destruct (X1_performance_detector_returns performance_sample "" "a.js" eq_refl)
    as (issues & Hrun & _).
  exists issues. split; [exact Hrun|].
  assert (Ok issues = PerformanceDetector.detect performance_sample "" "a.js") as E
      by now rewrite Hrun.
  vm_compute in E. now injection E as ->.
Defined.

(** X2. On a parsed tree the detector reports [STRING_CONCAT_LOOP] once for
    each [for] statement that has a binary [+] expression anywhere inside
    it, whatever the operands are, and for nothing else. *)
Theorem X2_string_concat_in_loop (ast : node) (src fp : string) :
  isProgramOrFile ast = true ->
  exists issues,
    PerformanceDetector.detect ast src fp = Ok issues
    /\ filter (has_code "STRING_CONCAT_LOOP") issues
       = map (fun p => PerformanceDetector.string_concat_issue (path_node p) fp)
             (filter (fun p => isType "ForStatement" (path_node p)
                               && contains is_plus (path_node p))
                     (root_paths ast)).
Proof.
  apply (performance_detect_code "STRING_CONCAT_LOOP" concat_in_for
           (fun p => PerformanceDetector.string_concat_issue (path_node p) fp)).
  by_trigger.
Qed.

Lemma X2_string_concat_in_loop_witness :
  isProgramOrFile performance_sample = true
  /\ exists issues,
       PerformanceDetector.detect performance_sample "" "a.js" = Ok issues
       /\ List.length (filter (has_code "STRING_CONCAT_LOOP") issues) = 1.
Proof.
  split; [reflexivity|].
  destruct (X2_string_concat_in_loop performance_sample "" "a.js" eq_refl)
    as (issues & Hrun & Hcode).
  exists issues. split; [exact Hrun|]. now rewrite Hcode.
Defined.

(** X3. On a parsed tree the detector reports [LARGE_FUNCTION] once for
    each function declaration that carries a location and whose last line
    is more than 50 lines after its first (a span of exactly 50 is not
    reported), with the span in the message; function expressions and
    arrow functions are never reported. *)
Theorem X3_large_function (ast : node) (src fp : string) :
  isProgramOrFile ast = true ->
  exists issues,
    PerformanceDetector.detect ast src fp = Ok issues
    /\ filter (has_code "LARGE_FUNCTION") issues
       = map (fun p =>
                at_node info
                  ("Large function ("
                     ++ show_Z (match line_span (path_node p) with
                                | Some lines => lines
                                | None => 0%Z
                                end)
                     ++ " lines) — consider refactoring")
                  "LARGE_FUNCTION" fp p)
             (filter (fun p =>
                        isType "FunctionDeclaration" (path_node p)
                        && match line_span (path_node p) with
                           | Some lines => (50 <? lines)%Z
                           | None => false
                           end)
                     (root_paths ast)).
Proof.
  apply (performance_detect_code "LARGE_FUNCTION" large_function).
  by_trigger.
Qed.

Lemma X3_large_function_witness :
  isProgramOrFile performance_sample = true
  /\ exists issues,
       PerformanceDetector.detect performance_sample "" "a.js" = Ok issues
       /\ map (fun i => (message i, line i)) (filter (has_code "LARGE_FUNCTION") issues)
          = [ ("Large function (51 lines) — consider refactoring", 20%Z) ].
Proof.
  split; [reflexivity|].
  destruct (X3_large_function performance_sample "" "a.js" eq_refl)
    as (issues & Hrun & Hcode).
  exists issues. split; [exact Hrun|]. now rewrite Hcode.
Defined.

(** X4. On a parsed tree the detector reports [MULTIPLE_ITERATIONS] once
    for each call [x.map(...)], [x.filter(...)] or [x.reduce(...)] whose
    parent node is a call on a member expression, as in
    [console.log(a.map(g))], and for nothing else. The receiver of a
    chained call has a member expression for parent, so a chain such as
    [a.map(f).filter(g)] gets no report. *)
Theorem X4_multiple_iterations (ast : node) (src fp : string) :
  isProgramOrFile ast = true ->
  (exists issues,
     PerformanceDetector.detect ast src fp = Ok issues
     /\ filter (has_code "MULTIPLE_ITERATIONS") issues
        = map (at_node info
                 "Multiple array iterations detected — consider combining operations"
                 "MULTIPLE_ITERATIONS" fp)
              (filter iteration_under_call (root_paths ast)))
  /\ (forall p parent,
        path_parent p = Some parent -> isType "MemberExpression" parent = true ->
        iteration_under_call p = false)
  /\ PerformanceDetector.detect chained_iterations src fp = Ok [].
Proof.
  intros Hroot. split; [|split; [|reflexivity]].
  - revert Hroot.
    apply (performance_detect_code "MULTIPLE_ITERATIONS" iteration_under_call).
    by_trigger.
  - intros p parent Hp Hm. unfold iteration_under_call, is_member_call at 2.
    rewrite Hp. unfold isType in *. apply String.eqb_eq in Hm. rewrite Hm.
    cbn [String.eqb Ascii.eqb Bool.eqb andb]. now rewrite andb_false_r.
Qed.

Lemma X4_multiple_iterations_witness :
  isProgramOrFile performance_sample = true
  /\ exists issues,
       PerformanceDetector.detect performance_sample "" "a.js" = Ok issues
       /\ List.length (filter (has_code "MULTIPLE_ITERATIONS") issues) = 1.
Proof.
  split; [reflexivity|].
  destruct (X4_multiple_iterations performance_sample "" "a.js" eq_refl)
    as ((issues & Hrun & Hcode) & _).
  exists issues. split; [exact Hrun|]. now rewrite Hcode.
Defined.

(** X5. On a parsed tree the detector reports [INEFFICIENT_ARRAY_METHOD]
    once for each call [x.forEach(...)] that has a call [y.push(...)]
    anywhere inside it, and for nothing else. *)
Theorem X5_forEach_with_push (ast : node) (src fp : string) :
  isProgramOrFile ast = true ->
  exists issues,
    PerformanceDetector.detect ast src fp = Ok issues
    /\ filter (has_code "INEFFICIENT_ARRAY_METHOD") issues
       = map (at_node info "Use .map() instead of .forEach() with .push()"
                      "INEFFICIENT_ARRAY_METHOD" fp)
             (filter (fun p => is_member_call (path_node p)
                               && String.eqb (called_method (path_node p)) "forEach"
                               && contains is_push_call (path_node p))
                     (root_paths ast)).
Proof.
  apply (performance_detect_code "INEFFICIENT_ARRAY_METHOD" forEach_with_push).
  by_trigger.
Qed.

Lemma X5_forEach_with_push_witness :
  isProgramOrFile performance_sample = true
  /\ exists issues,
       PerformanceDetector.detect performance_sample "" "a.js" = Ok issues
       /\ List.length (filter (has_code "INEFFICIENT_ARRAY_METHOD") issues) = 1.
Proof.
  split; [reflexivity|].
  destruct (X5_forEach_with_push performance_sample "" "a.js" eq_refl)
    as (issues & Hrun & Hcode).
  exists issues. split; [exact Hrun|]. now rewrite Hcode.
Defined.

(** X6. On a parsed tree the detector reports [SYNC_IN_ASYNC] once for
    each [async] function declaration that carries a location and has a
    call [fs.xxxSync(...)] anywhere inside it, and for nothing else. *)
Theorem X6_sync_in_async (ast : node) (src fp : string) :
  isProgramOrFile ast = true ->
  exists issues,
    PerformanceDetector.detect ast src fp = Ok issues
    /\ filter (has_code "SYNC_IN_ASYNC") issues
       = map (at_node warning
                      "Synchronous operation in async function blocks the event loop"
                      "SYNC_IN_ASYNC" fp)
             (filter (fun p =>
                        isType "FunctionDeclaration" (path_node p)
                        && async (path_node p)
                        && match loc (path_node p) with Some _ => true | None => false end
                        && contains is_fs_sync_call (path_node p))
                     (root_paths ast)).
Proof.
  apply (performance_detect_code "SYNC_IN_ASYNC" sync_in_async).
  by_trigger.
Qed.

Lemma X6_sync_in_async_witness :
  isProgramOrFile performance_sample = true
  /\ exists issues,
       PerformanceDetector.detect performance_sample "" "a.js" = Ok issues
       /\ map line (filter (has_code "SYNC_IN_ASYNC") issues) = [10%Z].
Proof.
  split; [reflexivity|].
  destruct (X6_sync_in_async performance_sample "" "a.js" eq_refl)
    as (issues & Hrun & Hcode).
  exists issues. split; [exact Hrun|]. now rewrite Hcode.
Defined.

(* ================================================================= *)
(** ** Security detector: when it returns and what it returns *)

Lemma visit_containsUserInput (x : NodePath) (b : bool) :
  visit SecurityDetector.containsUserInput_visitor x b
  = Ok (b || names_user_input (path_node x)).
Proof.
  destruct x as [[t pr cs] par].
  unfold SecurityDetector.containsUserInput_visitor, names_user_input, isType.
  cbn [path_node node_type].
  dispatch t.
  - cbn [String.eqb Ascii.eqb Bool.eqb andb orb]. cbv zeta.
    rewrite orb_false_r.
    destruct (isTypeO "Identifier" _), (arr_includes _ _), (isIdentifierNamed "req" _), b;
      reflexivity.
  - cbn [String.eqb Ascii.eqb Bool.eqb andb orb].
    destruct (arr_includes _ _), b; reflexivity.
  - rewrite (eqb_lit Hne), (eqb_lit Hne0). cbn [andb orb]. now rewrite orb_false_r.
Qed.

Lemma containsUserInput_contains (p : NodePath) :
  SecurityDetector.containsUserInput p = Ok (contains names_user_input (path_node p)).
Proof. apply flag_traversal, visit_containsUserInput. Qed.

Lemma nodeContainsUserInput_throws (arg : node) (rest : list node) :
  isProgramOrFile arg = false ->
  someM SecurityDetector.nodeContainsUserInput (arg :: rest)
  = Throw (noScopeError (node_type arg)).
Proof.
  intros Harg. cbn [someM]. unfold SecurityDetector.nodeContainsUserInput, traverse.
  now rewrite Harg.
Qed.

Lemma field_in_descend (key : string) (n c : node) :
  field key n = Some c -> In c (map path_node (descend n)).
Proof.
  unfold field. destruct (find _ (children n)) as [[k c']|] eqn:Hfind; [|discriminate].
  intros [= <-]. apply find_some in Hfind. destruct Hfind as [Hin _].
  rewrite descend_unfold.
  apply in_map_iff. exists (mkPath c' (Some n)). split; [reflexivity|].
  apply in_flat_map. exists (k, c'). split; [exact Hin|]. now left.
Qed.

Lemma contains_field (q : node -> bool) (key : string) (n c : node) :
  field key n = Some c -> q c = true -> contains q n = true.
Proof.
  intros Hf Hq. unfold contains. apply existsb_exists.
  exists c. split; [now apply field_in_descend with key | exact Hq].
Qed.

(** A call to [query] is a query call with user input inside: its own
    callee. *)
Lemma query_call_flagged (n callee : node) :
  isType "CallExpression" n = true ->
  field "callee" n = Some callee ->
  is_query_callee callee = true ->
  sql_flagged n = true.
Proof.
  intros Hcall Hcallee Hquery. unfold sql_flagged. rewrite Hcall. cbn [andb].
  apply andb_true_iff. split.
  - unfold SecurityDetector.isSQLQuery. rewrite Hcallee.
    unfold is_query_callee in Hquery.
    destruct (isType "Identifier" callee) eqn:Hid; cbn [andb orb] in Hquery.
    + destruct (String.eqb_spec (toLowerCase (name_or_empty (Some callee))) "query")
        as [E|E]; [now rewrite E|].
      cbn [orb] in Hquery. apply andb_true_iff in Hquery. destruct Hquery as [Hm _].
      apply andb_true_iff in Hm. destruct Hm as [Hm _].
      unfold isType in Hid, Hm. apply String.eqb_eq in Hid, Hm. congruence.
    + destruct (isType "MemberExpression" callee && _); cbn [andb] in Hquery;
        [|discriminate].
      apply String.eqb_eq in Hquery. now rewrite Hquery.
  - apply (contains_field _ "callee" _ _ Hcallee).
    unfold names_user_input. unfold is_query_callee in Hquery.
    apply orb_true_iff in Hquery. apply orb_true_iff.
    destruct Hquery as [Hq|Hq]; [right|left].
    + apply andb_true_iff in Hq. destruct Hq as [-> Hq].
      apply String.eqb_eq in Hq. now rewrite Hq.
    + apply andb_true_iff in Hq. destruct Hq as [-> Hq].
      apply String.eqb_eq in Hq. now rewrite Hq.
Qed.

Lemma lower_char_idempotent (c : ascii) : lower_char (lower_char c) = lower_char c.
Proof. destruct c as [[] [] [] [] [] [] [] []]; reflexivity. Qed.

Lemma toLowerCase_idempotent (s : string) : toLowerCase (toLowerCase s) = toLowerCase s.
Proof.
  induction s as [|c s IH]; cbn [toLowerCase]; [reflexivity|].
  now rewrite lower_char_idempotent, IH.
Qed.

(** A lower-cased name is never equal to a literal with a capital letter. *)
Lemma toLowerCase_mixed (s lit : string) :
  toLowerCase lit <> lit -> String.eqb (toLowerCase s) lit = false.
Proof.
  intros Hlit. apply String.eqb_neq. intros E. apply Hlit.
  rewrite <- E. apply toLowerCase_idempotent.
Qed.

(** X12. For a call whose callee is a plain identifier, the command
    execution test holds exactly for the names that are [exec] or [spawn]
    in lower case: the lower-cased name is compared with the literals
    [execSync] and [spawnSync], which a lower-cased name never equals, so
    [execSync(...)] and [spawnSync(...)] are not taken for command
    executions. *)
Theorem X12_command_execution_names (n callee : node) :
  field "callee" n = Some callee ->
  isType "Identifier" callee = true ->
  SecurityDetector.isCommandExecution n
  = (String.eqb (toLowerCase (name_or_empty (Some callee))) "exec"
     || String.eqb (toLowerCase (name_or_empty (Some callee))) "spawn").
Proof.
  intros Hcallee Hid. unfold SecurityDetector.isCommandExecution.
  rewrite Hcallee, Hid. unfold arr_includes. cbn [existsb].
  rewrite (toLowerCase_mixed _ "execSync"), (toLowerCase_mixed _ "spawnSync")
    by (vm_compute; discriminate).
  now rewrite !orb_false_r.
Qed.

Lemma X12_command_execution_names_witness :
  SecurityDetector.isCommandExecution (call (Identifier "execSync") [Identifier "cmd"])
  = false
  /\ SecurityDetector.isCommandExecution
       (call (member (Identifier "child_process") "execSync") [Identifier "cmd"])
     = true.
Proof.
  split; [|reflexivity].
  rewrite (X12_command_execution_names
             (call (Identifier "execSync") [Identifier "cmd"]) (Identifier "execSync")
             eq_refl eq_refl).
  reflexivity.
Defined.

Section SecurityProperties.
Variable hasReDoSVulnerability : string -> bool.
Variable fp : string.

Local Abbreviation issues_at := (security_issues_at hasReDoSVulnerability fp).
Local Abbreviation visitor := (SecurityDetector.visitor hasReDoSVulnerability fp).

Lemma visit_security_at (p : NodePath) (issues : list CodeIssue) :
  visit visitor p issues
  = if isType "CallExpression" (path_node p)
       && SecurityDetector.isCommandExecution (path_node p)
    then
      usesUserInput <- someM SecurityDetector.nodeContainsUserInput
                             (fields "arguments" (path_node p)) ;;
      Ok (issues ++ issues_at p
                 ++ when usesUserInput (command_injection_issue fp (path_node p)))
    else Ok (issues ++ issues_at p).
Proof.
  unfold SecurityDetector.visitor, security_issues_at.
  rewrite !visit_cons, visit_nil. cbv zeta.
  unfold is_eval_call, sql_flagged, redos_flagged, assigns_innerHTML, flagged_declarator,
    isType.
  destruct (String.eqb_spec "CallExpression" (node_type (path_node p))) as [Hc|Hc].
  { rewrite <- Hc. cbn [String.eqb Ascii.eqb Bool.eqb andb when app].
    unfold SecurityDetector.CallExpression.
    rewrite containsUserInput_contains.
    unfold command_injection_issue, security_at, push, when.
    destruct (isIdentifierNamed "eval" _), (SecurityDetector.isSQLQuery _);
      cbn [bind andb app];
      try destruct (contains names_user_input _); cbn [bind andb app];
      (destruct (SecurityDetector.isCommandExecution _);
       [destruct (someM _ _) as [[]|]|]); cbn [bind app];
      now rewrite <- ?app_assoc, ?app_nil_r. }
  rewrite (eqb_lit Hc). cbn [andb when app].
  destruct (String.eqb_spec "VariableDeclarator" (node_type (path_node p))) as [Hd|Hd].
  { assert (isType "VariableDeclarator" (path_node p) = true) as Hty
        by (unfold isType; rewrite <- Hd; reflexivity).
    rewrite (VariableDeclarator_emits _ _ _ Hty).
    unfold flagged_declarator, isType. rewrite <- Hd.
    cbn [String.eqb Ascii.eqb Bool.eqb andb when app]. unfold when.
    now rewrite !app_nil_r. }
  rewrite (eqb_lit Hd). cbn [andb when app].
  destruct (String.eqb_spec "NewExpression" (node_type (path_node p))) as [Hn|Hn].
  { rewrite <- Hn. cbn [String.eqb Ascii.eqb Bool.eqb andb when app].
    unfold SecurityDetector.NewExpression, security_at, push, when.
    destruct (isIdentifierNamed "RegExp" _); cbn [negb andb];
      [|now rewrite app_nil_r].
    destruct (fields "arguments" _) as [|a l]; [now rewrite app_nil_r|].
    unfold isType.
    destruct (String.eqb (node_type a) "StringLiteral"); cbn [andb];
      [|now rewrite app_nil_r].
    destruct (hasReDoSVulnerability _); now rewrite ?app_nil_r. }
  rewrite (eqb_lit Hn). cbn [andb when app].
  destruct (String.eqb_spec "AssignmentExpression" (node_type (path_node p))) as [Ha|Ha].
  { rewrite <- Ha. cbn [String.eqb Ascii.eqb Bool.eqb andb when app].
    unfold SecurityDetector.AssignmentExpression, security_at, push, when.
    destruct (field "left" _) as [lhs|]; [|now rewrite app_nil_r].
    unfold isType.
    destruct (_ && _); now rewrite ?app_nil_r. }
  rewrite (eqb_lit Ha). cbn [andb when app]. now rewrite app_nil_r.
Qed.

Lemma no_command_injection_at (p : NodePath) :
  filter (has_code "COMMAND_INJECTION") (issues_at p) = [].
Proof.
  unfold security_issues_at, when. cbv zeta.
  destruct (is_eval_call _), (sql_flagged _), (flagged_declarator _),
    (redos_flagged _ _), (assigns_innerHTML _); reflexivity.
Qed.

(** The traversal: it stops with the library's error at the first
    command-execution call that has an argument, and otherwise adds up the
    issues of the nodes. *)
Lemma security_traversal (l : list NodePath) :
  Forall (fun p => Forall (fun a => isProgramOrFile a = false)
                          (fields "arguments" (path_node p))) l ->
  forall s,
    (existsb (fun p => command_call_with_argument (path_node p)) l = true ->
     exists ty, foldM (visit visitor) l s = Throw (noScopeError ty))
    /\ (existsb (fun p => command_call_with_argument (path_node p)) l = false ->
        foldM (visit visitor) l s = Ok (s ++ flat_map issues_at l)).
Proof.
  induction 1 as [|p l Hp Hl IH]; intros s; cbn [existsb foldM flat_map].
  - split; [discriminate|]. now rewrite app_nil_r.
  - rewrite visit_security_at. unfold command_call_with_argument at 1 3.
    destruct (isType "CallExpression" (path_node p)
              && SecurityDetector.isCommandExecution (path_node p)); cbn [andb orb].
    + destruct (fields "arguments" (path_node p)) as [|arg rest]; cbn [orb].
      * cbn [someM bind when]. rewrite app_nil_r.
        destruct (IH (s ++ issues_at p)) as [IHt IHf]. split; [exact IHt|].
        intros Hex. rewrite (IHf Hex). now rewrite <- app_assoc.
      * inversion Hp as [|? ? Harg _]; subst.
        rewrite (nodeContainsUserInput_throws _ _ Harg). cbn [bind].
        split; [intros _; now eexists | discriminate].
    + destruct (IH (s ++ issues_at p)) as [IHt IHf]. split; [exact IHt|].
      intros Hex. cbn [bind]. rewrite (IHf Hex). now rewrite <- app_assoc.
Qed.

Lemma arguments_are_expressions_paths (ast : node) :
  arguments_are_expressions ast = true ->
  Forall (fun p => Forall (fun a => isProgramOrFile a = false)
                          (fields "arguments" (path_node p))) (root_paths ast).
Proof.
  unfold arguments_are_expressions. rewrite forallb_forall, Forall_forall.
  intros H p Hp. apply Forall_forall. intros a Ha.
  specialize (H p Hp). rewrite forallb_forall in H.
  now apply negb_true_iff, H.
Qed.

(** Whenever the detector returns, its issues of a code other than
    [COMMAND_INJECTION] are those of the nodes. *)
Lemma security_detect_code (cd : string) (c : node -> bool) (h : node -> CodeIssue)
      (ast : node) (src : string) (issues : list CodeIssue) :
  String.eqb "COMMAND_INJECTION" cd = false ->
  (forall p, filter (has_code cd) (issues_at p)
             = when (c (path_node p)) (h (path_node p))) ->
  SecurityDetector.detect hasReDoSVulnerability ast src fp = Ok issues ->
  filter (has_code cd) issues
  = map (fun p => h (path_node p)) (filter (fun p => c (path_node p)) (root_paths ast)).
Proof.
  intros Hcd Hat. unfold SecurityDetector.detect, traverse.
  destruct (isProgramOrFile ast); [|discriminate].
  intros Hrun.
  assert (forall p s,
             match visit visitor p s with
             | Ok r => exists e, r = s ++ e
                                 /\ filter (has_code cd) e
                                    = when (c (path_node p)) (h (path_node p))
             | Throw _ => True
             end) as Hvisit.
  { intros p s. rewrite visit_security_at.
    destruct (isType "CallExpression" _ && _).
    - destruct (someM _ _) as [b|]; cbn [bind]; [|exact I].
      eexists; split; [reflexivity|].
      rewrite filter_app, Hat.
      destruct b; cbn [when filter has_code code command_injection_issue security_at
                         SecurityDetector.security_issue];
        rewrite ?Hcd; now rewrite app_nil_r.
    - eexists; split; [reflexivity|]. apply Hat. }
  rewrite (foldM_appends_if_ok _ _ _ Hvisit _ _ Hrun). cbn [filter app].
  apply (flat_map_filter_map (fun p => c (path_node p)) (fun p => h (path_node p))).
Qed.

Ltac by_security_trigger :=
  intros p; unfold security_issues_at, when; cbv zeta;
  destruct (is_eval_call _), (sql_flagged _), (flagged_declarator _),
    (redos_flagged _ _), (assigns_innerHTML _); reflexivity.

(** X7. On a parsed tree, the security detector throws the traversal
    library's error as soon as the tree has a call it takes for a command
    execution ([exec], [spawn], [x.exec], [x.spawn], [x.execSync],
    [x.spawnSync], names compared in lower case) with at least one
    argument, because its helper starts a fresh traversal at the argument.
    Otherwise it returns the issues of the nodes in traversal order. So it
    never reports [COMMAND_INJECTION]. *)
Theorem X7_security_detector_outcome (ast : node) (src : string) :
  isProgramOrFile ast = true ->
  arguments_are_expressions ast = true ->
  (existsb (fun p => command_call_with_argument (path_node p)) (root_paths ast) = true ->
   exists ty,
     SecurityDetector.detect hasReDoSVulnerability ast src fp = Throw (noScopeError ty))
  /\ (existsb (fun p => command_call_with_argument (path_node p)) (root_paths ast) = false ->
      SecurityDetector.detect hasReDoSVulnerability ast src fp
      = Ok (flat_map issues_at (root_paths ast)))
  /\ (forall issues,
        SecurityDetector.detect hasReDoSVulnerability ast src fp = Ok issues ->
        filter (has_code "COMMAND_INJECTION") issues = []).
Proof.
  intros Hroot Hargs. unfold SecurityDetector.detect, traverse. rewrite Hroot.
  destruct (security_traversal _ (arguments_are_expressions_paths _ Hargs) [])
    as [Ht Hf].
  split; [exact Ht|]. split; [exact Hf|].
  intros issues Hrun.
  destruct (existsb _ (root_paths ast)).
  - destruct (Ht eq_refl) as [ty Hty]. rewrite Hty in Hrun. discriminate.
  - rewrite (Hf eq_refl) in Hrun. injection Hrun as <-. cbn [app].
    rewrite filter_flat_map. clear Ht Hf.
    induction (root_paths ast) as [|p l IH]; cbn [flat_map]; [reflexivity|].
    now rewrite no_command_injection_at, IH.
Qed.

(** X8. Whenever the security detector returns, it has reported
    [DANGEROUS_EVAL] exactly once for each call whose callee is the
    identifier [eval], and for nothing else ([window.eval(...)] and
    [new Function(...)] are not reported). *)
Theorem X8_dangerous_eval (ast : node) (src : string) (issues : list CodeIssue) :
  SecurityDetector.detect hasReDoSVulnerability ast src fp = Ok issues ->
  filter (has_code "DANGEROUS_EVAL") issues
  = map (fun p => security_at error "Use of eval() is dangerous and should be avoided"
                              "DANGEROUS_EVAL" fp (path_node p))
        (filter (fun p => isType "CallExpression" (path_node p)
                          && isIdentifierNamed "eval" (field "callee" (path_node p)))
                (root_paths ast)).
Proof.
  apply (security_detect_code "DANGEROUS_EVAL" is_eval_call); [reflexivity|].
  by_security_trigger.
Qed.

(** X9. Whenever the security detector returns, it has reported
    [SQL_INJECTION] exactly once for each call to [query], [execute] or
    [raw] (as a function or as a method, names compared in lower case)
    that has a node naming user input anywhere inside it, callee included.
    The callee of [query(...)] and of [x.query(...)] is itself such a
    node, so every call to [query] is reported, whatever its arguments. *)
Theorem X9_sql_injection (ast : node) (src : string) (issues : list CodeIssue) :
  SecurityDetector.detect hasReDoSVulnerability ast src fp = Ok issues ->
  filter (has_code "SQL_INJECTION") issues
  = map (fun p => security_at error "Potential SQL injection - use parameterized queries"
                              "SQL_INJECTION" fp (path_node p))
        (filter (fun p => isType "CallExpression" (path_node p)
                          && SecurityDetector.isSQLQuery (path_node p)
                          && contains names_user_input (path_node p))
                (root_paths ast))
  /\ (forall p callee,
         In p (root_paths ast) ->
         isType "CallExpression" (path_node p) = true ->
         field "callee" (path_node p) = Some callee ->
         is_query_callee callee = true ->
         In (security_at error "Potential SQL injection - use parameterized queries"
                         "SQL_INJECTION" fp (path_node p))
            issues).
Proof.
  intros Hrun.
  assert (filter (has_code "SQL_INJECTION") issues
          = map (fun p => security_at error
                            "Potential SQL injection - use parameterized queries"
                            "SQL_INJECTION" fp (path_node p))
                (filter (fun p => sql_flagged (path_node p)) (root_paths ast))) as Hsql.
  { revert Hrun. apply (security_detect_code "SQL_INJECTION" sql_flagged); [reflexivity|].
    by_security_trigger. }
  split; [exact Hsql|].
  intros p callee Hp Hcall Hcallee Hquery.
  assert (In (security_at error "Potential SQL injection - use parameterized queries"
                          "SQL_INJECTION" fp (path_node p))
             (filter (has_code "SQL_INJECTION") issues)) as Hin.
  { rewrite Hsql.
    apply (in_map (fun p => security_at _ _ _ fp (path_node p))).
    apply filter_In. split; [exact Hp|].
    now apply query_call_flagged with callee. }
  now apply filter_In in Hin.
Qed.

(** X10. Whenever the security detector returns, it has reported
    [XSS_RISK] exactly once for each assignment whose left side is a member
    expression with the identifier [innerHTML] for property, and for
    nothing else. *)
Theorem X10_innerHTML_assignment (ast : node) (src : string) (issues : list CodeIssue) :
  SecurityDetector.detect hasReDoSVulnerability ast src fp = Ok issues ->
  filter (has_code "XSS_RISK") issues
  = map (fun p => security_at warning
                    "innerHTML usage can lead to XSS - use textContent or sanitize"
                    "XSS_RISK" fp (path_node p))
        (filter (fun p => assigns_innerHTML (path_node p)) (root_paths ast)).
Proof.
  apply (security_detect_code "XSS_RISK" assigns_innerHTML); [reflexivity|].
  by_security_trigger.
Qed.

(** X11. Whenever the security detector returns, it has reported
    [REDOS_VULNERABILITY] exactly once for each [new RegExp(...)] whose
    first argument is a string literal that the pattern test rejects, and
    for nothing else: regular-expression literals and patterns that are
    not string literals are never tested. *)
Theorem X11_regexp_pattern (ast : node) (src : string) (issues : list CodeIssue) :
  SecurityDetector.detect hasReDoSVulnerability ast src fp = Ok issues ->
  filter (has_code "REDOS_VULNERABILITY") issues
  = map (fun p => security_at warning
                    "Regular expression may be vulnerable to ReDoS attacks"
                    "REDOS_VULNERABILITY" fp (path_node p))
        (filter (fun p => redos_flagged hasReDoSVulnerability (path_node p))
                (root_paths ast)).
Proof.
  apply (security_detect_code "REDOS_VULNERABILITY" (redos_flagged hasReDoSVulnerability));
    [reflexivity|].
  by_security_trigger.
Qed.

End SecurityProperties.

Lemma X7_security_detector_outcome_witness :
  isProgramOrFile regexp_exec_sample = true
  /\ arguments_are_expressions regexp_exec_sample = true
  /\ exists ty,
       SecurityDetector.detect sample_hasReDoSVulnerability regexp_exec_sample
                               "const m = re.exec(line);" "a.js"
       = Throw (noScopeError ty).
Proof.
  split; [reflexivity|]. split; [reflexivity|].
  exact (proj1 (X7_security_detector_outcome sample_hasReDoSVulnerability "a.js"
                  regexp_exec_sample "const m = re.exec(line);" eq_refl eq_refl)
               eq_refl).
Defined.

Lemma security_sample_returns :
  exists issues,
    SecurityDetector.detect sample_hasReDoSVulnerability security_sample "" "a.js"
    = Ok issues.
Proof. vm_compute. eexists. reflexivity. Defined.

Lemma X8_dangerous_eval_witness :
  exists issues,
    SecurityDetector.detect sample_hasReDoSVulnerability security_sample "" "a.js"
    = Ok issues
    /\ List.length (filter (has_code "DANGEROUS_EVAL") issues) = 1.
Proof.
  destruct security_sample_returns as [issues Hrun].
  exists issues. split; [exact Hrun|].
  now rewrite (X8_dangerous_eval _ _ _ _ _ Hrun).
Defined.

Lemma X9_sql_injection_witness :
  exists issues,
    SecurityDetector.detect sample_hasReDoSVulnerability security_sample "" "a.js"
    = Ok issues
    /\ List.length (filter (has_code "SQL_INJECTION") issues) = 1.
Proof.
  destruct security_sample_returns as [issues Hrun].
  exists issues. split; [exact Hrun|].
  now rewrite (proj1 (X9_sql_injection _ _ _ _ _ Hrun)).
Defined.

Lemma X10_innerHTML_assignment_witness :
  exists issues,
    SecurityDetector.detect sample_hasReDoSVulnerability security_sample "" "a.js"
    = Ok issues
    /\ List.length (filter (has_code "XSS_RISK") issues) = 1.
Proof.
  destruct security_sample_returns as [issues Hrun].
  exists issues. split; [exact Hrun|].
  now rewrite (X10_innerHTML_assignment _ _ _ _ _ Hrun).
Defined.

Lemma X11_regexp_pattern_witness :
  exists issues,
    SecurityDetector.detect sample_hasReDoSVulnerability security_sample "" "a.js"
    = Ok issues
    /\ List.length (filter (has_code "REDOS_VULNERABILITY") issues) = 1.
Proof.
  destruct security_sample_returns as [issues Hrun].
  exists issues. split; [exact Hrun|].
  now rewrite (X11_regexp_pattern _ _ _ _ _ Hrun).
Defined.

(* ================================================================= *)
(** ** Cognitive complexity *)

Lemma walk_unfold {S : Type} (enter exit : node -> S -> S) (n : node) (s : S) :
  walk enter exit n s
  = exit n (walk_all enter exit (map snd (children n)) (enter n s)).
Proof.
  destruct n as [t pr cs]. cbn [walk children]. f_equal.
  generalize (enter (Node t pr cs) s). unfold walk_all.
  induction cs as [|[k c] cs IH]; intros s0; cbn [map fold_left snd]; [reflexivity|].
  apply IH.
Qed.

Lemma cognitive_weight_unfold (depth : Z) (n : node) :
  cognitive_weight depth n
  = ((if isControlFlow n then 1 + depth else 0)
     + (if isLogicalOperator n then 1 else 0)
     + cognitive_weights (if isControlFlow n then depth + 1 else depth)
                         (map snd (children n)))%Z.
Proof.
  destruct n as [t pr cs]. cbn [cognitive_weight children].
  set (d := if isControlFlow (Node t pr cs) then (depth + 1)%Z else depth).
  clearbody d. f_equal. unfold cognitive_weights.
  induction cs as [|[k c] cs IH]; cbn [map fold_right snd]; [reflexivity|].
  now rewrite IH.
Qed.

Lemma walk_all_cons {S : Type} (enter exit : node -> S -> S) (c : node)
      (ns : list node) (s : S) :
  walk_all enter exit (c :: ns) s = walk_all enter exit ns (walk enter exit c s).
Proof. reflexivity. Qed.

Lemma cognitive_weights_cons (depth : Z) (c : node) (ns : list node) :
  cognitive_weights depth (c :: ns)
  = (cognitive_weight depth c + cognitive_weights depth ns)%Z.
Proof. reflexivity. Qed.

Lemma walk_all_cognitive (ns : list node) :
  (forall c s, In c ns ->
               walk cognitive_enter cognitive_exit c s
               = mkCognitive (cognitive s + cognitive_weight (nesting s) c) (nesting s)) ->
  forall s,
    walk_all cognitive_enter cognitive_exit ns s
    = mkCognitive (cognitive s + cognitive_weights (nesting s) ns) (nesting s).
Proof.
  induction ns as [|c ns IHns]; intros Hns s.
  - destruct s; cbn. f_equal. lia.
  - rewrite walk_all_cons, cognitive_weights_cons, (Hns c s) by now left.
    rewrite IHns by (intros; apply Hns; now right).
    cbn [cognitive nesting]. f_equal. lia.
Qed.

(** Walking a subtree adds its weight at the current nesting and leaves
    the nesting as it found it. *)
Lemma walk_cognitive :
  forall (n : node) (s : Cognitive),
    walk cognitive_enter cognitive_exit n s
    = mkCognitive (cognitive s + cognitive_weight (nesting s) n) (nesting s).
Proof.
  fix IH 1. intros [t pr cs] s.
  rewrite walk_unfold, cognitive_weight_unfold. cbn [children].
  set (n := Node t pr cs).
  assert (forall s0,
             walk_all cognitive_enter cognitive_exit (map snd cs) s0
             = mkCognitive (cognitive s0 + cognitive_weights (nesting s0) (map snd cs))
                           (nesting s0)) as Hcs.
  { clear n. induction cs as [|[k c] cs IHcs]; intros s0; cbn [map snd].
    - destruct s0; cbn. f_equal. lia.
    - rewrite walk_all_cons, cognitive_weights_cons, (IH c s0), IHcs.
      cbn [cognitive nesting]. f_equal. lia. }
  rewrite Hcs. unfold cognitive_enter, cognitive_exit.
  destruct (isControlFlow n), (isLogicalOperator n), s as [c d];
    cbn [cognitive nesting]; f_equal; lia.
Qed.

(** X13. On a parsed tree, [calculateCognitive] returns the sum over the
    nodes below the root of: for an [if], [for], [while] or [switch]
    statement, one plus the number of such statements around it; for an
    [&&] or [||] expression, one. An [else if] is the child of its [if], so
    it weighs as nested: [if (a) {} else if (b) {}] scores 1 + 2 = 3. *)
Theorem X13_cognitive_complexity (ast : node) :
  isProgramOrFile ast = true ->
  calculateCognitive ast = Ok (cognitive_weights 0 (map snd (children ast))).
Proof.
  intros Hroot. unfold calculateCognitive, traverse_enter_exit. rewrite Hroot.
  cbn [bind]. f_equal.
  rewrite walk_all_cognitive by (intros; apply walk_cognitive).
  reflexivity.
Qed.

Lemma X13_cognitive_complexity_witness :
  isProgramOrFile if_else_if = true /\ calculateCognitive if_else_if = Ok 3%Z.
Proof.
  split; [reflexivity|].
  now rewrite (X13_cognitive_complexity if_else_if eq_refl).
Defined.

(* ================================================================= *)
(** ** The engine's helpers *)

Lemma count_traversal (v : Visitor nat) (q : node -> bool) (ast : node) (c0 : nat) :
  (forall p c, visit v p c = Ok (if q (path_node p) then S c else c)) ->
  isProgramOrFile ast = true ->
  traverse ast v c0
  = Ok (c0 + List.length (filter (fun p => q (path_node p)) (root_paths ast))).
Proof.
  intros Hv Hroot. unfold traverse. rewrite Hroot.
  rewrite (foldM_pure _ (fun p c => if q (path_node p) then S c else c)) by exact Hv.
  now rewrite (fold_left_count (fun p => q (path_node p))).
Qed.

Ltac by_key :=
  try assumption;
  intros [[t pr cs] par] c; unfold counted_function, isType, incr;
  cbn [path_node node_type]; dispatch t;
  repeat match goal with
         | H : ?lit <> t |- _ => rewrite (eqb_lit H); clear H
         end; reflexivity.

(** X14. On a parsed tree, the [functions] metric counts the function
    declarations, function expressions and arrow functions below the root
    (class and object methods are not counted), the [classes] metric
    counts the class declarations, and the [imports] metric counts the
    import declarations. *)
Theorem X14_counts (ast : node) :
  isProgramOrFile ast = true ->
  AnalysisEngine.countFunctions ast
  = Ok (List.length (filter (fun p => counted_function (path_node p)) (root_paths ast)))
  /\ AnalysisEngine.countClasses ast
     = Ok (List.length (filter (fun p => isType "ClassDeclaration" (path_node p))
                               (root_paths ast)))
  /\ AnalysisEngine.countImports ast
     = Ok (List.length (filter (fun p => isType "ImportDeclaration" (path_node p))
                               (root_paths ast))).
Proof.
  intros Hroot. unfold AnalysisEngine.countFunctions, AnalysisEngine.countClasses,
    AnalysisEngine.countImports.
  split; [|split].
  - now rewrite (count_traversal _ counted_function ast 0) by by_key.
  - now rewrite (count_traversal _ (isType "ClassDeclaration") ast 0) by by_key.
  - now rewrite (count_traversal _ (isType "ImportDeclaration") ast 0) by by_key.
Qed.

Lemma X14_counts_witness :
  isProgramOrFile class_with_method = true
  /\ AnalysisEngine.countFunctions class_with_method = Ok 1
  /\ AnalysisEngine.countClasses class_with_method = Ok 1
  /\ AnalysisEngine.countImports class_with_method = Ok 1.
Proof.
  split; [reflexivity|].
  destruct (X14_counts class_with_method eq_refl) as (Hf & Hc & Hi).
  rewrite Hf, Hc, Hi. repeat split.
Defined.

Lemma bump_counts (issues : list CodeIssue) (b : IssueBreakdown) :
  fold_left AnalysisEngine.bump issues b
  = mkBreakdown (count_error b + List.length (filter (has_severity error) issues))
                (count_warning b + List.length (filter (has_severity warning) issues))
                (count_info b + List.length (filter (has_severity info) issues)).
Proof.
  revert b; induction issues as [|i issues IH]; intros [e w n]; cbn [fold_left filter].
  - cbn. f_equal; lia.
  - rewrite IH. unfold AnalysisEngine.bump, has_severity.
    destruct (severity i); cbn; f_equal; lia.
Qed.

Lemma addFile_totals (files : list FileAnalysis.t) (t0 : AnalysisEngine.Totals) :
  fold_left AnalysisEngine.addFile files t0
  = AnalysisEngine.mkTotals
      (AnalysisEngine.t_loc t0
       + list_sum (map (fun f => linesOfCode (FileAnalysis.metrics f)) files))
      (AnalysisEngine.t_cx t0
       + list_sum (map (fun f => AnalysisEngine.orZero (complexity (FileAnalysis.metrics f)))
                       files))
      (AnalysisEngine.t_fn t0
       + list_sum (map (fun f => AnalysisEngine.orZero (functions (FileAnalysis.metrics f)))
                       files))
      (AnalysisEngine.t_cl t0
       + list_sum (map (fun f => AnalysisEngine.orZero (classes (FileAnalysis.metrics f)))
                       files))
      (fold_left AnalysisEngine.bump (flat_map FileAnalysis.issues files)
                 (AnalysisEngine.t_issues t0)).
Proof.
  revert t0; induction files as [|f files IH]; intros [l c fn cl b].
  - cbn. f_equal; lia.
  - cbn [fold_left]. rewrite IH. unfold AnalysisEngine.addFile.
    cbn [AnalysisEngine.t_loc AnalysisEngine.t_cx AnalysisEngine.t_fn AnalysisEngine.t_cl
         AnalysisEngine.t_issues map list_sum flat_map].
    rewrite fold_left_app. f_equal; first [reflexivity | simpl list_sum; lia].
Qed.

Lemma severities_partition (issues : list CodeIssue) :
  List.length (filter (has_severity error) issues)
  + List.length (filter (has_severity warning) issues)
  + List.length (filter (has_severity info) issues)
  = List.length issues.
Proof.
  induction issues as [|i issues IH]; [reflexivity|].
  cbn [filter]. unfold has_severity in *.
  destruct (severity i); cbn [List.length]; lia.
Qed.

Section EngineHelpers.

Variable path_join : string -> string -> string.
Variable path_relative : string -> string -> string.
Variable parse : string -> Result ParsedFile.
Variable newESLint : ESLintConfig -> ESLint.
Variable syntaxDetector : Detector.
Variable logicDetector : Detector.
Variable performanceDetector : Detector.
Variable securityDetector : Detector.
Variable complexityCalculator : node -> Result nat.
Variable Math_log : number -> number.
Variable Math_log2 : number -> number.

Local Abbreviation analyzeCodebase :=
  (AnalysisEngine.analyzeCodebase path_join path_relative parse newESLint
     syntaxDetector logicDetector performanceDetector securityDetector
     complexityCalculator Math_log Math_log2).
Local Abbreviation detectFrameworkAndSource :=
  (AnalysisEngine.detectFrameworkAndSource path_join).
Local Abbreviation getJavaScriptFiles := (AnalysisEngine.getJavaScriptFiles path_join).
Local Abbreviation scanEntry := (AnalysisEngine.scanEntry path_join).
Local Abbreviation calculateMetrics := (AnalysisEngine.calculateMetrics Math_log Math_log2).

(** X15. The totals of [calculateMetrics] are the sums over the file
    results: lines of code, functions and classes (a missing metric counts
    as 0), and the issue breakdown counts the issues of all files by
    severity, so its three counters add up to the number of issues. *)
Theorem X15_metrics_totals (files : list FileAnalysis.t) :
  totalLinesOfCode (calculateMetrics files)
  = list_sum (map (fun f => linesOfCode (FileAnalysis.metrics f)) files)
  /\ totalFunctions (calculateMetrics files)
     = list_sum (map (fun f => AnalysisEngine.orZero (functions (FileAnalysis.metrics f)))
                     files)
  /\ totalClasses (calculateMetrics files)
     = list_sum (map (fun f => AnalysisEngine.orZero (classes (FileAnalysis.metrics f)))
                     files)
  /\ issueBreakdown (calculateMetrics files)
     = mkBreakdown
         (List.length (filter (has_severity error) (flat_map FileAnalysis.issues files)))
         (List.length (filter (has_severity warning) (flat_map FileAnalysis.issues files)))
         (List.length (filter (has_severity info) (flat_map FileAnalysis.issues files)))
  /\ count_error (issueBreakdown (calculateMetrics files))
     + count_warning (issueBreakdown (calculateMetrics files))
     + count_info (issueBreakdown (calculateMetrics files))
     = List.length (flat_map FileAnalysis.issues files).
Proof.
  unfold AnalysisEngine.calculateMetrics.
  cbn [totalLinesOfCode totalFunctions totalClasses issueBreakdown].
  rewrite addFile_totals, bump_counts.
  cbn [AnalysisEngine.t_loc AnalysisEngine.t_fn AnalysisEngine.t_cl AnalysisEngine.t_issues
       count_error count_warning count_info Nat.add].
  repeat split. apply severities_partition.
Qed.

(** X16. In the result of every run, the issue list is the concatenation
    of the issue lists of the file results, in file order, and the three
    counters of [metrics.issueBreakdown] add up to its length. *)
Theorem X16_run_issue_counts (W : Type) (progressCallback : option (ProgressCallback W))
        (projectPath : AnalysisEngine.Dir) (clock : Clock) (w : W) :
  exists run,
    analyzeCodebase progressCallback projectPath clock w = Ok run
    /\ AnalysisResult.issues (AnalysisEngine.run_result run)
       = flat_map FileAnalysis.issues
                  (AnalysisResult.fileAnalyses (AnalysisEngine.run_result run))
    /\ count_error (issueBreakdown (AnalysisResult.metrics (AnalysisEngine.run_result run)))
       + count_warning
           (issueBreakdown (AnalysisResult.metrics (AnalysisEngine.run_result run)))
       + count_info (issueBreakdown (AnalysisResult.metrics (AnalysisEngine.run_result run)))
       = List.length (AnalysisResult.issues (AnalysisEngine.run_result run)).
Proof.
  destruct (analyzeCodebase_run path_join path_relative parse newESLint syntaxDetector
              logicDetector performanceDetector securityDetector complexityCalculator
              Math_log Math_log2 W progressCallback projectPath clock w)
    as (fas & log & _ & Hrun).
  eexists. split; [exact Hrun|].
  cbn [AnalysisEngine.run_result AnalysisResult.issues AnalysisResult.fileAnalyses
       AnalysisResult.metrics].
  split; [reflexivity|].
  unfold AnalysisEngine.calculateMetrics. cbn [issueBreakdown].
  rewrite addFile_totals, bump_counts.
  cbn [AnalysisEngine.t_issues count_error count_warning count_info Nat.add].
  apply severities_partition.
Qed.

(* ----------------------------------------------------------------- *)
(** *** File discovery *)

Lemma Listed_entry (dir : string) (entries : list Dirent) (f : SourceFile) :
  Listed path_join dir entries f
  <-> exists e, In e entries /\ Listed path_join dir [e] f.
Proof.
  split.
  - intros H. destruct H as [dir entries nm content Hin Hs Hj
                            | dir entries nm sub f Hin Hs Hsub].
    + exists (FileEntry nm content). split; [exact Hin|].
      apply Listed_file; [now left | exact Hs | exact Hj].
    + exists (DirEntry nm (Ok sub)). split; [exact Hin|].
      apply Listed_sub with nm sub; [now left | exact Hs | exact Hsub].
  - intros (e & He & H). inversion H as [d es nm content Hin Hs Hj
                                        | d es nm sub f' Hin Hs Hsub]; subst.
    + destruct Hin as [->|[]]. now apply Listed_file.
    + destruct Hin as [->|[]]. now apply Listed_sub with nm sub.
Qed.

Lemma getJavaScriptFiles_entries (dir : string) (entries : list Dirent) (f : SourceFile) :
  In f (fst (getJavaScriptFiles (dir, Ok entries)))
  <-> exists e, In e entries /\ In f (fst (scanEntry dir e)).
Proof.
  unfold AnalysisEngine.getJavaScriptFiles. cbn [fst snd].
  induction entries as [|e entries IH]; cbn [fold_right fst].
  - split; [intros [] | intros (e & [] & _)].
  - rewrite in_app_iff, IH. split.
    + intros [H|(e' & He' & H)]; [exists e; split; [now left | exact H]
                                 | exists e'; split; [now right | exact H]].
    + intros (e' & [<-|He'] & H); [now left | right; now exists e'].
Qed.

Lemma Dirent_induction (P : Dirent -> Prop) :
  (forall nm content, P (FileEntry nm content)) ->
  (forall nm err, P (DirEntry nm (Throw err))) ->
  (forall nm entries, Forall P entries -> P (DirEntry nm (Ok entries))) ->
  forall e, P e.
Proof.
  intros Hfile Hthrow Hdir.
  exact (fix IH (e : Dirent) : P e :=
           match e with
           | FileEntry nm content => Hfile nm content
           | DirEntry nm (Throw err) => Hthrow nm err
           | DirEntry nm (Ok entries) =>
               Hdir nm entries
                    ((fix all (l : list Dirent) : Forall P l :=
                        match l with
                        | [] => Forall_nil P
                        | x :: tl => Forall_cons x (IH x) (all tl)
                        end) entries)
           end).
Qed.

Ltac not_listed H :=
  inversion H as [? ? ? ? Hin ? ? | ? ? ? ? ? Hin ? ?];
  subst; destruct Hin as [[=]|[]]; subst; congruence.

Lemma scanEntry_listed (e : Dirent) :
  forall (dir : string) (f : SourceFile),
    In f (fst (scanEntry dir e)) <-> Listed path_join dir [e] f.
Proof.
  induction e as [nm content|nm err|nm entries IH] using Dirent_induction; intros dir f.
  - cbn [AnalysisEngine.scanEntry dirent_name].
    destruct (arr_includes AnalysisEngine.skipped nm) eqn:Hs;
      [|destruct (AnalysisEngine.isJavaScriptName nm) eqn:Hj]; cbn [fst In].
    + split; [intros [] | intros H; not_listed H].
    + split.
      * intros [<-|[]]. apply Listed_file; [now left | exact Hs | exact Hj].
      * intros H. inversion H as [d es nm' c' Hin Hs' Hj' | d es nm' sub f' Hin Hs' Hsub];
          subst; destruct Hin as [[=]|[]]; subst. now left.
    + split; [intros [] | intros H; not_listed H].
  - cbn [AnalysisEngine.scanEntry dirent_name].
    destruct (arr_includes AnalysisEngine.skipped nm) eqn:Hs; cbn [fst In];
      (split; [intros [] | intros H]).
    + not_listed H.
    + inversion H as [d es nm' c' Hin Hs' Hj' | d es nm' sub f' Hin Hs' Hsub];
        subst; destruct Hin as [[=]|[]].
  - destruct (arr_includes AnalysisEngine.skipped nm) eqn:Hs.
    + cbn [AnalysisEngine.scanEntry dirent_name]. rewrite Hs. cbn [fst In].
      split; [intros [] | intros H; not_listed H].
    + rewrite (scanEntry_directory path_join dir nm (Ok entries) Hs).
      rewrite Forall_forall in IH.
      rewrite getJavaScriptFiles_entries. split.
      * intros (e & He & Hf). apply Listed_sub with nm entries; [now left | exact Hs|].
        apply Listed_entry. exists e. split; [exact He|].
        now apply IH.
      * intros H. inversion H as [d es nm' c' Hin Hs' Hj' | d es nm' sub f' Hin Hs' Hsub];
          subst; destruct Hin as [[=]|[]]; subst.
        apply Listed_entry in Hsub. destruct Hsub as (e & He & Hf).
        exists e. split; [exact He|]. now apply IH.
Qed.

(** X17. File discovery returns exactly the files with one of the source
    extensions that are reached from the scanned directory through
    readable directories without meeting one of the names [node_modules],
    [dist], [build], [.git], [.next] (as a directory or as the file
    itself); a directory that cannot be read contributes no file and does
    not stop the scan. *)
Theorem X17_file_discovery (dir : AnalysisEngine.Dir) (f : SourceFile) :
  In f (fst (getJavaScriptFiles dir))
  <-> exists entries, snd dir = Ok entries /\ Listed path_join (fst dir) entries f.
Proof.
  destruct dir as [d [entries|err]]; cbn [fst snd].
  - rewrite getJavaScriptFiles_entries. split.
    + intros (e & He & Hf). exists entries. split; [reflexivity|].
      apply Listed_entry. exists e. split; [exact He|]. now apply scanEntry_listed.
    + intros (entries' & [= <-] & H). apply Listed_entry in H.
      destruct H as (e & He & Hf). exists e. split; [exact He|].
      now apply scanEntry_listed.
  - cbn. split; [intros [] | intros (entries & [=] & _)].
Qed.

(* ----------------------------------------------------------------- *)
(** *** Framework detection *)

Lemma detectLoop_invariant (P : string * AnalysisEngine.Dir -> Prop)
      (dirs : list AnalysisEngine.Dir) (st : string * AnalysisEngine.Dir) :
  P st ->
  (forall fw d, In fw (map fst AnalysisEngine.indicators) -> In d dirs -> P (fw, d)) ->
  P (AnalysisEngine.detectLoop dirs st).
Proof.
  revert st; induction dirs as [|dir rest IH]; intros st Hst Hstep; [exact Hst|].
  cbn [AnalysisEngine.detectLoop].
  destruct (snd dir) as [ents|err].
  - assert (P match find (fun fw => AnalysisEngine.hasClue (map dirent_name ents) (snd fw))
                         AnalysisEngine.indicators with
              | Some fw => (fst fw, dir)
              | None => st
              end) as Hst'.
    { destruct (find _ AnalysisEngine.indicators) as [fw|] eqn:Hfind; [|exact Hst].
      apply find_some in Hfind. apply Hstep; [|now left].
      apply in_map. apply Hfind. }
    destruct (existsb _ _); [exact Hst'|].
    apply IH; [exact Hst'|]. intros fw d Hfw Hd. apply Hstep; [exact Hfw | now right].
  - apply IH; [exact Hst|]. intros fw d Hfw Hd. apply Hstep; [exact Hfw | now right].
Qed.

(** X18. Framework detection answers either the default, [node] with the
    project directory, or one of the eleven framework names together with
    one of the five candidate directories ([src], [frontend], [backend],
    [server] under the project directory, or the project directory); it
    never answers [node] with a subdirectory. *)
Theorem X18_framework_detection (basePath : AnalysisEngine.Dir) :
  let detected := fst (detectFrameworkAndSource basePath) in
  detected = ("node", basePath)
  \/ (In (fst detected)
         ["react"; "next"; "nest"; "express"; "vue"; "angular"; "svelte"; "nuxt";
          "reactnative"; "expo"; "fullstack"]
      /\ (snd detected = basePath
          \/ exists nm, In nm ["src"; "frontend"; "backend"; "server"]
                        /\ snd detected
                           = (path_join (fst basePath) nm,
                              readdir_sub (snd basePath) nm))).
Proof.
  cbv zeta. unfold AnalysisEngine.detectFrameworkAndSource. cbn [fst].
  apply detectLoop_invariant; [now left|].
  intros fw d Hfw Hd. right. split; [exact Hfw|]. cbn [fst snd].
  destruct Hd as [<-|[<-|[<-|[<-|[<-|[]]]]]];
    [right; exists "src" | right; exists "frontend" | right; exists "backend"
     | right; exists "server" | now left];
    (split; [cbn; tauto | reflexivity]).
Qed.




End EngineHelpers.

Lemma X17_file_discovery_witness :
  In (mkSourceFile "/app/src/routes/users.js" (Ok "x"))
     (fst (AnalysisEngine.getJavaScriptFiles sample_path_join nested_project))
  /\ map sf_path (fst (AnalysisEngine.getJavaScriptFiles sample_path_join nested_project))
     = ["/app/src/routes/users.js"].
Proof.
  split; [|reflexivity].
  apply (proj2 (X17_file_discovery sample_path_join nested_project
                  (mkSourceFile "/app/src/routes/users.js" (Ok "x")))).
  eexists. split; [reflexivity|].
  apply Listed_sub with "src" [ DirEntry "routes" (Ok [ sample_file "users.js" "x" ]) ];
    [cbn; tauto | reflexivity|].
  apply Listed_sub with "routes" [ sample_file "users.js" "x" ];
    [cbn; tauto | reflexivity|].
  apply (Listed_file sample_path_join "/app/src/routes" [ sample_file "users.js" "x" ]
                     "users.js" (Ok "x")); [cbn; tauto | reflexivity | reflexivity].
Defined.


(* ================================================================= *)
(** ** The analysis worker *)

Lemma progress_range (i n : nat) :
  (i < n)%nat -> (0 <= AnalysisEngine.progress i n <= 100)%Z.
Proof.
  intros Hin. split.
  - unfold AnalysisEngine.progress, Math_round, fmul, fdiv.
    change 0%Z with (Qfloor 0). apply Qfloor_resp_le.
    assert (0 <= fl (fl (num (i + 1) / num n) * 100))%Q; [|lra].
    apply fl_sign_nonneg. apply Qmult_le_0_compat; [|discriminate].
    apply fl_sign_nonneg. apply Qmult_le_0_compat; [apply (num_le 0); lia|].
    apply Qinv_le_0_compat. apply (num_le 0 n). lia.
  - rewrite <- (progress_final n) by lia. apply progress_mono. lia.
Qed.

Lemma workerPercent_exact (progress : Z) :
  (0 <= progress <= 100)%Z ->
  (workerPercent progress
   == inject_Z (if (progress =? 90)%Z then 72 else 10 + 7 * progress / 10))%Q.
Proof.
  intros Hp.
  assert (forallb (fun k => Qeq_bool (workerPercent (Z.of_nat k))
                                     (inject_Z (if (Z.of_nat k =? 90)%Z then 72
                                                else 10 + 7 * Z.of_nat k / 10)))
                  (seq 0 101) = true) as Hall by (vm_compute; reflexivity).
  rewrite forallb_forall in Hall.
  rewrite <- (Z2Nat.id progress) by lia.
  apply Qeq_bool_eq, Hall, in_seq. lia.
Qed.

(** X20. In a run over [n >= 1] files, the percentage the worker stores
    for the engine's progress after each file lies between 10 and 80,
    never decreases from one file to the next, and is 80 after the last
    file. It is [10 + floor(7 * progress / 10)], except at progress 90,
    where the binary64 product [90 * 0.7] is just below 63 and the
    percentage is 72, not 73. *)
Theorem X20_worker_percent (n i j : nat) :
  (i <= j)%nat -> (j < n)%nat ->
  (workerPercent (AnalysisEngine.progress i n)
   == inject_Z (if (AnalysisEngine.progress i n =? 90)%Z then 72
                else 10 + 7 * AnalysisEngine.progress i n / 10))%Q
  /\ (10 <= workerPercent (AnalysisEngine.progress i n) <= 80)%Q
  /\ (workerPercent (AnalysisEngine.progress i n)
      <= workerPercent (AnalysisEngine.progress j n))%Q
  /\ (workerPercent (AnalysisEngine.progress (n - 1) n) == 80)%Q.
Proof.
  intros Hij Hjn.
  pose proof (progress_range i n ltac:(lia)) as Hi.
  pose proof (progress_range j n Hjn) as Hj.
  pose proof (progress_mono i j n Hij) as Hmono.
  rewrite (workerPercent_exact _ Hi), (workerPercent_exact _ Hj).
  rewrite (progress_final n) by lia.
  set (a := AnalysisEngine.progress i n) in *.
  set (b := AnalysisEngine.progress j n) in *.
  split; [reflexivity|]. split; [|split].
  - change 10%Q with (inject_Z 10). change 80%Q with (inject_Z 80).
    rewrite <- !Zle_Qle. destruct (Z.eqb_spec a 90); Z.div_mod_to_equations; lia.
  - rewrite <- Zle_Qle.
    destruct (Z.eqb_spec a 90), (Z.eqb_spec b 90); Z.div_mod_to_equations; lia.
  - apply Qeq_bool_eq. vm_compute. reflexivity.
Qed.

Lemma X20_worker_percent_witness :
  (workerPercent (AnalysisEngine.progress 35 40) == 72)%Q
  /\ (workerPercent (AnalysisEngine.progress 39 40) == 80)%Q.
Proof.
  destruct (X20_worker_percent 40 35 39 ltac:(lia) ltac:(lia)) as (E & _ & _ & F).
  split; [|exact F].
  rewrite E. apply Qeq_bool_eq. vm_compute. reflexivity.
Defined.

(* ----------------------------------------------------------------- *)
(** *** runWithRetry *)

Section RetryProperties.
Variable fn : nat -> Result unit.
Variable commitTransaction : nat -> Result unit.
Variable abortTransaction : nat -> Result unit.

Local Abbreviation run := (runWithRetry fn commitTransaction abortTransaction).

Ltac every_run :=
  unfold runWithRetry; cbn [seq MAX_RETRIES retryLoop];
  repeat match goal with
         | |- context [match fn ?k with _ => _ end] =>
             destruct (fn k) as [[]|?] eqn:?
         | |- context [match commitTransaction ?k with _ => _ end] =>
             destruct (commitTransaction k) as [[]|?] eqn:?
         | |- context [match abortTransaction ?k with _ => _ end] =>
             destruct (abortTransaction k) as [[]|?] eqn:?
         | |- context [includes ?m "Write conflict"] =>
             destruct (includes m "Write conflict") eqn:?
         | _ => progress cbn [fst snd andb Nat.ltb Nat.leb app]
         end.

Ltac known_outcomes :=
  unfold attempt_error;
  repeat match goal with
         | H : fn _ = _ |- _ => rewrite H
         | H : commitTransaction _ = _ |- _ => rewrite H
         end.

(** X21. Whatever the transaction body, the commit and the abort do,
    [runWithRetry] calls the body at least once and at most three times,
    waits 1500 ms at most in total, and returns normally only after a
    commit has succeeded. A second attempt is made only after a first
    attempt has failed with an error whose message contains
    [Write conflict]: any other error of the first attempt is thrown again
    after one call (or the error of the abort, if aborting fails too). *)
Theorem X21_retry_policy :
  (1 <= List.length (filter is_call (snd run)) <= 3)%nat
  /\ (0 <= slept (snd run) <= 1500)%Z
  /\ (fst run = Ok tt ->
      exists attempt, last (snd run) StartSession = LogCommitted attempt
                      /\ attempt_error fn commitTransaction attempt = None)
  /\ (forall err,
        attempt_error fn commitTransaction 1 = Some err ->
        includes (err_message err) "Write conflict" = false ->
        List.length (filter is_call (snd run)) = 1%nat
        /\ (abortTransaction 1 = Ok tt -> fst run = Throw err)).
Proof.
  split; [|split; [|split]].
  - every_run; cbn; lia.
  - every_run; cbn; lia.
  - every_run; cbn [fst snd]; intros H; try discriminate H;
      first [ exists 1%nat; split; [reflexivity | now known_outcomes]
            | exists 2%nat; split; [reflexivity | now known_outcomes]
            | exists 3%nat; split; [reflexivity | now known_outcomes] ].
  - intros err Herr Hconflict. unfold attempt_error in Herr.
    unfold runWithRetry; cbn [seq MAX_RETRIES retryLoop].
    destruct (fn 1) as [[]|e1]; [destruct (commitTransaction 1) as [[]|e1]|];
      try discriminate Herr; injection Herr as ->;
      cbn [fst snd]; rewrite Hconflict; cbn [andb];
      destruct (abortTransaction 1) as [[]|a1]; cbn [fst snd app filter is_call List.length];
      (split; [reflexivity|]); intros H; first [reflexivity | discriminate H].
Qed.

(** X22. [runWithRetry] starts one session per attempt. It ends the
    session of an attempt only after the attempt has failed and has been
    aborted: when it returns normally, the session of the committed
    attempt has not been ended, so one session is left open; when it
    throws, at most one session is left open, and none if every abort
    succeeded. *)
Theorem X22_retry_sessions :
  List.length (filter is_start (snd run)) = List.length (filter is_call (snd run))
  /\ (fst run = Ok tt ->
      S (List.length (filter is_end (snd run))) = List.length (filter is_start (snd run)))
  /\ (forall err,
        fst run = Throw err ->
        (List.length (filter is_start (snd run))
         <= S (List.length (filter is_end (snd run))))%nat
        /\ ((forall attempt, abortTransaction attempt = Ok tt) ->
            List.length (filter is_end (snd run))
            = List.length (filter is_start (snd run)))).
Proof.
  split; [|split].
  - every_run; reflexivity.
  - every_run; cbn; intros H; try discriminate H; reflexivity.
  - intros err. every_run; cbn; intros H; try discriminate H;
      (split; [lia|]); intros Hab; try reflexivity;
      match goal with
      | A : abortTransaction ?k = Throw _ |- _ => rewrite Hab in A; discriminate A
      end.
Qed.

End RetryProperties.

(* ================================================================= *)
(** ** Error handler *)

Ltac every_branch e :=
  try unfold ErrorHandler.errorHandler; unfold ErrorHandler.plain;
  destruct (ErrorHandler.hasName "ValidationError" e);
  [|destruct (match ErrorHandler.e_code e with Some c => (c =? 11000)%Z | None => false end);
    [|destruct (ErrorHandler.hasName "JsonWebTokenError" e);
      [|destruct (ErrorHandler.hasName "TokenExpiredError" e);
        [|destruct (ErrorHandler.instanceofAuthorizationError e);
          [|destruct (ErrorHandler.instanceofApiError e || ErrorHandler.e_isOperational e
                      || ErrorHandler.truthy (ErrorHandler.e_statusCode e));
            [|destruct (ErrorHandler.hasName "MongoError" e)]]]]]];
  cbn [ErrorHandler.body ErrorHandler.status ErrorHandler.success ErrorHandler.stack
       ErrorHandler.error_message ErrorHandler.message ErrorHandler.errors].

(** X23. Every response of the error handler has [success: false].
    Outside development it never carries a stack trace nor the [error]
    key; the [error] key is sent only by the fallback, with status 500 and
    the fixed message [Internal server error]. Outside development, the
    response to an error that is not an [ApiError], is not operational
    and has no status code does not depend on the message or the stack of
    the error. *)
Theorem X23_error_responses (NODE_ENV : option string) (e : ErrorHandler.AnyError) :
  let response := ErrorHandler.errorHandler NODE_ENV e in
  ErrorHandler.success (ErrorHandler.body response) = false
  /\ (NODE_ENV <> Some "development" ->
      ErrorHandler.stack (ErrorHandler.body response) = None
      /\ ErrorHandler.error_message (ErrorHandler.body response) = None)
  /\ (ErrorHandler.error_message (ErrorHandler.body response) <> None ->
      ErrorHandler.status response = Some 500%Z
      /\ ErrorHandler.message (ErrorHandler.body response) = "Internal server error")
  /\ (NODE_ENV <> Some "development" ->
      ErrorHandler.instanceofApiError e = false ->
      ErrorHandler.e_isOperational e = false ->
      ErrorHandler.truthy (ErrorHandler.e_statusCode e) = false ->
      forall msg trace,
        ErrorHandler.errorHandler NODE_ENV (ErrorHandler.withDetail e msg trace) = response).
Proof.
  cbv zeta.
  assert (NODE_ENV <> Some "development" ->
          match NODE_ENV with Some v => String.eqb v "development" | None => false end
          = false) as Hdev.
  { intros H. destruct NODE_ENV as [v|]; [|reflexivity].
    apply String.eqb_neq. congruence. }
  split; [|split; [|split]].
  - every_branch e; reflexivity.
  - intros H. unfold ErrorHandler.errorHandler. cbv zeta. rewrite (Hdev H).
    every_branch e; split; reflexivity.
  - every_branch e; intros H; try congruence. now split.
  - intros H Hapi Hop Hsc msg trace.
    assert (ErrorHandler.instanceofAuthorizationError e = false) as Hauth.
    { unfold ErrorHandler.instanceofAuthorizationError, ErrorHandler.instanceofApiError in *.
      now destruct (ErrorHandler.e_class e). }
    unfold ErrorHandler.errorHandler, ErrorHandler.hasName,
      ErrorHandler.instanceofAuthorizationError, ErrorHandler.instanceofApiError in *.
    cbv zeta. rewrite (Hdev H).
    cbn [ErrorHandler.withDetail ErrorHandler.e_name ErrorHandler.e_code
         ErrorHandler.e_keyPattern ErrorHandler.e_class ErrorHandler.e_isOperational
         ErrorHandler.e_statusCode ErrorHandler.e_errors].
    rewrite Hauth, Hapi, Hop, Hsc. cbn [orb].
    reflexivity.
Qed.

Lemma X23_error_responses_witness :
  ErrorHandler.errorHandler (Some "production")
    (ErrorHandler.mkAnyError ErrorHandler.OtherClass (Some "TypeError")
       "Cannot read properties of undefined" (Some "TypeError: at x.js:1") None [] []
       None false)
  = ErrorHandler.mkResponse (Some 500%Z)
      (ErrorHandler.mkBody false "Internal server error" None None None).
Proof.
  pose proof (X23_error_responses (Some "production")
    (ErrorHandler.mkAnyError ErrorHandler.OtherClass (Some "TypeError")
       "Cannot read properties of undefined" (Some "TypeError: at x.js:1") None [] []
       None false)) as H.
  cbv zeta in H. destruct H as (_ & _ & _ & H).
  rewrite <- (H ltac:(discriminate) eq_refl eq_refl eq_refl
                "Cannot read properties of undefined" (Some "TypeError: at x.js:1")).
  reflexivity.
Defined.

(** X24. An error built by one of the three error classes is answered
    with its own status and message: [NotFoundError(resource)] with 404
    and [<resource> not found], [AuthorizationError(message)] with 403 and
    the message, never with a stack, and [ApiError(status, message)] with
    the status, or 400 when the status is 0, and the message; the stack of
    a [NotFoundError] or [ApiError] is sent in development only. *)
Theorem X24_error_classes (NODE_ENV : option string) (trace : string) :
  (forall resource,
      ErrorHandler.errorHandler NODE_ENV (ErrorHandler.NotFoundError trace (Some resource))
      = ErrorHandler.mkResponse (Some 404%Z)
          (ErrorHandler.mkBody false (resource ++ " not found") None None
             (match NODE_ENV with
              | Some v => if String.eqb v "development" then Some trace else None
              | None => None
              end)))
  /\ (forall msg,
         ErrorHandler.errorHandler NODE_ENV (ErrorHandler.AuthorizationError trace (Some msg))
         = ErrorHandler.mkResponse (Some 403%Z)
             (ErrorHandler.mkBody false msg None None None))
  /\ (forall statusCode msg isOperational,
         ErrorHandler.errorHandler NODE_ENV
           (ErrorHandler.ApiError trace statusCode msg isOperational)
         = ErrorHandler.mkResponse
             (Some (if (statusCode =? 0)%Z then 400%Z else statusCode))
             (ErrorHandler.mkBody false msg None None
                (match NODE_ENV with
                 | Some v => if String.eqb v "development" then Some trace else None
                 | None => None
                 end))).
Proof.
  split; [|split].
  - intros resource. unfold ErrorHandler.errorHandler. cbn.
    destruct NODE_ENV as [v|]; [destruct (String.eqb v "development")|]; reflexivity.
  - intros msg. reflexivity.
  - intros statusCode msg isOperational. unfold ErrorHandler.errorHandler. cbn.
    destruct (statusCode =? 0)%Z; cbn;
      (destruct NODE_ENV as [v|]; [destruct (String.eqb v "development")|]); reflexivity.
Qed.

(* ================================================================= *)
(** ** Logic detector *)

Ltac flag_visitor t :=
  dispatch t;
  repeat match goal with
         | H : ?lit <> t |- _ => rewrite (eqb_lit H); clear H
         end;
  cbn [String.eqb Ascii.eqb Bool.eqb andb orb path_node];
  rewrite ?orb_false_r, ?orb_true_r; try reflexivity.

Lemma visit_thenCatch_visitor (x : NodePath) (b : bool) :
  visit LogicDetector.thenCatch_visitor x b
  = Ok (b || is_then_or_catch_call (path_node x)).
Proof.
  destruct x as [[t pr cs] par].
  unfold LogicDetector.thenCatch_visitor, is_then_or_catch_call, is_member_call,
    called_method, isType.
  cbn [path_node node_type]. flag_visitor t.
  destruct (field "callee" _) as [callee|]; cbn [isTypeO andb];
    [|now rewrite orb_false_r].
  unfold isType. destruct (_ && _), b; reflexivity.
Qed.

Lemma visit_try_visitor (x : NodePath) (b : bool) :
  visit LogicDetector.try_visitor x b = Ok (b || isType "TryStatement" (path_node x)).
Proof.
  destruct x as [[t pr cs] par]. unfold LogicDetector.try_visitor, isType.
  cbn [path_node node_type]. flag_visitor t.
Qed.

Lemma visit_exit_visitor (x : NodePath) (b : bool) :
  visit LogicDetector.exit_visitor x b
  = Ok (b || (isType "BreakStatement" (path_node x)
              || isType "ReturnStatement" (path_node x))).
Proof.
  destruct x as [[t pr cs] par]. unfold LogicDetector.exit_visitor, isType.
  cbn [path_node node_type]. flag_visitor t.
Qed.

Lemma visit_return_visitor (x : NodePath) (b : bool) :
  visit LogicDetector.return_visitor x b
  = Ok (b || isType "ReturnStatement" (path_node x)).
Proof.
  destruct x as [[t pr cs] par]. unfold LogicDetector.return_visitor, isType.
  cbn [path_node node_type]. flag_visitor t.
Qed.

Lemma visit_api_visitor (x : NodePath) (b : bool) :
  visit LogicDetector.api_visitor x b
  = Ok (b || (isType "CallExpression" (path_node x)
              && LogicDetector.isApiCall (path_node x))).
Proof.
  destruct x as [[t pr cs] par]. unfold LogicDetector.api_visitor, isType.
  cbn [path_node node_type]. flag_visitor t.
  destruct (LogicDetector.isApiCall _), b; reflexivity.
Qed.

Section LogicProperties.
Variable booleanValue : node -> option bool.
Variable fp : string.

Local Abbreviation issues_at := (logic_issues_at booleanValue fp).
Local Abbreviation visitor := (LogicDetector.visitor booleanValue fp).

Lemma CallExpression_at (p : NodePath) (issues : list CodeIssue) :
  LogicDetector.CallExpression fp p issues
  = Ok (issues
        ++ when (LogicDetector.isPromiseCall (path_node p)
                 && negb (isTypeO "AwaitExpression" (path_parent p))
                 && negb (contains is_then_or_catch_call (path_node p)))
                (LogicDetector.logic_issue error "Unhandled promise - use await or .catch()"
                                           (path_node p) fp "UNHANDLED_PROMISE")).
Proof.
  unfold LogicDetector.CallExpression, LogicDetector.hasThenCatch.
  rewrite (flag_traversal _ is_then_or_catch_call p visit_thenCatch_visitor).
  unfold when, push.
  destruct (LogicDetector.isPromiseCall _); cbn [bind andb]; [|now rewrite app_nil_r].
  destruct (negb (isTypeO _ _) && negb _); [reflexivity | now rewrite app_nil_r].
Qed.

Lemma containsTryCatch_body (p : NodePath) :
  LogicDetector.containsTryCatch p
  = Ok (match field "body" (path_node p) with
        | Some body => isType "BlockStatement" body && contains (isType "TryStatement") body
        | None => false
        end).
Proof.
  unfold LogicDetector.containsTryCatch.
  destruct (field "body" _) as [body|]; [|reflexivity].
  destruct (isType "BlockStatement" body); cbn [negb andb]; [|reflexivity].
  now rewrite (flag_traversal _ (isType "TryStatement") _ visit_try_visitor).
Qed.

Lemma FunctionDeclaration_at (p : NodePath) (issues : list CodeIssue) :
  LogicDetector.FunctionDeclaration fp p issues
  = if negb (contains (isType "ReturnStatement") (path_node p))
       && match field "returnType" (path_node p) with
          | Some rt =>
              isType "TSTypeAnnotation" rt
              && match field "typeAnnotation" rt with Some _ => false | None => true end
          | None => false
          end
    then Throw (typeError "Cannot read properties of undefined (reading 'type')")
    else
      Ok (issues
          ++ when (async (path_node p)
                   && negb (match field "body" (path_node p) with
                            | Some body =>
                                isType "BlockStatement" body
                                && contains (isType "TryStatement") body
                            | None => false
                            end))
                  (LogicDetector.logic_issue warning "Async function without try-catch block"
                                             (path_node p) fp "ASYNC_NO_TRY_CATCH")
          ++ when (negb (contains (isType "ReturnStatement") (path_node p))
                   && negb (declared_void (path_node p)))
                  (LogicDetector.logic_issue
                     warning "Function may not return a value in all code paths"
                     (path_node p) fp "MISSING_RETURN")).
Proof.
  unfold LogicDetector.FunctionDeclaration, LogicDetector.hasReturnStatement,
    LogicDetector.isVoidFunction, declared_void.
  rewrite containsTryCatch_body.
  rewrite (flag_traversal _ (isType "ReturnStatement") p visit_return_visitor).
  unfold when, push.
  destruct (async (path_node p)); cbn [bind andb];
    [destruct (negb match field "body" _ with Some _ => _ | None => _ end)|];
    cbn [bind];
    (destruct (contains (isType "ReturnStatement") _); cbn [bind negb andb];
     [now rewrite ?app_nil_r, <- ?app_assoc|]);
    (destruct (field "returnType" _) as [rt|]; cbn [bind negb];
     [destruct (isType "TSTypeAnnotation" rt); cbn [andb bind negb];
      [destruct (field "typeAnnotation" rt) as [annotation|]; cbn [bind isTypeO];
       [destruct (isType "TSVoidKeyword" annotation); cbn [negb]|]|]|]);
    try reflexivity; now rewrite ?app_nil_r, <- ?app_assoc.
Qed.

Lemma WhileStatement_at (p : NodePath) (issues : list CodeIssue) :
  LogicDetector.WhileStatement booleanValue fp p issues
  = Ok (issues
        ++ when (LogicDetector.isTrueLiteral booleanValue (field "test" (path_node p))
                 && negb (contains (fun c => isType "BreakStatement" c
                                             || isType "ReturnStatement" c)
                                   (path_node p)))
                (LogicDetector.logic_issue error "Potential infinite loop detected"
                                           (path_node p) fp "INFINITE_LOOP")).
Proof.
  unfold LogicDetector.WhileStatement, LogicDetector.containsBreakOrReturn.
  rewrite (flag_traversal _ (fun c => isType "BreakStatement" c
                                      || isType "ReturnStatement" c)
                          p visit_exit_visitor).
  unfold when, push.
  destruct (LogicDetector.isTrueLiteral _ _); cbn [bind andb]; [|now rewrite app_nil_r].
  destruct (contains _ _); cbn [negb]; [now rewrite app_nil_r | reflexivity].
Qed.

Lemma ForStatement_at (p : NodePath) (issues : list CodeIssue) :
  LogicDetector.ForStatement fp p issues
  = Ok (issues
        ++ when (contains (fun c => isType "CallExpression" c && LogicDetector.isApiCall c)
                          (path_node p))
                (LogicDetector.logic_issue
                   warning "API call inside loop - consider batching or using Promise.all()"
                   (path_node p) fp "API_CALL_IN_LOOP")).
Proof.
  unfold LogicDetector.ForStatement.
  rewrite (flag_traversal _ (fun c => isType "CallExpression" c
                                      && LogicDetector.isApiCall c)
                          p visit_api_visitor).
  unfold when, push. cbn [bind].
  destruct (contains _ _); [reflexivity | now rewrite app_nil_r].
Qed.

(** What the detector does when it visits a node. *)
Lemma visit_logic_at (p : NodePath) (issues : list CodeIssue) :
  visit visitor p issues
  = if broken_annotation (path_node p)
    then Throw (typeError "Cannot read properties of undefined (reading 'type')")
    else Ok (issues ++ issues_at p).
Proof.
  unfold LogicDetector.visitor, logic_issues_at, broken_annotation.
  rewrite !visit_cons, visit_nil. cbv zeta.
  unfold unhandled_promise, async_without_try, missing_return, infinite_loop,
    api_call_in_loop, nan_comparison, isType.
  destruct (String.eqb_spec "CallExpression" (node_type (path_node p))) as [Hc|Hc].
  { rewrite CallExpression_at. rewrite <- Hc.
    cbn [String.eqb Ascii.eqb Bool.eqb andb when app]. now rewrite !app_nil_r. }
  rewrite (eqb_lit Hc). cbn [andb when app].
  destruct (String.eqb_spec "FunctionDeclaration" (node_type (path_node p))) as [Hd|Hd].
  { rewrite FunctionDeclaration_at. rewrite <- Hd.
    cbn [String.eqb Ascii.eqb Bool.eqb andb when app].
    destruct (negb _ && match field "returnType" _ with Some _ => _ | None => _ end);
      [reflexivity|].
    unfold when.
    destruct (async _ && _), (negb _ && negb _); cbn [app]; now rewrite ?app_nil_r. }
  rewrite (eqb_lit Hd). cbn [andb when app].
  destruct (String.eqb_spec "WhileStatement" (node_type (path_node p))) as [Hw|Hw].
  { rewrite WhileStatement_at. rewrite <- Hw.
    cbn [String.eqb Ascii.eqb Bool.eqb andb when app]. unfold when.
    destruct (_ && _); cbn [app]; now rewrite ?app_nil_r. }
  rewrite (eqb_lit Hw). cbn [andb when app].
  destruct (String.eqb_spec "ForStatement" (node_type (path_node p))) as [Hf|Hf].
  { rewrite ForStatement_at. rewrite <- Hf.
    cbn [String.eqb Ascii.eqb Bool.eqb andb when app]. unfold when.
    destruct (contains _ _); cbn [app]; now rewrite ?app_nil_r. }
  rewrite (eqb_lit Hf). cbn [andb when app].
  destruct (String.eqb_spec "BinaryExpression" (node_type (path_node p))) as [Hb|Hb].
  { unfold LogicDetector.BinaryExpression. cbv zeta. rewrite <- Hb.
    cbn [String.eqb Ascii.eqb Bool.eqb andb when app]. unfold when, push.
    destruct (_ && _); now rewrite ?app_nil_r. }
  rewrite (eqb_lit Hb). cbn [andb when app]. now rewrite app_nil_r.
Qed.

(** Whenever the detector returns, its issues of a given code are those
    of the nodes. *)
Lemma logic_detect_code (cd : string) (c : NodePath -> bool) (h : NodePath -> CodeIssue)
      (ast : node) (src : string) (issues : list CodeIssue) :
  (forall p, filter (has_code cd) (issues_at p) = when (c p) (h p)) ->
  LogicDetector.detect booleanValue ast src fp = Ok issues ->
  filter (has_code cd) issues = map h (filter c (root_paths ast)).
Proof.
  intros Hat. unfold LogicDetector.detect, traverse.
  destruct (isProgramOrFile ast); [|discriminate].
  intros Hrun.
  assert (forall p s,
             match visit visitor p s with
             | Ok r => exists e, r = s ++ e /\ filter (has_code cd) e = when (c p) (h p)
             | Throw _ => True
             end) as Hvisit.
  { intros p s. rewrite visit_logic_at.
    destruct (broken_annotation _); [exact I|].
    eexists; split; [reflexivity | apply Hat]. }
  rewrite (foldM_appends_if_ok _ _ _ Hvisit _ _ Hrun). cbn [filter app].
  apply (flat_map_filter_map c h).
Qed.

Ltac by_logic_trigger :=
  intros p; unfold logic_issues_at, when; cbv zeta;
  destruct (unhandled_promise p), (async_without_try _), (missing_return _),
    (infinite_loop _ _), (api_call_in_loop _), (nan_comparison _); reflexivity.

(** X25. Whenever the logic detector returns, it has reported
    [UNHANDLED_PROMISE] exactly once for each call [x.then(...)],
    [x.fetch(...)], or method call on an identifier whose name contains
    [axios] or [fetch], that is not the operand of an [await] and has no
    [.then(...)] or [.catch(...)] call inside it. The calls chained after
    it are not inside it: a promise call that is the receiver of a chained
    [.catch(...)] is reported all the same. *)
Theorem X25_unhandled_promise (ast : node) (src : string) (issues : list CodeIssue) :
  LogicDetector.detect booleanValue ast src fp = Ok issues ->
  filter (has_code "UNHANDLED_PROMISE") issues
  = map (fun p => LogicDetector.logic_issue
                    error "Unhandled promise - use await or .catch()"
                    (path_node p) fp "UNHANDLED_PROMISE")
        (filter unhandled_promise (root_paths ast))
  /\ (forall p parent,
         In p (root_paths ast) ->
         isType "CallExpression" (path_node p) = true ->
         LogicDetector.isPromiseCall (path_node p) = true ->
         contains is_then_or_catch_call (path_node p) = false ->
         path_parent p = Some parent ->
         isType "MemberExpression" parent = true ->
         In (LogicDetector.logic_issue error "Unhandled promise - use await or .catch()"
                                       (path_node p) fp "UNHANDLED_PROMISE")
            issues).
Proof.
  intros Hrun.
  assert (filter (has_code "UNHANDLED_PROMISE") issues
          = map (fun p => LogicDetector.logic_issue
                            error "Unhandled promise - use await or .catch()"
                            (path_node p) fp "UNHANDLED_PROMISE")
                (filter unhandled_promise (root_paths ast))) as Hcode.
  { revert Hrun. apply (logic_detect_code "UNHANDLED_PROMISE" unhandled_promise).
    by_logic_trigger. }
  split; [exact Hcode|].
  intros p parent Hp Hcall Hpromise Hinside Hparent Hmember.
  assert (In (LogicDetector.logic_issue error "Unhandled promise - use await or .catch()"
                                        (path_node p) fp "UNHANDLED_PROMISE")
             (filter (has_code "UNHANDLED_PROMISE") issues)) as Hin.
  { rewrite Hcode.
    apply (in_map (fun p => LogicDetector.logic_issue _ _ (path_node p) fp _)).
    apply filter_In. split; [exact Hp|].
    unfold unhandled_promise. rewrite Hcall, Hpromise, Hinside, Hparent.
    cbn [isTypeO andb negb]. unfold isType in *. apply String.eqb_eq in Hmember.
    now rewrite Hmember. }
  now apply filter_In in Hin.
Qed.

(** X26. Whenever the logic detector returns, it has reported
    [ASYNC_NO_TRY_CATCH] exactly once for each [async] function
    declaration whose body has no [try] statement anywhere inside it, and
    [MISSING_RETURN] exactly once for each function declaration that has
    no [return] statement anywhere inside it (nested functions included)
    and is not annotated [: void]; function expressions, arrow functions
    and methods are never reported. *)
Theorem X26_function_declarations (ast : node) (src : string) (issues : list CodeIssue) :
  LogicDetector.detect booleanValue ast src fp = Ok issues ->
  filter (has_code "ASYNC_NO_TRY_CATCH") issues
  = map (fun p => LogicDetector.logic_issue
                    warning "Async function without try-catch block"
                    (path_node p) fp "ASYNC_NO_TRY_CATCH")
        (filter (fun p => async_without_try (path_node p)) (root_paths ast))
  /\ filter (has_code "MISSING_RETURN") issues
     = map (fun p => LogicDetector.logic_issue
                       warning "Function may not return a value in all code paths"
                       (path_node p) fp "MISSING_RETURN")
           (filter (fun p => isType "FunctionDeclaration" (path_node p)
                             && negb (contains (isType "ReturnStatement") (path_node p))
                             && negb (declared_void (path_node p)))
                   (root_paths ast)).
Proof.
  intros Hrun. split; revert Hrun.
  - apply (logic_detect_code "ASYNC_NO_TRY_CATCH"
             (fun p => async_without_try (path_node p))).
    by_logic_trigger.
  - apply (logic_detect_code "MISSING_RETURN" (fun p => missing_return (path_node p))).
    by_logic_trigger.
Qed.

(** X27. Whenever the logic detector returns, it has reported
    [INFINITE_LOOP] exactly once for each [while] statement whose test is
    the literal [true] and that has no [break] and no [return] statement
    anywhere inside it; [for (;;)] and [do ... while (true)] are never
    reported. *)
Theorem X27_infinite_loop (ast : node) (src : string) (issues : list CodeIssue) :
  LogicDetector.detect booleanValue ast src fp = Ok issues ->
  filter (has_code "INFINITE_LOOP") issues
  = map (fun p => LogicDetector.logic_issue error "Potential infinite loop detected"
                                            (path_node p) fp "INFINITE_LOOP")
        (filter (fun p =>
                   isType "WhileStatement" (path_node p)
                   && LogicDetector.isTrueLiteral booleanValue
                                                  (field "test" (path_node p))
                   && negb (contains (fun c => isType "BreakStatement" c
                                               || isType "ReturnStatement" c)
                                     (path_node p)))
                (root_paths ast)).
Proof.
  apply (logic_detect_code "INFINITE_LOOP"
           (fun p => infinite_loop booleanValue (path_node p))).
  by_logic_trigger.
Qed.

(** X28. Whenever the logic detector returns, it has reported
    [API_CALL_IN_LOOP] exactly once for each [for] statement that has,
    anywhere inside it, a call whose callee name (the identifier called,
    or the identifier a method is called on) is [fetch] or [axios] or
    contains [http] or [api] in lower case; other loop statements are
    never reported. *)
Theorem X28_api_call_in_loop (ast : node) (src : string) (issues : list CodeIssue) :
  LogicDetector.detect booleanValue ast src fp = Ok issues ->
  filter (has_code "API_CALL_IN_LOOP") issues
  = map (fun p => LogicDetector.logic_issue
                    warning "API call inside loop - consider batching or using Promise.all()"
                    (path_node p) fp "API_CALL_IN_LOOP")
        (filter (fun p =>
                   isType "ForStatement" (path_node p)
                   && contains (fun c => isType "CallExpression" c
                                         && LogicDetector.isApiCall c)
                               (path_node p))
                (root_paths ast)).
Proof.
  apply (logic_detect_code "API_CALL_IN_LOOP" (fun p => api_call_in_loop (path_node p))).
  by_logic_trigger.
Qed.

(** X29. Whenever the logic detector returns, it has reported
    [NAN_COMPARISON] exactly once for each binary expression with operator
    [==] or [===] one side of which is the identifier [NaN]; comparisons
    with [!=] and [!==] are never reported. *)
Theorem X29_nan_comparison (ast : node) (src : string) (issues : list CodeIssue) :
  LogicDetector.detect booleanValue ast src fp = Ok issues ->
  filter (has_code "NAN_COMPARISON") issues
  = map (fun p => LogicDetector.logic_issue
                    error "Use Number.isNaN() instead of comparing with NaN"
                    (path_node p) fp "NAN_COMPARISON")
        (filter (fun p => nan_comparison (path_node p)) (root_paths ast)).
Proof.
  apply (logic_detect_code "NAN_COMPARISON" (fun p => nan_comparison (path_node p))).
  by_logic_trigger.
Qed.

(** X30. On a parsed tree in which every return type annotation of a
    function declaration has its [typeAnnotation], the logic detector
    returns: its result is the issues of the nodes in traversal order, all
    of type [logic] and for the file path it was given. *)
Theorem X30_logic_detector_returns (ast : node) (src : string) :
  isProgramOrFile ast = true ->
  existsb (fun p => broken_annotation (path_node p)) (root_paths ast) = false ->
  LogicDetector.detect booleanValue ast src fp = Ok (flat_map issues_at (root_paths ast))
  /\ Forall (fun i => type i = "logic" /\ filePath i = fp)
            (flat_map issues_at (root_paths ast)).
Proof.
  intros Hroot Hwf. unfold LogicDetector.detect, traverse. rewrite Hroot. split.
  - assert (forall l s,
               existsb (fun p => broken_annotation (path_node p)) l = false ->
               foldM (visit visitor) l s = Ok (s ++ flat_map issues_at l)) as Hfold.
    { induction l as [|p l IH]; intros s Hl; cbn [foldM flat_map].
      - now rewrite app_nil_r.
      - cbn [existsb] in Hl. apply orb_false_iff in Hl. destruct Hl as [Hp Hl].
        rewrite visit_logic_at, Hp. cbn [bind]. rewrite (IH _ Hl).
        now rewrite <- app_assoc. }
    apply (Hfold _ [] Hwf).
  - clear Hwf. induction (root_paths ast) as [|p l IH]; cbn [flat_map]; [constructor|].
    apply Forall_app. split; [|exact IH].
    unfold logic_issues_at, when. cbv zeta.
    destruct (unhandled_promise p), (async_without_try _), (missing_return _),
      (infinite_loop _ _), (api_call_in_loop _), (nan_comparison _);
      repeat (first [apply Forall_nil | apply Forall_cons]); split; reflexivity.
Qed.

End LogicProperties.

Lemma logic_sample_returns :
  exists issues,
    LogicDetector.detect sample_booleanValue logic_sample "" "a.js" = Ok issues.
Proof. vm_compute. eexists. reflexivity. Defined.

Lemma X25_unhandled_promise_witness :
  exists issues,
    LogicDetector.detect sample_booleanValue logic_sample "" "a.js" = Ok issues
    /\ List.length (filter (has_code "UNHANDLED_PROMISE") issues) = 1.
Proof.
  destruct logic_sample_returns as [issues Hrun].
  exists issues. split; [exact Hrun|].
  now rewrite (proj1 (X25_unhandled_promise _ _ _ _ _ Hrun)).
Defined.

Lemma X26_function_declarations_witness :
  exists issues,
    LogicDetector.detect sample_booleanValue logic_sample "" "a.js" = Ok issues
    /\ List.length (filter (has_code "ASYNC_NO_TRY_CATCH") issues) = 1
    /\ List.length (filter (has_code "MISSING_RETURN") issues) = 1.
Proof.
  destruct logic_sample_returns as [issues Hrun].
  exists issues. split; [exact Hrun|].
  destruct (X26_function_declarations _ _ _ _ _ Hrun) as [-> ->]. now split.
Defined.

Lemma X27_infinite_loop_witness :
  exists issues,
    LogicDetector.detect sample_booleanValue logic_sample "" "a.js" = Ok issues
    /\ List.length (filter (has_code "INFINITE_LOOP") issues) = 1.
Proof.
  destruct logic_sample_returns as [issues Hrun].
  exists issues. split; [exact Hrun|].
  now rewrite (X27_infinite_loop _ _ _ _ _ Hrun).
Defined.

Lemma X28_api_call_in_loop_witness :
  exists issues,
    LogicDetector.detect sample_booleanValue logic_sample "" "a.js" = Ok issues
    /\ List.length (filter (has_code "API_CALL_IN_LOOP") issues) = 1.
Proof.
  destruct logic_sample_returns as [issues Hrun].
  exists issues. split; [exact Hrun|].
  now rewrite (X28_api_call_in_loop _ _ _ _ _ Hrun).
Defined.

Lemma X29_nan_comparison_witness :
  exists issues,
    LogicDetector.detect sample_booleanValue logic_sample "" "a.js" = Ok issues
    /\ List.length (filter (has_code "NAN_COMPARISON") issues) = 1.
Proof.
  destruct logic_sample_returns as [issues Hrun].
  exists issues. split; [exact Hrun|].
  now rewrite (X29_nan_comparison _ _ _ _ _ Hrun).
Defined.

Lemma X30_logic_detector_returns_witness :
  isProgramOrFile logic_sample = true
  /\ existsb (fun p => broken_annotation (path_node p)) (root_paths logic_sample) = false
  /\ exists issues,
       LogicDetector.detect sample_booleanValue logic_sample "" "a.js" = Ok issues
       /\ List.length issues = 6.
Proof.
  split; [reflexivity|]. split; [reflexivity|].
  destruct (X30_logic_detector_returns sample_booleanValue "a.js" logic_sample ""
              eq_refl eq_refl) as [Hrun _].
  eexists. split; [exact Hrun | reflexivity].
Defined.
